(** * The reconciliation pipeline of the Kong ingress controller

    A shallow embedding of [internal/ingress/controller/kong.go]:
    [OnUpdate], the fingerprint check, the two reconciliation strategies,
    the rendering of the desired state into a deck [file.Content]
    ([toDeckContent]) with its default filling and sorting, the removal of
    nulls from plugin configurations and the merge of custom entities.

    Conventions of the embedding
    - a Go pointer [*T] is an [option T]; dereferencing [None] is a run-time
      panic;
    - a Go slice is a [list]; a slice that is compared with [nil] is an
      [option (list _)];
    - a Go [map[string]interface{}] is a [gmap string Value];
    - a function returning [(T, error)] returns [error + T], one returning
      [error] returns [option error];
    - logging and calls to the gateway or the secret store are recorded in
      a trace of events, in program order. *)

From Stdlib Require Import ZArith String Ascii Strings.Byte List.
From Stdlib Require Import OrderedTypeEx Sorted.
From stdpp Require Import base option list gmap strings fin_maps pretty.

Set Warnings "-register-all,-clear-no-such-hyp".

Local Open Scope string_scope.
Local Open Scope Z_scope.
Local Open Scope list_scope.

(** ** Run-time values *)

(** What an [interface{}] holds after decoding JSON; [VNull] is the nil
    interface. *)
Inductive Value : Type :=
| VNull
| VBool (b : bool)
| VNumber (n : Z)
| VString (s : string)
| VArray (items : list Value)
| VObject (fields : list (string * Value)).

Definition isNil (v : Value) : bool :=
  match v with VNull => true | _ => false end.

(** Go errors, as far as this file builds them. *)
Inductive error : Type :=
| errorString (msg : string)
| wrapError (msg : string) (cause : error)
| ErrArray (Errors : list error).

Abbreviation bytes := (list byte).

#[global] Instance byte_eq_decision : EqDecision byte := Byte.byte_eq_dec.

(** ** Panics and the event trace *)

Inductive result (A : Type) : Type :=
| Ok (a : A)
| Panic.
Arguments Ok {A} a.
Arguments Panic {A}.

Module http.
(** The request handed to the gateway client: [URL] is the address given
    to [http.NewRequest], [Query] the parameters added to its query
    string. *)
Record Request : Type := mkRequest {
  Method : string;
  URL : string;
  Header : list (string * string);
  Query : list (string * string);
  Body : bytes
}.
End http.

Inductive LogArg : Type :=
| ArgError (e : error)
| ArgString (s : string).

Inductive Event : Type :=
| Errorf (format : string) (arg : LogArg)
| Info (msg : string)
| GetSecret (ns name : string)
| ClientDo (req : http.Request)
| DumpGet (SelectorTags : list string)
| Solve (concurrency : Z) (errs : option (list error)).

(** The events that reach the gateway. *)
Definition gateway_call (e : Event) : bool :=
  match e with
  | ClientDo _ | DumpGet _ | Solve _ _ => true
  | _ => false
  end.

Definition calls_gateway (trace : list Event) : Prop :=
  Exists (fun e => gateway_call e = true) trace.

(** A computation that logs, calls out and may panic. *)
Definition Run (A : Type) : Type := (list Event * result A)%type.

Definition ret {A} (a : A) : Run A := ([], Ok a).

Definition bind {A B} (m : Run A) (f : A -> Run B) : Run B :=
  match m with
  | (t, Ok a) => let (t', r) := f a in (t ++ t', r)
  | (t, Panic) => (t, Panic)
  end.

Definition emit (e : Event) : Run unit := ([e], Ok tt).

Definition panic {A} : Run A := ([], Panic).

(** [*p] *)
Definition deref {A} (p : option A) : Run A :=
  match p with
  | Some a => ret a
  | None => panic
  end.

Declare Scope run_scope.
Delimit Scope run_scope with run.
Notation "'let*' x ':=' m 'in' k" := (bind m (fun x => k))
  (at level 10, x name, m at level 200, k at level 200, only parsing)
  : run_scope.
Local Open Scope run_scope.

(** [for _, x := range l { s = body s x }] *)
Fixpoint range {S A} (l : list A) (body : S -> A -> Run S) (s : S) : Run S :=
  match l with
  | [] => ret s
  | x :: l' => let* s' := body s x in range l' body s'
  end.

Definition panics {A} (m : Run A) : Prop := m.2 = Panic.

Definition returns {A} (m : Run A) (a : A) : Prop := m.2 = Ok a.

(** ** Sorting *)

(** [strings.Compare]: bytes are compared lexicographically. *)
Definition strings_Compare (a b : string) : Z :=
  match String.compare a b with
  | Lt => -1
  | Eq => 0
  | Gt => 1
  end.

Section SliceStable.
Context {A : Type}.
Variable less : A -> A -> bool.

(** [sort.SliceStable] is the Go library's stable sort.  The result of a
    stable sort is determined by its input and the order (see
    [StableSortOf_unique] below), so it is modelled by the simplest one:
    insertion from the right, each element going in front of the sorted
    remainder's first element that is not less than it. *)
Fixpoint insert (x : A) (l : list A) : list A :=
  match l with
  | [] => [x]
  | y :: l' => if less y x then y :: insert x l' else x :: l
  end.

Fixpoint SliceStable (slice : list A) : list A :=
  match slice with
  | [] => []
  | x :: l => insert x (SliceStable l)
  end.
End SliceStable.

(** [sortByString]: the keys are read through pointers, so reading the key
    of an element can panic.  A slice of fewer than two elements is never
    compared; in a longer one every element is compared at least once. *)
Definition lessFn {A} (fieldFn : A -> option string) (a b : A) : bool :=
  match fieldFn a, fieldFn b with
  | Some x, Some y => strings_Compare x y <? 0
  | _, _ => false
  end.

Definition sortByString {A} (fieldFn : A -> option string) (slice : list A)
  : Run (list A) :=
  if (length slice <? 2)%nat then ret slice
  else match mapM fieldFn slice with
       | Some _ => ret (SliceStable (lessFn fieldFn) slice)
       | None => panic
       end.

(** ** The entities of the gateway ([github.com/kong/go-kong/kong])

    The library's types are not part of this repository; each record has
    the fields that the controller reads or writes, and the identifier.
    The remaining fields of an entity are carried along untouched. *)

Module kong.

Module Service.
Record t : Type := mk {
  ID : option string;
  Name : option string;
  Host : option string
}.
End Service.

Module Route.
Record t : Type := mk {
  ID : option string;
  Name : option string;
  HTTPSRedirectStatusCode : option Z;
  PathHandling : option string
}.
End Route.

Module Consumer.
Record t : Type := mk {
  ID : option string;
  Username : option string;
  CustomID : option string
}.
End Consumer.

Module Plugin.
Record t : Type := mk {
  ID : option string;
  Name : option string;
  Consumer : option Consumer.t;
  Route : option Route.t;
  Service : option Service.t;
  Config : option (gmap string Value);
  Enabled : option bool;
  RunOn : option string;
  Protocols : list (option string)
}.
End Plugin.

Module Upstream.
Record t : Type := mk {
  ID : option string;
  Name : option string;
  Algorithm : option string
}.
End Upstream.

Module Target.
Record t : Type := mk {
  ID : option string;
  Target : option string
}.
End Target.

Module Certificate.
Record t : Type := mk {
  ID : option string;
  Cert : option string;
  Key : option string;
  SNIs : list (option string)
}.
End Certificate.

Module CACertificate.
Record t : Type := mk {
  ID : option string;
  Cert : option string
}.
End CACertificate.

Module SNI.
Record t : Type := mk {
  Name : option string
}.
End SNI.

Module KeyAuth.
Record t : Type := mk {
  ID : option string;
  Key : option string
}.
End KeyAuth.

Module HMACAuth.
Record t : Type := mk {
  ID : option string;
  Username : option string;
  Secret : option string
}.
End HMACAuth.

Module BasicAuth.
Record t : Type := mk {
  ID : option string;
  Username : option string;
  Password : option string
}.
End BasicAuth.

Module JWTAuth.
Record t : Type := mk {
  ID : option string;
  Key : option string;
  Secret : option string
}.
End JWTAuth.

Module Oauth2Credential.
Record t : Type := mk {
  ID : option string;
  Name : option string;
  ClientID : option string
}.
End Oauth2Credential.

(** [kong.String], [kong.Int], [kong.Bool]: a pointer to a fresh copy. *)
Definition String (s : string) : option string := Some s.
Definition Int (i : Z) : option Z := Some i.
Definition Bool (b : bool) : option bool := Some b.
Definition StringSlice (elements : list string) : list (option string) :=
  map Some elements.

End kong.

(** ** The declarative document ([github.com/kong/deck/file]) *)

Module file.

Module FPlugin.
Record t : Type := mk {
  Plugin : kong.Plugin.t
}.
End FPlugin.

Module FRoute.
Record t : Type := mk {
  Route : kong.Route.t;
  Plugins : list FPlugin.t
}.
End FRoute.

Module FService.
Record t : Type := mk {
  Service : kong.Service.t;
  Routes : list FRoute.t;
  Plugins : list FPlugin.t
}.
End FService.

Module FTarget.
Record t : Type := mk {
  Target : kong.Target.t
}.
End FTarget.

Module FUpstream.
Record t : Type := mk {
  Upstream : kong.Upstream.t;
  Targets : list FTarget.t
}.
End FUpstream.

Module FCertificate.
Record t : Type := mk {
  ID : option string;
  Cert : option string;
  Key : option string;
  SNIs : list kong.SNI.t
}.
End FCertificate.

Module FCACertificate.
Record t : Type := mk {
  CACertificate : kong.CACertificate.t
}.
End FCACertificate.

Module FConsumer.
Record t : Type := mk {
  Consumer : kong.Consumer.t;
  Plugins : list FPlugin.t;
  KeyAuths : list (option kong.KeyAuth.t);
  HMACAuths : list (option kong.HMACAuth.t);
  JWTAuths : list (option kong.JWTAuth.t);
  BasicAuths : list (option kong.BasicAuth.t);
  Oauth2Creds : list (option kong.Oauth2Credential.t)
}.
End FConsumer.

Module Info.
Record t : Type := mk {
  SelectorTags : list string
}.
End Info.

Module Content.
Record t : Type := mk {
  FormatVersion : string;
  Info : option Info.t;
  Services : list FService.t;
  Routes : list FRoute.t;
  Consumers : list FConsumer.t;
  Plugins : list FPlugin.t;
  Upstreams : list FUpstream.t;
  Certificates : list FCertificate.t;
  CACertificates : list FCACertificate.t
}.
End Content.

End file.

(** ** The desired state ([controller/parser/kongstate]) *)

Module kongstate.

Module Route.
Record t : Type := mk {
  Route : kong.Route.t;
  Plugins : list kong.Plugin.t
}.
End Route.

Module Service.
Record t : Type := mk {
  Service : kong.Service.t;
  Routes : list Route.t;
  Plugins : list kong.Plugin.t
}.
End Service.

Module Target.
Record t : Type := mk {
  Target : kong.Target.t
}.
End Target.

Module Upstream.
Record t : Type := mk {
  Upstream : kong.Upstream.t;
  Targets : list Target.t
}.
End Upstream.

Module Certificate.
Record t : Type := mk {
  Certificate : kong.Certificate.t
}.
End Certificate.

Module Plugin.
Record t : Type := mk {
  Plugin : kong.Plugin.t
}.
End Plugin.

Module Consumer.
Record t : Type := mk {
  Consumer : kong.Consumer.t;
  Plugins : list kong.Plugin.t;
  KeyAuths : list (option kong.KeyAuth.t);
  HMACAuths : list (option kong.HMACAuth.t);
  JWTAuths : list (option kong.JWTAuth.t);
  BasicAuths : list (option kong.BasicAuth.t);
  Oauth2Creds : list (option kong.Oauth2Credential.t)
}.
End Consumer.

Module KongState.
Record t : Type := mk {
  Services : list Service.t;
  Upstreams : list Upstream.t;
  Certificates : list Certificate.t;
  CACertificates : list kong.CACertificate.t;
  Plugins : list Plugin.t;
  Consumers : list Consumer.t
}.
End KongState.

End kongstate.

(** ** Configuration and state of the controller *)

Module Kong.
Record t : Type := mk {
  URL : string;
  Version : string;
  Concurrency : Z;
  HasTagSupport : bool;
  FilterTags : list string
}.
End Kong.

Module Configuration.
Record t : Type := mk {
  Kong : Kong.t;
  KongCustomEntitiesSecret : string;
  InMemory : bool;
  EnableReverseSync : bool
}.
End Configuration.

(** The controller: its static configuration and the fingerprint of the
    last document that was synced ([nil] at start). *)
Record KongController : Type := mkKongController {
  cfg : Configuration.t;
  runningConfigHash : option bytes
}.

(** ** Collaborators

    What the controller calls and this file does not define: the Go
    standard library ([encoding/json], [crypto/sha256], [net/http]), deck
    ([file.Get], [state.Get], [diff.NewSyncer]), go-kong (the deep copy of
    a plugin configuration, which passes it through JSON and gives a
    configuration or nil) and, from this repository,
    the plugin schema store with [fill] and [utils.ParseNameNS].  These are
    functions of their arguments.  [json_Unmarshal] decodes into a map:
    [inr None] is the JSON literal null, which leaves the target as it is. *)
Class Collaborators : Type := {
  Schema : Type;
  KongRawState : Type;
  DeckState : Type;
  Syncer : Type;
  json_Marshal : file.Content.t -> error + bytes;
  json_Marshal_map : gmap string Value -> error + bytes;
  json_Unmarshal : bytes -> error + option (gmap string Value);
  sha256_Sum256 : bytes -> vec byte 32;
  url_Parse : string -> option error;
  Configuration_DeepCopy : gmap string Value -> option (gmap string Value);
  PluginSchemaStore_Schema : string -> error + Schema;
  fill : Schema -> gmap string Value -> error + option (gmap string Value);
  ParseNameNS : string -> error + (string * string);
  state_Get : KongRawState -> error + DeckState;
  file_Get : file.Content.t -> DeckState -> string -> error + KongRawState;
  diff_NewSyncer : DeckState -> DeckState -> error + Syncer
}.

(** What the secret store and the gateway answer during one invocation. *)
Record World `{Collaborators} : Type := mkWorld {
  store_GetSecret : string -> string -> error + gmap string bytes;
  client_Do : http.Request -> option error;
  dump_Get : list string -> error + KongRawState;
  solver_Solve : Syncer -> Z -> option (list error)
}.

Section Controller.
Context `{Collaborators}.

Import kong file.

(** *** Default filling *)

Definition fillRoute (route : kong.Route.t) : kong.Route.t :=
  let route :=
    match Route.HTTPSRedirectStatusCode route with
    | None => Route.mk (Route.ID route) (Route.Name route) (kong.Int 426)
                (Route.PathHandling route)
    | Some _ => route
    end in
  match Route.PathHandling route with
  | None => Route.mk (Route.ID route) (Route.Name route)
              (Route.HTTPSRedirectStatusCode route) (kong.String "v0")
  | Some _ => route
  end.

Definition fillUpstream (upstream : kong.Upstream.t) : kong.Upstream.t :=
  match Upstream.Algorithm upstream with
  | None => Upstream.mk (Upstream.ID upstream) (Upstream.Name upstream)
              (kong.String "round-robin")
  | Some _ => upstream
  end.

Definition setConfig (p : FPlugin.t) (c : option (gmap string Value))
  : FPlugin.t :=
  let q := FPlugin.Plugin p in
  FPlugin.mk (Plugin.mk (Plugin.ID q) (Plugin.Name q) (Plugin.Consumer q)
    (Plugin.Route q) (Plugin.Service q) c (Plugin.Enabled q) (Plugin.RunOn q)
    (Plugin.Protocols q)).

Definition setEnabled (p : FPlugin.t) (e : option bool) : FPlugin.t :=
  let q := FPlugin.Plugin p in
  FPlugin.mk (Plugin.mk (Plugin.ID q) (Plugin.Name q) (Plugin.Consumer q)
    (Plugin.Route q) (Plugin.Service q) (Plugin.Config q) e (Plugin.RunOn q)
    (Plugin.Protocols q)).

Definition setRunOn (p : FPlugin.t) (r : option string) : FPlugin.t :=
  let q := FPlugin.Plugin p in
  FPlugin.mk (Plugin.mk (Plugin.ID q) (Plugin.Name q) (Plugin.Consumer q)
    (Plugin.Route q) (Plugin.Service q) (Plugin.Config q) (Plugin.Enabled q) r
    (Plugin.Protocols q)).

Definition setProtocols (p : FPlugin.t) (ps : list (option string))
  : FPlugin.t :=
  let q := FPlugin.Plugin p in
  FPlugin.mk (Plugin.mk (Plugin.ID q) (Plugin.Name q) (Plugin.Consumer q)
    (Plugin.Route q) (Plugin.Service q) (Plugin.Config q) (Plugin.Enabled q)
    (Plugin.RunOn q) ps).

(** [fillPlugin] updates the plugin it points to and returns an error or
    nil; here it returns the plugin as it is left together with the error.
    Every caller passes the address of a local variable, so the guard
    against a nil pointer is never taken and the argument is the plugin
    itself. *)
Definition fillPlugin (plugin : FPlugin.t) : FPlugin.t * option error :=
  match Plugin.Name (FPlugin.Plugin plugin) with
  | None => (plugin, Some (errorString "plugin doesn't have a name"))
  | Some name =>
    if String.eqb name EmptyString then
      (plugin, Some (errorString "plugin doesn't have a name"))
    else
      match PluginSchemaStore_Schema name with
      | inl err =>
        (plugin,
         Some (wrapError
                 (String.append "error retrieveing schema for plugin " name)
                 err))
      | inr schema =>
        let config :=
          match Plugin.Config (FPlugin.Plugin plugin) with
          | None => ∅
          | Some c => c
          end in
        let plugin := setConfig plugin (Some config) in
        match fill schema config with
        | inl err =>
          (plugin,
           Some (wrapError
                   (String.append "error filling in default for plugin " name)
                   err))
        | inr newConfig =>
          let plugin := setConfig plugin newConfig in
          let plugin :=
            match Plugin.RunOn (FPlugin.Plugin plugin) with
            | None => setRunOn plugin (kong.String "first")
            | Some _ => plugin
            end in
          let plugin :=
            match Plugin.Enabled (FPlugin.Plugin plugin) with
            | None => setEnabled plugin (kong.Bool true)
            | Some _ => plugin
            end in
          let plugin :=
            if (length (Plugin.Protocols (FPlugin.Plugin plugin)) =? 0)%nat
            then setProtocols plugin (kong.StringSlice ["http"; "https"])
            else plugin in
          (setRunOn plugin None, None)
        end
      end
  end.

(** *** Rendering the desired state *)

Definition getIngressControllerTags (n : KongController) : list string :=
  let res := [] in
  if Kong.HasTagSupport (Configuration.Kong (cfg n))
  then res ++ Kong.FilterTags (Configuration.Kong (cfg n))
  else res.

Definition FormatVersion : string := "1.1".

Definition getSNIs (names : list (option string)) : Run (list kong.SNI.t) :=
  range names
    (fun snis name =>
       let* name := deref name in
       ret (snis ++ [SNI.mk (kong.String name)]))
    [].

Definition getFCertificateFromKongCert (kongCert : kong.Certificate.t)
  : Run FCertificate.t :=
  let ID := match Certificate.ID kongCert with
            | Some i => kong.String i | None => None end in
  let Key := match Certificate.Key kongCert with
             | Some k => kong.String k | None => None end in
  let Cert := match Certificate.Cert kongCert with
              | Some c => kong.String c | None => None end in
  let* SNIs := getSNIs (Certificate.SNIs kongCert) in
  ret (FCertificate.mk ID Cert Key SNIs).

Definition pluginString (plugin : FPlugin.t) : string :=
  let p := FPlugin.Plugin plugin in
  let result := EmptyString in
  let result := match Plugin.Name p with
                | Some name => name | None => result end in
  let result := match Plugin.Consumer p with
                | Some c => match Consumer.ID c with
                            | Some id => String.append result id
                            | None => result end
                | None => result end in
  let result := match Plugin.Route p with
                | Some r => match Route.ID r with
                            | Some id => String.append result id
                            | None => result end
                | None => result end in
  let result := match Plugin.Service p with
                | Some s => match Service.ID s with
                            | Some id => String.append result id
                            | None => result end
                | None => result end in
  result.

(** The keys handed to [sortByString]. *)
Definition pluginKey (p : FPlugin.t) : option string :=
  Plugin.Name (FPlugin.Plugin p).
Definition routeKey (r : FRoute.t) : option string :=
  Route.Name (FRoute.Route r).
Definition serviceKey (s : FService.t) : option string :=
  Service.Name (FService.Service s).
Definition topPluginKey (p : FPlugin.t) : option string :=
  Some (pluginString p).
Definition targetKey (t : FTarget.t) : option string :=
  Target.Target (FTarget.Target t).
Definition upstreamKey (u : FUpstream.t) : option string :=
  Upstream.Name (FUpstream.Upstream u).
Definition certificateKey (c : FCertificate.t) : option string :=
  FCertificate.Cert c.
Definition caCertificateKey (c : FCACertificate.t) : option string :=
  CACertificate.Cert (FCACertificate.CACertificate c).
Definition keyAuthKey (c : option kong.KeyAuth.t) : option string :=
  c ≫= KeyAuth.Key.
Definition hmacAuthKey (c : option kong.HMACAuth.t) : option string :=
  c ≫= HMACAuth.Username.
Definition basicAuthKey (c : option kong.BasicAuth.t) : option string :=
  c ≫= BasicAuth.Username.
Definition jwtAuthKey (c : option kong.JWTAuth.t) : option string :=
  c ≫= JWTAuth.Key.
Definition oauth2Key (c : option kong.Oauth2Credential.t) : option string :=
  c ≫= Oauth2Credential.ClientID.
Definition consumerKey (c : FConsumer.t) : option string :=
  Consumer.Username (FConsumer.Consumer c).

(** [DeepCopy] of a [kong.Plugin]: every field is copied.  The configuration
    is copied by [Configuration_DeepCopy], the deep copy of go-kong, which
    serializes the map to JSON and decodes the result: a number can come
    out rounded, and a map that does not serialize comes out as nil.  A nil
    configuration stays nil. *)
Definition DeepCopy (p : kong.Plugin.t) : kong.Plugin.t :=
  Plugin.mk (Plugin.ID p) (Plugin.Name p) (Plugin.Consumer p)
    (Plugin.Route p) (Plugin.Service p)
    (Plugin.Config p ≫= Configuration_DeepCopy)
    (Plugin.Enabled p) (Plugin.RunOn p) (Plugin.Protocols p).

(** The block that [toDeckContent] runs for every plugin of a service, of a
    route and of the top level: wrap the plugin, fill it in and, when that
    fails, log the failure with the name of the plugin. *)
Definition filledPlugin (p : kong.Plugin.t) : Run FPlugin.t :=
  let plugin := FPlugin.mk p in
  let '(plugin, err) := fillPlugin plugin in
  let* _ :=
    match err with
    | Some _ =>
      let* name := deref (Plugin.Name (FPlugin.Plugin plugin)) in
      emit (Errorf "failed to fill-in defaults for plugin: %s"
              (ArgString name))
    | None => ret tt
    end in
  ret plugin.

(** The plugins of a service or of a route: the slice is sorted again after
    every append. *)
Definition attachedPlugins (plugins : list kong.Plugin.t)
  : Run (list FPlugin.t) :=
  range plugins
    (fun attached p =>
       let* plugin := filledPlugin (DeepCopy p) in
       sortByString pluginKey (attached ++ [plugin]))
    [].

Definition toDeckRoute (r : kongstate.Route.t) : Run FRoute.t :=
  let route := fillRoute (kongstate.Route.Route r) in
  let* plugins := attachedPlugins (kongstate.Route.Plugins r) in
  ret (FRoute.mk route plugins).

Definition toDeckService (s : kongstate.Service.t) : Run FService.t :=
  let* plugins := attachedPlugins (kongstate.Service.Plugins s) in
  let* routes :=
    range (kongstate.Service.Routes s)
      (fun routes r =>
         let* route := toDeckRoute r in
         ret (routes ++ [route]))
      [] in
  let* routes := sortByString routeKey routes in
  ret (FService.mk (kongstate.Service.Service s) routes plugins).

Definition toDeckUpstream (u : kongstate.Upstream.t) : Run FUpstream.t :=
  let upstream := fillUpstream (kongstate.Upstream.Upstream u) in
  let targets :=
    foldl (fun targets t => targets ++ [FTarget.mk (kongstate.Target.Target t)])
      [] (kongstate.Upstream.Targets u) in
  let* targets := sortByString targetKey targets in
  ret (FUpstream.mk upstream targets).

Definition toDeckConsumer (c : kongstate.Consumer.t) : Run FConsumer.t :=
  let plugins :=
    foldl (fun plugins p => plugins ++ [FPlugin.mk p])
      [] (kongstate.Consumer.Plugins c) in
  let copy {A} (l : list A) := foldl (fun acc x => acc ++ [x]) [] l in
  let* KeyAuths :=
    sortByString keyAuthKey (copy (kongstate.Consumer.KeyAuths c)) in
  let* HMACAuths :=
    sortByString hmacAuthKey (copy (kongstate.Consumer.HMACAuths c)) in
  let* BasicAuths :=
    sortByString basicAuthKey (copy (kongstate.Consumer.BasicAuths c)) in
  let* JWTAuths :=
    sortByString jwtAuthKey (copy (kongstate.Consumer.JWTAuths c)) in
  let* Oauth2Creds :=
    sortByString oauth2Key (copy (kongstate.Consumer.Oauth2Creds c)) in
  ret (FConsumer.mk (kongstate.Consumer.Consumer c) plugins KeyAuths HMACAuths
         JWTAuths BasicAuths Oauth2Creds).

Definition toDeckContent (n : KongController)
  (k8sState : kongstate.KongState.t) : Run Content.t :=
  let* Services :=
    range (kongstate.KongState.Services k8sState)
      (fun services s =>
         let* service := toDeckService s in
         ret (services ++ [service]))
      [] in
  let* Services := sortByString serviceKey Services in
  let* Plugins :=
    range (kongstate.KongState.Plugins k8sState)
      (fun plugins plugin =>
         let* plugin := filledPlugin (kongstate.Plugin.Plugin plugin) in
         ret (plugins ++ [plugin]))
      [] in
  let* Plugins := sortByString topPluginKey Plugins in
  let* Upstreams :=
    range (kongstate.KongState.Upstreams k8sState)
      (fun upstreams u =>
         let* upstream := toDeckUpstream u in
         ret (upstreams ++ [upstream]))
      [] in
  let* Upstreams := sortByString upstreamKey Upstreams in
  let* Certificates :=
    range (kongstate.KongState.Certificates k8sState)
      (fun certificates c =>
         let* cert :=
           getFCertificateFromKongCert (kongstate.Certificate.Certificate c) in
         ret (certificates ++ [cert]))
      [] in
  let* Certificates := sortByString certificateKey Certificates in
  let CACertificates :=
    foldl (fun cas c => cas ++ [FCACertificate.mk c])
      [] (kongstate.KongState.CACertificates k8sState) in
  let* CACertificates := sortByString caCertificateKey CACertificates in
  let* Consumers :=
    range (kongstate.KongState.Consumers k8sState)
      (fun consumers c =>
         let* consumer := toDeckConsumer c in
         ret (consumers ++ [consumer]))
      [] in
  let* Consumers := sortByString consumerKey Consumers in
  let selectorTags := getIngressControllerTags n in
  let Info :=
    if (0 <? length selectorTags)%nat
    then Some (Info.mk selectorTags)
    else None in
  ret (Content.mk FormatVersion Info Services [] Consumers Plugins Upstreams
         Certificates CACertificates).

(** *** The fingerprint *)

Definition generateSHA (targetContent : Content.t)
  (customEntities : option bytes) : error + bytes :=
  match json_Marshal targetContent with
  | inl err =>
    inl (wrapError "marshaling Kong declarative configuration to JSON" err)
  | inr jsonConfig =>
    let buffer := jsonConfig in
    let buffer :=
      match customEntities with
      | Some c => buffer ++ c
      | None => buffer
      end in
    let shaSum := sha256_Sum256 buffer in
    inr (vec_to_list shaSum)
  end.

(** [reflect.DeepEqual] on two byte slices: both nil, or both not nil and
    equal byte by byte. *)
Definition reflect_DeepEqual (a b : option bytes) : bool :=
  bool_decide (a = b).

(** *** Nulls in plugin configurations *)

(** [for k, v := range p.Config { if v == nil { delete(p.Config, k) } }] *)
Definition deleteNils (Config : option (gmap string Value))
  : option (gmap string Value) :=
  match Config with
  | None => None
  | Some c =>
    Some (map_fold (fun k v config => if isNil v then delete k config
                                      else config) c c)
  end.

Definition cleanPlugin (p : FPlugin.t) : FPlugin.t :=
  setConfig p (deleteNils (Plugin.Config (FPlugin.Plugin p))).

Definition cleanRoute (r : FRoute.t) : FRoute.t :=
  FRoute.mk (FRoute.Route r) (map cleanPlugin (FRoute.Plugins r)).

(** The plugins are reached through pointers and the maps are shared, so
    every deletion shows in the document.  The loop over the services
    cleans the plugins of each service and, once per service, the plugins
    of the routes in [state.Routes], the top-level list of routes. *)
Definition cleanUpNullsInPluginConfigs (state : Content.t) : Content.t :=
  let '(Services, Routes) :=
    foldl (fun '(services, routes) s =>
             let s := FService.mk (FService.Service s) (FService.Routes s)
                        (map cleanPlugin (FService.Plugins s)) in
             let routes := map cleanRoute routes in
             (services ++ [s], routes))
      ([], Content.Routes state) (Content.Services state) in
  let Consumers :=
    map (fun c =>
           FConsumer.mk (FConsumer.Consumer c)
             (map cleanPlugin (FConsumer.Plugins c))
             (FConsumer.KeyAuths c) (FConsumer.HMACAuths c)
             (FConsumer.JWTAuths c) (FConsumer.BasicAuths c)
             (FConsumer.Oauth2Creds c))
      (Content.Consumers state) in
  let Plugins := map cleanPlugin (Content.Plugins state) in
  Content.mk (Content.FormatVersion state) (Content.Info state) Services
    Routes Consumers Plugins (Content.Upstreams state)
    (Content.Certificates state) (Content.CACertificates state).

(** *** Custom entities *)

(** [json.Unmarshal(data, &target)] for a map: the decoded entries are
    written into the target. *)
Definition Unmarshal_into (data : bytes) (target : gmap string Value)
  : option error * gmap string Value :=
  match json_Unmarshal data with
  | inl err => (Some err, target)
  | inr None => (None, target)
  | inr (Some m) => (None, m ∪ target)
  end.

(** [for k, v := range customEntities { if _, exists := mergeMap[k];
    !exists { mergeMap[k] = v } }] *)
Definition mergeCustomEntities (mergeMap customEntities : gmap string Value)
  : gmap string Value :=
  map_fold (fun k v mergeMap =>
              match mergeMap !! k with
              | Some _ => mergeMap
              | None => <[k:=v]> mergeMap
              end) mergeMap customEntities.

Definition renderConfigWithCustomEntities (state : Content.t)
  (customEntitiesJSONBytes : option bytes) : Run (error + bytes) :=
  match json_Marshal state with
  | inl err => ret (inl (wrapError "marshaling kong config into json" err))
  | inr kongCoreConfig =>
    if (length (default [] customEntitiesJSONBytes) =? 0)%nat
    then ret (inr kongCoreConfig)
    else
      let mergeMap : gmap string Value := ∅ in
      match Unmarshal_into kongCoreConfig mergeMap with
      | (Some err, _) =>
        ret (inl (wrapError
          "unmarshalling kong config into map[string]interface{}" err))
      | (None, mergeMap) =>
        let* mergeMap :=
          match Unmarshal_into (default [] customEntitiesJSONBytes) ∅ with
          | (Some err, _) =>
            let* _ :=
              emit (Errorf
                "failed to unmarshal custom entities from secret data: %v"
                (ArgError err)) in
            ret mergeMap
          | (None, customEntities) =>
            ret (mergeCustomEntities mergeMap customEntities)
          end in
        match json_Marshal_map mergeMap with
        | inl err =>
          ret (inl (wrapError "marshaling final config into JSON" err))
        | inr result => ret (inr result)
        end
      end
  end.

Definition fetchCustomEntities (n : KongController) (w : World)
  : Run (error + bytes) :=
  let secretRef := Configuration.KongCustomEntitiesSecret (cfg n) in
  match ParseNameNS secretRef with
  | inl err =>
    ret (inl (wrapError "parsing kong custom entities secret" err))
  | inr (ns, name) =>
    let* _ := emit (GetSecret ns name) in
    match store_GetSecret w ns name with
    | inl err => ret (inl (wrapError "fetching secret" err))
    | inr Data =>
      match Data !! "config" with
      | None =>
        ret (inl (errorString
          (String.append "'config' key not found in custom entities secret '"
             (String.append secretRef "'"))))
      | Some config => ret (inr config)
      end
    end
  end.

(** *** The two strategies *)

(** [http.NewRequest] fails when the address does not parse. *)
Definition http_NewRequest (method url : string) (body : bytes)
  : error + http.Request :=
  match url_Parse url with
  | Some err => inl err
  | None => inr (http.mkRequest method url [] [] body)
  end.

Definition onUpdateInMemoryMode (n : KongController) (w : World)
  (state : Content.t) (customEntities : option bytes) : Run (option error) :=
  let state :=
    Content.mk (Content.FormatVersion state) None (Content.Services state)
      (Content.Routes state) (Content.Consumers state) (Content.Plugins state)
      (Content.Upstreams state) (Content.Certificates state)
      (Content.CACertificates state) in
  let state := cleanUpNullsInPluginConfigs state in
  let* config := renderConfigWithCustomEntities state customEntities in
  match config with
  | inl err => ret (Some (wrapError "constructing kong configuration" err))
  | inr config =>
    match http_NewRequest "POST"
            (String.append (Kong.URL (Configuration.Kong (cfg n))) "/config")
            config with
    | inl err =>
      ret (Some (wrapError "creating new HTTP request for /config" err))
    | inr req =>
      let req :=
        http.mkRequest (http.Method req) (http.URL req)
          (http.Header req ++ [("content-type", "application/json")])
          (http.Query req ++ [("check_hash", "1")])
          (http.Body req) in
      let* _ := emit (ClientDo req) in
      match client_Do w req with
      | Some err =>
        ret (Some (wrapError "posting new config to /config" err))
      | None => ret None
      end
    end
  end.

Definition onUpdateDBMode (n : KongController) (w : World)
  (targetContent : Content.t) : Run (option error) :=
  let tags := getIngressControllerTags n in
  let* _ := emit (DumpGet tags) in
  match dump_Get w tags with
  | inl err => ret (Some (wrapError "loading configuration from kong" err))
  | inr rawState =>
    match state_Get rawState with
    | inl err => ret (Some err)
    | inr currentState =>
      match file_Get targetContent currentState
              (Kong.Version (Configuration.Kong (cfg n))) with
      | inl err => ret (Some err)
      | inr rawState =>
        match state_Get rawState with
        | inl err => ret (Some err)
        | inr targetState =>
          match diff_NewSyncer currentState targetState with
          | inl err => ret (Some (wrapError "creating a new syncer" err))
          | inr syncer =>
            let concurrency :=
              Kong.Concurrency (Configuration.Kong (cfg n)) in
            let errs := solver_Solve w syncer concurrency in
            let* _ := emit (Solve concurrency errs) in
            match errs with
            | Some errs => ret (Some (ErrArray errs))
            | None => ret None
            end
          end
        end
      end
    end
  end.

(** *** OnUpdate *)

(** The custom entities of an invocation (the first block of [OnUpdate]):
    fetched in in-memory mode when a secret is configured; a failure is
    logged and leaves them nil. *)
Definition customEntitiesOf (n : KongController) (w : World)
  : Run (option bytes) :=
  if Configuration.InMemory (cfg n)
     && negb (String.eqb (Configuration.KongCustomEntitiesSecret (cfg n)) EmptyString)
  then
    let* fetched := fetchCustomEntities n w in
    match fetched with
    | inl err =>
      let* _ :=
        emit (Errorf "failed to fetch custom entities: %v" (ArgError err)) in
      ret None
    | inr customEntities => ret (Some customEntities)
    end
  else ret None.

(** The dispatch on the deployment mode. *)
Definition reconcile (n : KongController) (w : World)
  (targetContent : Content.t) (customEntities : option bytes)
  : Run (option error) :=
  if Configuration.InMemory (cfg n)
  then onUpdateInMemoryMode n w targetContent customEntities
  else onUpdateDBMode n w targetContent.

(** The last block of [OnUpdate]: the dispatch and, on success, the store
    of the fingerprint of this invocation. *)
Definition sync (n : KongController) (w : World) (targetContent : Content.t)
  (customEntities shaSum : option bytes)
  : Run (option error * KongController) :=
  let* err := reconcile n w targetContent customEntities in
  match err with
  | Some err => ret (Some err, n)
  | None =>
    let* _ := emit (Info "successfully synced configuration to kong") in
    ret (None, mkKongController (cfg n) shaSum)
  end.

(** The middle block of [OnUpdate]: the fingerprint check, skipped under
    reverse sync, and what follows it. *)
Definition checkAndSync (n : KongController) (w : World)
  (targetContent : Content.t) (customEntities : option bytes)
  : Run (option error * KongController) :=
  let shaSum : option bytes := None in
  if negb (Configuration.EnableReverseSync (cfg n)) then
    match generateSHA targetContent customEntities with
    | inl err => ret (Some err, n)
    | inr sum =>
      let shaSum := Some sum in
      if reflect_DeepEqual (runningConfigHash n) shaSum then
        let* _ :=
          emit (Info "no configuration change, skipping sync to kong") in
        ret (None, n)
      else sync n w targetContent customEntities shaSum
    end
  else sync n w targetContent customEntities shaSum.

(** [OnUpdate] returns the error (or nil) and the controller as it is left.

    The desired state is an argument passed by value.  In the program it
    is reached through a pointer, and the configuration of a plugin of a
    consumer (and that of a top-level plugin for which [fillPlugin]
    returns early) is one map shared by the desired state and the
    document: in in-memory mode [cleanUpNullsInPluginConfigs] deletes the
    nil entries from it, after the fingerprint was taken.  What a later
    invocation finds as the desired state is therefore an argument of its
    own in every statement on a sequence of invocations. *)
Definition OnUpdate (n : KongController) (w : World)
  (state : kongstate.KongState.t) : Run (option error * KongController) :=
  let* targetContent := toDeckContent n state in
  let* customEntities := customEntitiesOf n w in
  checkAndSync n w targetContent customEntities.

End Controller.

(** ** Test doubles for the collaborators *)

(** Modelled from the spec: [utils.ParseNameNS] belongs to this repository
    but is not among the sources; the spec gives the form of a reference,
    [ns/name].  A reference is split at the slashes and must have exactly
    two parts. *)
Fixpoint splitSlash (s : string) : list string :=
  match s with
  | EmptyString => [EmptyString]
  | String c s' =>
    if Ascii.eqb c "/"%char then EmptyString :: splitSlash s'
    else match splitSlash s' with
         | part :: parts => String c part :: parts
         | [] => [String c EmptyString]
         end
  end.

Definition ParseNameNS_model (input : string) : error + (string * string) :=
  match splitSlash input with
  | [ns; name] => inr (ns, name)
  | _ =>
    inl (errorString
           (String.append "invalid format (namespace/name) found in '"
              (String.append input "'")))
  end.

(** A digest for the test doubles: the first 32 bytes of the input, padded
    with zeros. *)
Definition digest32 (input : bytes) : vec byte 32 :=
  fun_to_vec (fun i => default x00 (input !! (fin_to_nat i))).

Definition quote : string := String (Ascii.ascii_of_nat 34) EmptyString.

(** A printer for decoded JSON values, with the fields of an object in the
    order they are stored. *)
Fixpoint printValue (v : Value) : string :=
  match v with
  | VNull => "null"
  | VBool true => "true"
  | VBool false => "false"
  | VNumber n => pretty n
  | VString s => String.append quote (String.append s quote)
  | VArray items =>
    let fix go (l : list Value) : string :=
      match l with
      | [] => EmptyString
      | [x] => printValue x
      | x :: l' => String.append (printValue x) (String.append "," (go l'))
      end in
    String.append "[" (String.append (go items) "]")
  | VObject fields =>
    let fix go (l : list (string * Value)) : string :=
      match l with
      | [] => EmptyString
      | [(k, x)] => String.append k (String.append ":" (printValue x))
      | (k, x) :: l' =>
        String.append k
          (String.append ":"
             (String.append (printValue x) (String.append "," (go l'))))
      end in
    String.append "{" (String.append (go fields) "}")
  end.

Definition printMap (m : gmap string Value) : string :=
  printValue (VObject (map_to_list m)).

Definition printName (name : option string) : string :=
  default "<nil>" name.

Definition printPlugin (p : file.FPlugin.t) : string :=
  String.append (printName (kong.Plugin.Name (file.FPlugin.Plugin p)))
    (match kong.Plugin.Config (file.FPlugin.Plugin p) with
     | Some c => printMap c
     | None => EmptyString
     end).

Definition printRoute (r : file.FRoute.t) : string :=
  String.append (printName (kong.Route.Name (file.FRoute.Route r)))
    (String.concat "," (map printPlugin (file.FRoute.Plugins r))).

Definition printService (s : file.FService.t) : string :=
  String.append (printName (kong.Service.Name (file.FService.Service s)))
    (String.append
       (String.concat "," (map printPlugin (file.FService.Plugins s)))
       (String.concat "," (map printRoute (file.FService.Routes s)))).

(** The test serializer prints the services and the top-level plugins. *)
Definition printContent (c : file.Content.t) : string :=
  String.append (file.Content.FormatVersion c)
    (String.append
       (String.concat ";" (map printService (file.Content.Services c)))
       (String.concat ";" (map printPlugin (file.Content.Plugins c)))).

(** The schema of the test doubles knows every plugin but ["unknown"];
    filling in leaves the given entries and adds an explicit nil for the
    field ["anonymous"], which has no default. *)
Definition fillDouble (config : gmap string Value)
  : error + option (gmap string Value) :=
  match config !! "anonymous" with
  | Some _ => inr (Some config)
  | None => inr (Some (<["anonymous" := VNull]> config))
  end.

(** The test doubles, for a decoder given as a table. *)
Definition doubles (decode : list (string * gmap string Value))
  : Collaborators := {|
  Schema := unit;
  KongRawState := unit;
  DeckState := unit;
  Syncer := unit;
  json_Marshal := fun c => inr (list_byte_of_string (printContent c));
  json_Marshal_map := fun m => inr (list_byte_of_string (printMap m));
  json_Unmarshal := fun data =>
    match list_to_map (M := gmap string (gmap string Value)) decode
            !! string_of_list_byte data with
    | Some m => inr (Some m)
    | None => inl (errorString "invalid character")
    end;
  sha256_Sum256 := digest32;
  url_Parse := fun _ => None;
  Configuration_DeepCopy := Some;
  PluginSchemaStore_Schema := fun name =>
    if String.eqb name "unknown" then inl (errorString "no such plugin")
    else inr tt;
  fill := fun _ config => fillDouble config;
  ParseNameNS := ParseNameNS_model;
  state_Get := fun raw => inr raw;
  file_Get := fun _ _ _ => inr tt;
  diff_NewSyncer := fun _ _ => inr tt
|}.

(** A world in which the secret store, the bulk endpoint, the dump and the
    solver give fixed answers. *)
Definition world (decode : list (string * gmap string Value))
  (secret : error + gmap string bytes) (post : option error)
  (dump : option error) (solve : option (list error))
  : @World (doubles decode) :=
  @mkWorld (doubles decode)
    (fun _ _ => secret)
    (fun _ => post)
    (fun _ => match dump with Some err => inl err | None => inr tt end)
    (fun _ _ => solve).

(** ** Example data *)

Definition plugin (name : option string) (config : option (gmap string Value))
  : kong.Plugin.t :=
  kong.Plugin.mk None name None None None config None None [].

Definition route (name : string) (plugins : list kong.Plugin.t)
  : kongstate.Route.t :=
  kongstate.Route.mk (kong.Route.mk None (Some name) None None) plugins.

Definition service (name : string) (routes : list kongstate.Route.t)
  (plugins : list kong.Plugin.t) : kongstate.Service.t :=
  kongstate.Service.mk (kong.Service.mk None (Some name) None) routes plugins.

Definition consumer (username : string) (plugins : list kong.Plugin.t)
  : kongstate.Consumer.t :=
  kongstate.Consumer.mk (kong.Consumer.mk None (Some username) None) plugins
    [] [] [] [] [].

Definition controller (inMemory reverseSync : bool) (secret : string)
  (hash : option bytes) : KongController :=
  mkKongController
    (Configuration.mk (Kong.mk "http://kong:8001" "2.0.0" 10 true [])
       secret inMemory reverseSync)
    hash.

(** Two services, the second with two routes and two plugins, and a
    consumer with two plugins, all out of order. *)
Definition exampleState : kongstate.KongState.t :=
  kongstate.KongState.mk
    [service "web" [] [];
     service "api"
       [route "v2" [plugin (Some "cors") None];
        route "v1" []]
       [plugin (Some "rate-limiting") None; plugin (Some "acl") None]]
    [] [] [] []
    [consumer "alice"
       [plugin (Some "rate-limiting") None; plugin (Some "acl") None]].

(** A route plugin whose configuration has an explicit null. *)
Definition nullConfig : gmap string Value :=
  {[ "a" := VNull; "b" := VNumber 1 ]}.

Definition stateWithNulls : kongstate.KongState.t :=
  kongstate.KongState.mk
    [service "api"
       [route "v1" [plugin (Some "cors") (Some nullConfig)]]
       [plugin (Some "acl") (Some nullConfig)]]
    [] [] [] [] [].

(** A service plugin without a name. *)
Definition stateWithUnnamedPlugin : kongstate.KongState.t :=
  kongstate.KongState.mk [service "api" [] [plugin None None]] [] [] [] [] [].

(** What the test doubles make of a plugin without configuration. *)
Definition filled (name : string) : file.FPlugin.t :=
  file.FPlugin.mk
    (kong.Plugin.mk None (Some name) None None None
       (Some {[ "anonymous" := VNull ]}) (Some true) None
       [Some "http"; Some "https"]).

Definition filledRoute (name : string) (plugins : list file.FPlugin.t)
  : file.FRoute.t :=
  file.FRoute.mk (kong.Route.mk None (Some name) (Some 426) (Some "v0"))
    plugins.

(** The document expected for [exampleState]. *)
Definition exampleContent : file.Content.t :=
  file.Content.mk "1.1" None
    [file.FService.mk (kong.Service.mk None (Some "api") None)
       [filledRoute "v1" []; filledRoute "v2" [filled "cors"]]
       [filled "acl"; filled "rate-limiting"];
     file.FService.mk (kong.Service.mk None (Some "web") None) [] []]
    []
    [file.FConsumer.mk (kong.Consumer.mk None (Some "alice") None)
       [file.FPlugin.mk (plugin (Some "rate-limiting") None);
        file.FPlugin.mk (plugin (Some "acl") None)]
       [] [] [] [] []]
    [] [] [] [].

(** A document with one service: its plugin and the plugin of its route
    have the configuration [nullConfig]. *)
Definition pluginWith (name : string) (config : gmap string Value)
  : file.FPlugin.t :=
  file.FPlugin.mk
    (kong.Plugin.mk None (Some name) None None None (Some config) (Some true)
       None [Some "http"; Some "https"]).

Definition contentWithNulls : file.Content.t :=
  file.Content.mk "1.1" None
    [file.FService.mk (kong.Service.mk None (Some "api") None)
       [filledRoute "v1" [pluginWith "cors" nullConfig]]
       [pluginWith "acl" nullConfig]]
    [] [] [] [] [] [].

(** The decoder of the test doubles for the merge of custom entities: the
    core document of the empty desired state and a blob of custom
    entities. *)
Definition coreMap : gmap string Value :=
  {[ "_format_version" := VString "1.1";
     "services" := VArray [VObject [("name", VString "api")]] ]}.

Definition customMap : gmap string Value :=
  {[ "services" := VArray [];
     "extra" := VObject [("key", VNumber 1)] ]}.

Definition mergeTable : list (string * gmap string Value) :=
  [("1.1", coreMap); ("custom", customMap)].

Definition emptyContent : file.Content.t :=
  file.Content.mk "1.1" None [] [] [] [] [] [] [].

Definition emptyState : kongstate.KongState.t :=
  kongstate.KongState.mk [] [] [] [] [] [].

(** The fingerprint that the test doubles compute for [exampleContent]. *)
Definition exampleFingerprint : bytes :=
  vec_to_list (digest32 (list_byte_of_string (printContent exampleContent))).

(** A world where the gateway accepts everything, and one where the solver
    reports two errors. *)
Definition calmWorld : @World (doubles []) :=
  world [] (inl (errorString "secret not found")) None None None.

Definition solverErrors : list error :=
  [errorString "409 conflict"; errorString "500 internal error"].

Definition failingWorld : @World (doubles []) :=
  world [] (inl (errorString "secret not found")) None None
    (Some solverErrors).

(** Test doubles whose serializer fails on every document, and a world for
    them. *)
Definition failingMarshal : Collaborators := {|
  Schema := unit;
  KongRawState := unit;
  DeckState := unit;
  Syncer := unit;
  json_Marshal := fun _ => inl (errorString "json: unsupported value: NaN");
  json_Marshal_map := fun m => inr (list_byte_of_string (printMap m));
  json_Unmarshal := fun _ => inl (errorString "invalid character");
  sha256_Sum256 := digest32;
  url_Parse := fun _ => None;
  Configuration_DeepCopy := Some;
  PluginSchemaStore_Schema := fun _ => inr tt;
  fill := fun _ config => fillDouble config;
  ParseNameNS := ParseNameNS_model;
  state_Get := fun raw => inr raw;
  file_Get := fun _ _ _ => inr tt;
  diff_NewSyncer := fun _ _ => inr tt
|}.

Definition speechlessWorld : @World failingMarshal :=
  @mkWorld failingMarshal
    (fun _ _ => inl (errorString "secret not found"))
    (fun _ => None)
    (fun _ => inr tt)
    (fun _ _ => None).

(** A world whose secret has no entry for the custom entities. *)
Definition emptySecretWorld : @World (doubles []) :=
  world [] (inr ∅) None None None.

(** * Specification *)

(** ** Sorted collections *)

Section Sorted.
Context {A : Type}.
Variable key : A -> option string.

(** [a] may come before [b]: both have a key and the keys are in order. *)
Definition keyLe (a b : A) : Prop :=
  exists x y, key a = Some x /\ key b = Some y /\ String.leb x y = true.

(** [output] is [input] sorted by key, elements of equal key in the order
    they have in [input]. *)
Definition StableSortOf (input output : list A) : Prop :=
  StronglySorted keyLe output /\
  forall k, filter (fun a => key a = k) output
            = filter (fun a => key a = k) input.

End Sorted.

(** ** Custom entities *)

(** The top-level mapping of a JSON document; a document that does not
    decode to an object has no top-level keys. *)
Definition topLevel `{Collaborators} (data : bytes) : gmap string Value :=
  match json_Unmarshal data with
  | inr (Some m) => m
  | _ => ∅
  end.

(** ** Traces *)

(** An event that does not reach the gateway. *)
Definition quiet (e : Event) : Prop := gateway_call e = false.

(** A run of the solver. *)
Definition solverEvent (e : Event) : Prop :=
  match e with Solve _ _ => True | _ => False end.

(** ** The fingerprint check *)

(** Whether an invocation goes on to the strategy: always under reverse
    sync; otherwise when the fingerprint is computed and differs from the
    stored one. *)
Definition proceeds `{Collaborators} (n : KongController)
  (targetContent : file.Content.t) (customEntities : option bytes) : bool :=
  Configuration.EnableReverseSync (cfg n)
  || match generateSHA targetContent customEntities with
     | inr sum => negb (reflect_DeepEqual (runningConfigHash n) (Some sum))
     | inl _ => false
     end.

(** The fingerprint that a successful invocation stores. *)
Definition fingerprintOf `{Collaborators} (n : KongController)
  (targetContent : file.Content.t) (customEntities : option bytes)
  : option bytes :=
  if Configuration.EnableReverseSync (cfg n) then None
  else match generateSHA targetContent customEntities with
       | inr sum => Some sum
       | inl _ => None
       end.

(** The strategy failed before it reached the gateway: the in-memory
    strategy could not serialize the document or build the request. *)
Definition failedLocally (err : option error) : Prop :=
  exists cause,
    err = Some (wrapError "constructing kong configuration" cause) \/
    err = Some (wrapError "creating new HTTP request for /config" cause).

(** ** The canonical document *)

Section Canonical.
Context `{Collaborators}.

(** The plugin that is emitted for a plugin: filled in when that succeeds,
    and as [fillPlugin] leaves it otherwise.  The plugins of services and
    of routes are deep copies of those of the desired state. *)
Definition pluginOf (p : kong.Plugin.t) : file.FPlugin.t :=
  (fillPlugin (file.FPlugin.mk p)).1.

Definition routeRendered (r : kongstate.Route.t) (route : file.FRoute.t)
  : Prop :=
  file.FRoute.Route route = fillRoute (kongstate.Route.Route r) /\
  StableSortOf pluginKey
    (map (fun p => pluginOf (DeepCopy p)) (kongstate.Route.Plugins r))
    (file.FRoute.Plugins route).

Definition serviceRendered (s : kongstate.Service.t)
  (service : file.FService.t) : Prop :=
  file.FService.Service service = kongstate.Service.Service s /\
  StableSortOf pluginKey
    (map (fun p => pluginOf (DeepCopy p)) (kongstate.Service.Plugins s))
    (file.FService.Plugins service) /\
  exists routes,
    Forall2 routeRendered (kongstate.Service.Routes s) routes /\
    StableSortOf routeKey routes (file.FService.Routes service).

Definition upstreamRendered (u : kongstate.Upstream.t)
  (upstream : file.FUpstream.t) : Prop :=
  file.FUpstream.Upstream upstream
    = fillUpstream (kongstate.Upstream.Upstream u) /\
  StableSortOf targetKey
    (map (fun t => file.FTarget.mk (kongstate.Target.Target t))
       (kongstate.Upstream.Targets u))
    (file.FUpstream.Targets upstream).

Definition certificateRendered (c : kongstate.Certificate.t)
  (cert : file.FCertificate.t) : Prop :=
  returns (getFCertificateFromKongCert (kongstate.Certificate.Certificate c))
    cert.

(** The credentials of a consumer are sorted; its plugins are in the order
    of the desired state. *)
Definition consumerRendered (c : kongstate.Consumer.t)
  (consumer : file.FConsumer.t) : Prop :=
  file.FConsumer.Consumer consumer = kongstate.Consumer.Consumer c /\
  file.FConsumer.Plugins consumer
    = map file.FPlugin.mk (kongstate.Consumer.Plugins c) /\
  StableSortOf keyAuthKey (kongstate.Consumer.KeyAuths c)
    (file.FConsumer.KeyAuths consumer) /\
  StableSortOf hmacAuthKey (kongstate.Consumer.HMACAuths c)
    (file.FConsumer.HMACAuths consumer) /\
  StableSortOf basicAuthKey (kongstate.Consumer.BasicAuths c)
    (file.FConsumer.BasicAuths consumer) /\
  StableSortOf jwtAuthKey (kongstate.Consumer.JWTAuths c)
    (file.FConsumer.JWTAuths consumer) /\
  StableSortOf oauth2Key (kongstate.Consumer.Oauth2Creds c)
    (file.FConsumer.Oauth2Creds consumer).

(** Every collection of the document is the stable sort, by its key, of the
    elements rendered in the order of the desired state; the plugins of a
    consumer are excepted, see [consumerRendered]. *)
Definition canonical (st : kongstate.KongState.t) (content : file.Content.t)
  : Prop :=
  (exists services,
     Forall2 serviceRendered (kongstate.KongState.Services st) services /\
     StableSortOf serviceKey services (file.Content.Services content)) /\
  StableSortOf topPluginKey
    (map (fun p => pluginOf (kongstate.Plugin.Plugin p))
       (kongstate.KongState.Plugins st))
    (file.Content.Plugins content) /\
  (exists upstreams,
     Forall2 upstreamRendered (kongstate.KongState.Upstreams st) upstreams /\
     StableSortOf upstreamKey upstreams (file.Content.Upstreams content)) /\
  (exists certificates,
     Forall2 certificateRendered (kongstate.KongState.Certificates st)
       certificates /\
     StableSortOf certificateKey certificates
       (file.Content.Certificates content)) /\
  StableSortOf caCertificateKey
    (map file.FCACertificate.mk (kongstate.KongState.CACertificates st))
    (file.Content.CACertificates content) /\
  (exists consumers,
     Forall2 consumerRendered (kongstate.KongState.Consumers st) consumers /\
     StableSortOf consumerKey consumers (file.Content.Consumers content)).

(** [p] is a plugin of a service, of a route or of the top level of [st],
    and has no name. *)
Definition unnamedPluginOf (st : kongstate.KongState.t) (p : kong.Plugin.t)
  : Prop :=
  kong.Plugin.Name p = None /\
  ((exists s, s ∈ kongstate.KongState.Services st /\
              p ∈ kongstate.Service.Plugins s) \/
   (exists s r, s ∈ kongstate.KongState.Services st /\
                r ∈ kongstate.Service.Routes s /\
                p ∈ kongstate.Route.Plugins r) \/
   (exists q, q ∈ kongstate.KongState.Plugins st /\
              kongstate.Plugin.Plugin q = p)).

End Canonical.

(** ** Desired states whose keys are all present *)

Definition namedPlugin (p : kong.Plugin.t) : Prop :=
  is_Some (kong.Plugin.Name p).

Definition keyedRoute (r : kongstate.Route.t) : Prop :=
  is_Some (kong.Route.Name (kongstate.Route.Route r)) /\
  Forall namedPlugin (kongstate.Route.Plugins r).

Definition keyedService (s : kongstate.Service.t) : Prop :=
  is_Some (kong.Service.Name (kongstate.Service.Service s)) /\
  Forall namedPlugin (kongstate.Service.Plugins s) /\
  Forall keyedRoute (kongstate.Service.Routes s).

Definition keyedUpstream (u : kongstate.Upstream.t) : Prop :=
  is_Some (kong.Upstream.Name (kongstate.Upstream.Upstream u)) /\
  Forall (fun t => is_Some (kong.Target.Target (kongstate.Target.Target t)))
    (kongstate.Upstream.Targets u).

Definition keyedCertificate (c : kongstate.Certificate.t) : Prop :=
  is_Some (kong.Certificate.Cert (kongstate.Certificate.Certificate c)) /\
  Forall is_Some (kong.Certificate.SNIs (kongstate.Certificate.Certificate c)).

Definition keyedConsumer (c : kongstate.Consumer.t) : Prop :=
  is_Some (kong.Consumer.Username (kongstate.Consumer.Consumer c)) /\
  Forall (fun a => is_Some (keyAuthKey a)) (kongstate.Consumer.KeyAuths c) /\
  Forall (fun a => is_Some (hmacAuthKey a)) (kongstate.Consumer.HMACAuths c) /\
  Forall (fun a => is_Some (basicAuthKey a))
    (kongstate.Consumer.BasicAuths c) /\
  Forall (fun a => is_Some (jwtAuthKey a)) (kongstate.Consumer.JWTAuths c) /\
  Forall (fun a => is_Some (oauth2Key a)) (kongstate.Consumer.Oauth2Creds c).

(** Every name, address, certificate body, user name and credential key
    that [toDeckContent] reads through a pointer is there. *)
Definition keyedState (st : kongstate.KongState.t) : Prop :=
  Forall keyedService (kongstate.KongState.Services st) /\
  Forall (fun p => namedPlugin (kongstate.Plugin.Plugin p))
    (kongstate.KongState.Plugins st) /\
  Forall keyedUpstream (kongstate.KongState.Upstreams st) /\
  Forall keyedCertificate (kongstate.KongState.Certificates st) /\
  Forall (fun c => is_Some (kong.CACertificate.Cert c))
    (kongstate.KongState.CACertificates st) /\
  Forall keyedConsumer (kongstate.KongState.Consumers st).

(** ** Configurations without nulls *)

Definition notNil (entry : string * Value) : Prop := isNil entry.2 = false.

(** The plugin with the nil entries of its configuration filtered out. *)
Definition withoutNils (p : file.FPlugin.t) : file.FPlugin.t :=
  file.FPlugin.mk
    (kong.Plugin.mk
       (kong.Plugin.ID (file.FPlugin.Plugin p))
       (kong.Plugin.Name (file.FPlugin.Plugin p))
       (kong.Plugin.Consumer (file.FPlugin.Plugin p))
       (kong.Plugin.Route (file.FPlugin.Plugin p))
       (kong.Plugin.Service (file.FPlugin.Plugin p))
       (filter notNil <$> kong.Plugin.Config (file.FPlugin.Plugin p))
       (kong.Plugin.Enabled (file.FPlugin.Plugin p))
       (kong.Plugin.RunOn (file.FPlugin.Plugin p))
       (kong.Plugin.Protocols (file.FPlugin.Plugin p))).

Definition routeWithoutNils (r : file.FRoute.t) : file.FRoute.t :=
  file.FRoute.mk (file.FRoute.Route r) (map withoutNils (file.FRoute.Plugins r)).

Definition serviceWithoutNils (s : file.FService.t) : file.FService.t :=
  file.FService.mk (file.FService.Service s) (file.FService.Routes s)
    (map withoutNils (file.FService.Plugins s)).

Definition consumerWithoutNils (c : file.FConsumer.t) : file.FConsumer.t :=
  file.FConsumer.mk (file.FConsumer.Consumer c)
    (map withoutNils (file.FConsumer.Plugins c))
    (file.FConsumer.KeyAuths c) (file.FConsumer.HMACAuths c)
    (file.FConsumer.JWTAuths c) (file.FConsumer.BasicAuths c)
    (file.FConsumer.Oauth2Creds c).

(** ** The strategies *)

(** The document with [state.Info = nil]. *)
Definition withoutInfo (state : file.Content.t) : file.Content.t :=
  file.Content.mk (file.Content.FormatVersion state) None
    (file.Content.Services state) (file.Content.Routes state)
    (file.Content.Consumers state) (file.Content.Plugins state)
    (file.Content.Upstreams state) (file.Content.Certificates state)
    (file.Content.CACertificates state).

(** The request of the in-memory strategy for a serialized document. *)
Definition configRequest (n : KongController) (config : bytes)
  : http.Request :=
  http.mkRequest "POST"
    (String.append (Kong.URL (Configuration.Kong (cfg n))) "/config")
    [("content-type", "application/json")] [("check_hash", "1")] config.



(** The events of each deployment mode: the secret store and the bulk
    endpoint belong to the in-memory mode, the dump and the solver to the
    incremental mode. *)
Definition eventOfMode (inMemory : bool) (e : Event) : Prop :=
  match e with
  | GetSecret _ _ | ClientDo _ => inMemory = true
  | DumpGet _ | Solve _ _ => inMemory = false
  | Errorf _ _ | Info _ => True
  end.

(** * Properties *)

(** ** Computations *)

Lemma bind_Ok {A B} (m : Run A) (f : A -> Run B) t a :
  m = (t, Ok a) -> bind m f = (t ++ (f a).1, (f a).2).
Proof. intros ->. simpl. by destruct (f a). Qed.

Lemma bind_Panic {A B} (m : Run A) (f : A -> Run B) t :
  m = (t, Panic) -> bind m f = (t, Panic).
Proof. by intros ->. Qed.

Lemma bind_returns {A B} (m : Run A) (f : A -> Run B) t b :
  bind m f = (t, Ok b) ->
  exists t1 a t2, m = (t1, Ok a) /\ f a = (t2, Ok b) /\ t = t1 ++ t2.
Proof.
  destruct m as [t1 [a|]]; simpl; [|discriminate].
  destruct (f a) as [t2 r] eqn:Hf. intros [= <- ->]. by exists t1, a, t2.
Qed.

Lemma panics_bind_l {A B} (m : Run A) (f : A -> Run B) :
  panics m -> panics (bind m f).
Proof. destruct m as [t [a|]]; unfold panics; simpl; congruence. Qed.

Lemma panics_bind_r {A B} (m : Run A) (f : A -> Run B) :
  (forall a, panics (f a)) -> panics (bind m f).
Proof.
  intros Hf. destruct m as [t [a|]]; unfold panics; simpl; [|done].
  specialize (Hf a). unfold panics in Hf. by destruct (f a).
Qed.

Lemma bind_trace {A B} (P : Event -> Prop) (m : Run A) (f : A -> Run B) :
  Forall P m.1 -> (forall a, Forall P (f a).1) -> Forall P (bind m f).1.
Proof.
  intros Hm Hf. destruct m as [t [a|]]; simpl in *; [|done].
  specialize (Hf a). destruct (f a). simpl in *. by apply Forall_app.
Qed.

Lemma range_trace {S A} (P : Event -> Prop) (l : list A)
  (body : S -> A -> Run S) s :
  (forall s x, Forall P (body s x).1) -> Forall P (range l body s).1.
Proof.
  intros Hbody. revert s. induction l as [|x l IH]; intros s; simpl.
  - constructor.
  - apply bind_trace; auto.
Qed.

Lemma range_panics {S A} (l : list A) (body : S -> A -> Run S) s x :
  x ∈ l -> (forall s, panics (body s x)) -> panics (range l body s).
Proof.
  intros Hx Hbody. revert s. induction l as [|y l IH]; intros s.
  - by apply elem_of_nil in Hx.
  - apply elem_of_cons in Hx as [->|Hx]; simpl.
    + apply panics_bind_l, Hbody.
    + apply panics_bind_r. intros s'. by apply IH.
Qed.

(** A loop that appends one rendered element per input element. *)
Lemma range_append {A B} (f : A -> Run B) (l : list A) acc t out :
  range l (fun acc x => bind (f x) (fun y => ret (acc ++ [y]))) acc
    = (t, Ok out) ->
  exists ys, Forall2 (fun x y => returns (f x) y) l ys /\ out = acc ++ ys.
Proof.
  revert acc t. induction l as [|x l IH]; intros acc t; simpl.
  - intros [= <- <-]. exists []. split; [constructor|by rewrite app_nil_r].
  - intros Hrun. apply bind_returns in Hrun as (t1 & acc' & t2 & H1 & H2 & _).
    apply bind_returns in H1 as (t3 & y & t4 & Hy & Hret & _).
    injection Hret as _ <-.
    apply IH in H2 as (ys & Hys & ->).
    exists (y :: ys). split.
    + constructor; [|done]. unfold returns. by rewrite Hy.
    + by rewrite <- app_assoc.
Qed.

(** ** The order on strings *)

Lemma compare_refl (a : string) : String.compare a a = Eq.
Proof. by apply String_as_OT.cmp_eq. Qed.

Lemma compare_Lt_trans (a b c : string) :
  String.compare a b = Lt -> String.compare b c = Lt ->
  String.compare a c = Lt.
Proof.
  intros Hab Hbc. apply String_as_OT.cmp_lt.
  eapply String_as_OT.lt_trans; by apply String_as_OT.cmp_lt.
Qed.

Lemma leb_iff (a b : string) :
  String.leb a b = true <-> a = b \/ String.compare a b = Lt.
Proof.
  unfold String.leb. destruct (String.compare a b) eqn:Hc.
  - apply String_as_OT.cmp_eq in Hc. naive_solver.
  - naive_solver.
  - split; [done|]. intros [->|]; [|done]. by rewrite compare_refl in Hc.
Qed.

Lemma leb_trans (a b c : string) :
  String.leb a b = true -> String.leb b c = true -> String.leb a c = true.
Proof.
  rewrite !leb_iff. intros [->|Hab] [->|Hbc]; eauto using compare_Lt_trans.
Qed.

Lemma not_Lt_leb (a b : string) :
  String.compare a b <> Lt -> String.leb b a = true.
Proof.
  intros Hc. unfold String.leb. rewrite String.compare_antisym.
  by destruct (String.compare a b).
Qed.

Lemma strings_Compare_neg (a b : string) :
  (strings_Compare a b <? 0) = true <-> String.compare a b = Lt.
Proof. unfold strings_Compare. by destruct (String.compare a b). Qed.

(** ** Stable sorting *)

Section StableSort.
Context {A : Type}.
Variable key : A -> option string.

Lemma lessFn_true (a b : A) :
  lessFn key a b = true <->
  exists x y, key a = Some x /\ key b = Some y /\ String.compare x y = Lt.
Proof.
  unfold lessFn. destruct (key a) as [x|], (key b) as [y|];
    [rewrite strings_Compare_neg; naive_solver|..];
    (split; [done|intros (? & ? & ? & ? & ?); congruence]).
Qed.

Lemma lessFn_keys_differ (a b : A) :
  lessFn key a b = true -> key a <> key b.
Proof.
  intros (x & y & Ha & Hb & Hc)%lessFn_true. rewrite Ha, Hb. intros [= ->].
  by rewrite compare_refl in Hc.
Qed.

Lemma lessFn_keyLe (a b : A) : lessFn key a b = true -> keyLe key a b.
Proof.
  intros (x & y & Ha & Hb & Hc)%lessFn_true. exists x, y.
  rewrite leb_iff. auto.
Qed.

Lemma not_lessFn_keyLe (a b : A) :
  is_Some (key a) -> is_Some (key b) ->
  lessFn key a b = false -> keyLe key b a.
Proof.
  intros [x Ha] [y Hb] Hless. exists y, x. split_and!; [done..|].
  apply not_Lt_leb. intros Hc.
  assert (lessFn key a b = true) by (apply lessFn_true; eauto).
  congruence.
Qed.

Lemma keyLe_trans (a b c : A) : keyLe key a b -> keyLe key b c -> keyLe key a c.
Proof.
  intros (x & y & Ha & Hb & Hxy) (y' & z & Hb' & Hc & Hyz).
  exists x, z. split_and!; [done..|]. eapply leb_trans; [done|].
  congruence.
Qed.

Lemma keyLe_antisym (a b : A) : keyLe key a b -> keyLe key b a -> key a = key b.
Proof.
  intros (x & y & Ha & Hb & Hxy) (y' & x' & Hb' & Ha' & Hyx).
  rewrite Ha, Hb. f_equal. apply String.leb_antisym; [done|]. congruence.
Qed.

Lemma elem_of_insert (x z : A) (l : list A) :
  z ∈ insert (lessFn key) x l <-> z = x \/ z ∈ l.
Proof.
  induction l as [|y l IH]; simpl.
  - rewrite list_elem_of_singleton, elem_of_nil. tauto.
  - destruct (lessFn key y x); rewrite !elem_of_cons; [rewrite IH|]; tauto.
Qed.

Lemma insert_filter (x : A) (l : list A) (k : option string) :
  filter (fun a => key a = k) (insert (lessFn key) x l)
  = filter (fun a => key a = k) (x :: l).
Proof.
  induction l as [|y l IH]; simpl; [done|].
  destruct (lessFn key y x) eqn:Hless; [|done].
  apply lessFn_keys_differ in Hless.
  rewrite (filter_cons _ y (insert _ _ _)), IH.
  rewrite !(filter_cons _ x), (filter_cons _ y l).
  repeat case_decide; congruence.
Qed.

Lemma SliceStable_filter (l : list A) (k : option string) :
  filter (fun a => key a = k) (SliceStable (lessFn key) l)
  = filter (fun a => key a = k) l.
Proof.
  induction l as [|x l IH]; simpl; [done|].
  by rewrite insert_filter, !filter_cons, IH.
Qed.

Lemma elem_of_SliceStable (z : A) (l : list A) :
  z ∈ SliceStable (lessFn key) l <-> z ∈ l.
Proof.
  induction l as [|x l IH]; simpl; [done|].
  by rewrite elem_of_insert, elem_of_cons, IH.
Qed.

Lemma insert_sorted (x : A) (l : list A) :
  is_Some (key x) -> Forall (fun a => is_Some (key a)) l ->
  StronglySorted (keyLe key) l ->
  StronglySorted (keyLe key) (insert (lessFn key) x l).
Proof.
  intros Hx Hl Hsorted. induction Hsorted as [|y l Hsorted IH Hy]; simpl.
  - repeat constructor.
  - apply Forall_cons in Hl as [Hky Hl].
    destruct (lessFn key y x) eqn:Hless.
    + constructor; [by apply IH|].
      apply Forall_forall. intros z [->|Hz]%elem_of_insert.
      * by apply lessFn_keyLe.
      * by eapply Forall_forall in Hy.
    + assert (keyLe key x y) by by apply not_lessFn_keyLe.
      constructor; [by constructor|].
      constructor; [done|].
      eapply Forall_impl; [exact Hy|]. intros z Hz. by eapply keyLe_trans.
Qed.

Lemma SliceStable_sorted (l : list A) :
  Forall (fun a => is_Some (key a)) l ->
  StronglySorted (keyLe key) (SliceStable (lessFn key) l).
Proof.
  induction l as [|x l IH]; simpl; [intros _; constructor|].
  intros Hl. apply Forall_cons in Hl as [Hx Hl].
  apply insert_sorted.
  - done.
  - apply Forall_forall. intros z Hz. rewrite elem_of_SliceStable in Hz.
    rewrite Forall_forall in Hl. auto.
  - by apply IH.
Qed.

Lemma SliceStable_StableSortOf (l : list A) :
  Forall (fun a => is_Some (key a)) l ->
  StableSortOf key l (SliceStable (lessFn key) l).
Proof.
  intros Hl. split; [by apply SliceStable_sorted|].
  intros k. apply SliceStable_filter.
Qed.

(** What [sortByString] returns is the stable sort of its argument, and it
    logs nothing. *)
Lemma sortByString_returns (l out : list A) t :
  sortByString key l = (t, Ok out) -> t = [] /\ StableSortOf key l out.
Proof.
  unfold sortByString. destruct (length l <? 2)%nat eqn:Hlen.
  - intros [= <- <-]. split; [done|]. split; [|done].
    destruct l as [|x [|y l]]; [repeat constructor..|done].
  - destruct (mapM key l) as [keys|] eqn:Hkeys; [|discriminate].
    intros [= <- <-]. split; [done|]. apply SliceStable_StableSortOf.
    apply (mapM_is_Some_1 key). by rewrite Hkeys.
Qed.

Lemma sortByString_trace (l : list A) : (sortByString key l).1 = [].
Proof.
  unfold sortByString. destruct (length l <? 2)%nat; [done|].
  by destruct (mapM key l).
Qed.

Lemma StableSortOf_nil : StableSortOf key [] [].
Proof. split; [constructor|done]. Qed.

(** Sorting again after an append gives the sort of the extended input. *)
Lemma StableSortOf_snoc (input sorted out : list A) (x : A) :
  StableSortOf key input sorted ->
  StableSortOf key (sorted ++ [x]) out ->
  StableSortOf key (input ++ [x]) out.
Proof.
  intros [_ Hin] [Hsorted Hout]. split; [done|].
  intros k. by rewrite Hout, !filter_app, Hin.
Qed.

(** A stable sort has one result only. *)
Lemma StableSortOf_unique (input out1 out2 : list A) :
  StableSortOf key input out1 -> StableSortOf key input out2 -> out1 = out2.
Proof.
  intros [Hs1 Hf1] [Hs2 Hf2].
  assert (Hf : forall k, filter (fun a => key a = k) out1
                         = filter (fun a => key a = k) out2)
    by (intros k; by rewrite Hf1, Hf2).
  clear Hf1 Hf2 input. revert out2 Hs2 Hf.
  induction Hs1 as [|a l1 Hs1 IH Ha]; intros out2 Hs2 Hf.
  - destruct out2 as [|b l2]; [done|].
    specialize (Hf (key b)). by rewrite filter_cons_True in Hf.
  - destruct Hs2 as [|b l2 Hs2 Hb].
    { specialize (Hf (key a)). by rewrite filter_cons_True in Hf. }
    destruct (decide (key a = key b)) as [Hab|Hab].
    + pose proof (Hf (key a)) as Hhead.
      rewrite !filter_cons_True in Hhead by done.
      injection Hhead as <- _. f_equal. apply IH; [done|].
      intros k. specialize (Hf k). rewrite !filter_cons in Hf.
      case_decide; congruence.
    + exfalso. apply Hab. apply keyLe_antisym.
      * assert (b ∈ filter (fun c => key c = key b) (a :: l1)) as Hin.
        { rewrite Hf, filter_cons_True by done. left. }
        apply list_elem_of_filter in Hin as [_ Hin].
        apply elem_of_cons in Hin as [->|Hin]; [done|].
        by eapply Forall_forall in Ha.
      * assert (a ∈ filter (fun c => key c = key a) (b :: l2)) as Hin.
        { rewrite <- Hf, filter_cons_True by done. left. }
        apply list_elem_of_filter in Hin as [_ Hin].
        apply elem_of_cons in Hin as [->|Hin]; [done|].
        by eapply Forall_forall in Hb.
Qed.

End StableSort.

(** ** Default filling *)

Section Filling.
Context `{Collaborators}.

(** C7.  [fillRoute] sets the redirect status code to 426 and the path
    handling to v0 exactly where they are unset and changes nothing else;
    [fillUpstream] does the same for the algorithm, with round-robin. *)
Theorem fillRoute_fillUpstream_defaults (route : kong.Route.t)
  (upstream : kong.Upstream.t) :
  kong.Route.HTTPSRedirectStatusCode (fillRoute route)
    = Some (default 426 (kong.Route.HTTPSRedirectStatusCode route)) /\
  kong.Route.PathHandling (fillRoute route)
    = Some (default "v0" (kong.Route.PathHandling route)) /\
  kong.Route.ID (fillRoute route) = kong.Route.ID route /\
  kong.Route.Name (fillRoute route) = kong.Route.Name route /\
  kong.Upstream.Algorithm (fillUpstream upstream)
    = Some (default "round-robin" (kong.Upstream.Algorithm upstream)) /\
  kong.Upstream.ID (fillUpstream upstream) = kong.Upstream.ID upstream /\
  kong.Upstream.Name (fillUpstream upstream) = kong.Upstream.Name upstream.
Proof.
  destruct route as [id name [code|] [handling|]];
    destruct upstream as [uid uname [algorithm|]]; by cbn.
Qed.

Lemma fillPlugin_unnamed (p : kong.Plugin.t) :
  kong.Plugin.Name p = None ->
  fillPlugin (file.FPlugin.mk p)
  = (file.FPlugin.mk p, Some (errorString "plugin doesn't have a name")).
Proof. intros Hname. unfold fillPlugin. simpl. by rewrite Hname. Qed.

Lemma filledPlugin_unnamed (p : kong.Plugin.t) :
  kong.Plugin.Name p = None -> panics (filledPlugin p).
Proof.
  intros Hname. unfold filledPlugin. rewrite fillPlugin_unnamed by done.
  unfold panics. simpl. by rewrite Hname.
Qed.

(** A plugin whose name is the empty string is the best-effort case: the
    failure is logged and the plugin is emitted as it is. *)
Lemma filledPlugin_empty_name (p : kong.Plugin.t) :
  kong.Plugin.Name p = Some EmptyString ->
  filledPlugin p
  = ([Errorf "failed to fill-in defaults for plugin: %s"
        (ArgString EmptyString)],
     Ok (file.FPlugin.mk p)).
Proof.
  intros Hname. unfold filledPlugin, fillPlugin. simpl. rewrite Hname.
  simpl. by rewrite Hname.
Qed.

Lemma attachedPlugins_unnamed (plugins : list kong.Plugin.t) p :
  p ∈ plugins -> kong.Plugin.Name p = None ->
  panics (attachedPlugins plugins).
Proof.
  intros Hp Hname. unfold attachedPlugins.
  eapply range_panics; [exact Hp|]. intros attached.
  by apply panics_bind_l, filledPlugin_unnamed.
Qed.

Lemma toDeckService_unnamed (s : kongstate.Service.t) p :
  kong.Plugin.Name p = None ->
  p ∈ kongstate.Service.Plugins s \/
  (exists r, r ∈ kongstate.Service.Routes s /\ p ∈ kongstate.Route.Plugins r) ->
  panics (toDeckService s).
Proof.
  intros Hname [Hp|(r & Hr & Hp)]; unfold toDeckService.
  - by eapply panics_bind_l, attachedPlugins_unnamed.
  - apply panics_bind_r. intros plugins. apply panics_bind_l.
    eapply range_panics; [exact Hr|]. intros routes.
    apply panics_bind_l. unfold toDeckRoute.
    by eapply panics_bind_l, attachedPlugins_unnamed.
Qed.

(** C9.  A plugin of a service, of a route or of the top level that has no
    name makes [fillPlugin] return the error about the missing name, the
    log statement that follows dereference the nil name, and so the whole
    rendering panic. *)
Theorem toDeckContent_unnamed_plugin_panics (n : KongController)
  (st : kongstate.KongState.t) (p : kong.Plugin.t) :
  unnamedPluginOf st p ->
  fillPlugin (file.FPlugin.mk p)
  = (file.FPlugin.mk p, Some (errorString "plugin doesn't have a name")) /\
  panics (filledPlugin p) /\
  panics (toDeckContent n st).
Proof.
  intros [Hname Hwhere].
  split; [by apply fillPlugin_unnamed|].
  split; [by apply filledPlugin_unnamed|].
  unfold toDeckContent.
  destruct Hwhere as [(s & Hs & Hp)|[(s & r & Hs & Hr & Hp)|(q & Hq & <-)]].
  - apply panics_bind_l. eapply range_panics; [exact Hs|]. intros services.
    apply panics_bind_l. eapply toDeckService_unnamed; eauto.
  - apply panics_bind_l. eapply range_panics; [exact Hs|]. intros services.
    apply panics_bind_l. eapply toDeckService_unnamed; eauto.
  - apply panics_bind_r. intros services. apply panics_bind_r.
    intros services'. apply panics_bind_l.
    eapply range_panics; [exact Hq|]. intros plugins.
    by apply panics_bind_l, filledPlugin_unnamed.
Qed.

End Filling.

(** ** The canonical document is sorted *)

Lemma returns_eq {A} (m : Run A) (a : A) :
  returns m a -> exists t, m = (t, Ok a).
Proof. destruct m as [t r]. unfold returns. simpl. intros ->. by exists t. Qed.

Lemma foldl_snoc_map {A B} (f : A -> B) (l : list A) (acc : list B) :
  foldl (fun acc x => acc ++ [f x]) acc l = acc ++ map f l.
Proof.
  revert acc. induction l as [|x l IH]; intros acc; simpl.
  - by rewrite app_nil_r.
  - by rewrite IH, <- app_assoc.
Qed.

Section Rendering.
Context `{Collaborators}.

Lemma filledPlugin_returns (p : kong.Plugin.t) t plugin :
  filledPlugin p = (t, Ok plugin) -> plugin = pluginOf p.
Proof.
  unfold filledPlugin, pluginOf.
  destruct (fillPlugin (file.FPlugin.mk p)) as [q err].
  intros Hrun. apply bind_returns in Hrun as (t1 & u & t2 & _ & Hret & _).
  by injection Hret as _ <-.
Qed.

Lemma attachedPlugins_range (plugins : list kong.Plugin.t) input acc t out :
  range plugins
    (fun attached p =>
       bind (filledPlugin (DeepCopy p))
         (fun plugin => sortByString pluginKey (attached ++ [plugin])))
    acc = (t, Ok out) ->
  StableSortOf pluginKey input acc ->
  StableSortOf pluginKey
    (input ++ map (fun p => pluginOf (DeepCopy p)) plugins) out.
Proof.
  revert input acc t. induction plugins as [|p plugins IH];
    intros input acc t; simpl.
  - intros [= <- <-]. by rewrite app_nil_r.
  - intros Hrun Hacc.
    apply bind_returns in Hrun as (t1 & acc' & t2 & Hbody & Hrest & _).
    apply bind_returns in Hbody as (t3 & plugin & t4 & Hfill & Hsort & _).
    apply filledPlugin_returns in Hfill as ->.
    apply sortByString_returns in Hsort as [_ Hsort].
    eapply IH in Hrest; [|by eapply StableSortOf_snoc].
    by rewrite <- app_assoc in Hrest.
Qed.

Lemma attachedPlugins_returns (plugins : list kong.Plugin.t) t out :
  attachedPlugins plugins = (t, Ok out) ->
  StableSortOf pluginKey (map (fun p => pluginOf (DeepCopy p)) plugins) out.
Proof.
  intros Hrun. eapply (attachedPlugins_range _ []) in Hrun; [done|].
  apply StableSortOf_nil.
Qed.

Lemma toDeckRoute_returns (r : kongstate.Route.t) route :
  returns (toDeckRoute r) route -> routeRendered r route.
Proof.
  intros [t Hrun]%returns_eq. unfold toDeckRoute in Hrun.
  apply bind_returns in Hrun as (t1 & plugins & t2 & Hplugins & Hret & _).
  injection Hret as _ <-. split; [done|].
  by eapply attachedPlugins_returns.
Qed.

Lemma toDeckService_returns (s : kongstate.Service.t) service :
  returns (toDeckService s) service -> serviceRendered s service.
Proof.
  intros [t Hrun]%returns_eq. unfold toDeckService in Hrun.
  apply bind_returns in Hrun as (t1 & plugins & t2 & Hplugins & Hrun & _).
  apply bind_returns in Hrun as (t3 & routes & t4 & Hroutes & Hrun & _).
  apply bind_returns in Hrun as (t5 & sorted & t6 & Hsort & Hret & _).
  injection Hret as _ <-.
  apply range_append in Hroutes as (rendered & Hrendered & ->).
  apply sortByString_returns in Hsort as [_ Hsort].
  split; [done|]. split; [by eapply attachedPlugins_returns|].
  exists rendered. split; [|done].
  eapply Forall2_impl; [exact Hrendered|]. apply toDeckRoute_returns.
Qed.

Lemma toDeckUpstream_returns (u : kongstate.Upstream.t) upstream :
  returns (toDeckUpstream u) upstream -> upstreamRendered u upstream.
Proof.
  intros [t Hrun]%returns_eq. unfold toDeckUpstream in Hrun.
  apply bind_returns in Hrun as (t1 & targets & t2 & Hsort & Hret & _).
  injection Hret as _ <-.
  apply sortByString_returns in Hsort as [_ Hsort].
  rewrite (foldl_snoc_map
             (fun t => file.FTarget.mk (kongstate.Target.Target t))) in Hsort.
  by split.
Qed.

Lemma toDeckConsumer_returns (c : kongstate.Consumer.t) consumer :
  returns (toDeckConsumer c) consumer -> consumerRendered c consumer.
Proof.
  intros [t Hrun]%returns_eq. unfold toDeckConsumer in Hrun.
  apply bind_returns in Hrun as (? & keyAuths & ? & Hkey & Hrun & _).
  apply bind_returns in Hrun as (? & hmacAuths & ? & Hhmac & Hrun & _).
  apply bind_returns in Hrun as (? & basicAuths & ? & Hbasic & Hrun & _).
  apply bind_returns in Hrun as (? & jwtAuths & ? & Hjwt & Hrun & _).
  apply bind_returns in Hrun as (? & oauth2Creds & ? & Hoauth & Hret & _).
  injection Hret as _ <-.
  apply sortByString_returns in Hkey as [_ Hkey].
  apply sortByString_returns in Hhmac as [_ Hhmac].
  apply sortByString_returns in Hbasic as [_ Hbasic].
  apply sortByString_returns in Hjwt as [_ Hjwt].
  apply sortByString_returns in Hoauth as [_ Hoauth].
  rewrite (foldl_snoc_map id), map_id in Hkey.
  rewrite (foldl_snoc_map id), map_id in Hhmac.
  rewrite (foldl_snoc_map id), map_id in Hbasic.
  rewrite (foldl_snoc_map id), map_id in Hjwt.
  rewrite (foldl_snoc_map id), map_id in Hoauth.
  unfold consumerRendered. simpl.
  rewrite (foldl_snoc_map file.FPlugin.mk). by split_and!.
Qed.

End Rendering.

Lemma Forall2_function {A B} (g : A -> B) (l : list A) (ys : list B) :
  Forall2 (fun x y => y = g x) l ys -> ys = map g l.
Proof. induction 1; simpl; congruence. Qed.

Section CanonicalDocument.
Context `{Collaborators}.

(** What [toDeckContent] sorts.  In the document that it returns, the
    services, the routes and the plugins of each service, the plugins of
    each route, the top-level plugins, the upstreams and the targets of
    each, the certificates, the CA certificates, the consumers and each
    collection of credentials of a consumer are sorted by their key with a
    stable sort: elements of equal key keep the order of the desired state.
    The plugins of a consumer are left in the order of the desired
    state. *)
Theorem toDeckContent_canonical (n : KongController)
  (st : kongstate.KongState.t) (t : list Event) (content : file.Content.t) :
  toDeckContent n st = (t, Ok content) -> canonical st content.
Proof.
  unfold toDeckContent. intros Hrun.
  apply bind_returns in Hrun as (? & services & ? & Hservices & Hrun & _).
  apply bind_returns in Hrun as (? & services' & ? & Hsort1 & Hrun & _).
  apply bind_returns in Hrun as (? & plugins & ? & Hplugins & Hrun & _).
  apply bind_returns in Hrun as (? & plugins' & ? & Hsort2 & Hrun & _).
  apply bind_returns in Hrun as (? & upstreams & ? & Hupstreams & Hrun & _).
  apply bind_returns in Hrun as (? & upstreams' & ? & Hsort3 & Hrun & _).
  apply bind_returns in Hrun as (? & certs & ? & Hcerts & Hrun & _).
  apply bind_returns in Hrun as (? & certs' & ? & Hsort4 & Hrun & _).
  apply bind_returns in Hrun as (? & cas' & ? & Hsort5 & Hrun & _).
  apply bind_returns in Hrun as (? & consumers & ? & Hconsumers & Hrun & _).
  apply bind_returns in Hrun as (? & consumers' & ? & Hsort6 & Hret & _).
  injection Hret as _ <-.
  apply sortByString_returns in Hsort1 as [_ Hsort1].
  apply sortByString_returns in Hsort2 as [_ Hsort2].
  apply sortByString_returns in Hsort3 as [_ Hsort3].
  apply sortByString_returns in Hsort4 as [_ Hsort4].
  apply sortByString_returns in Hsort5 as [_ Hsort5].
  apply sortByString_returns in Hsort6 as [_ Hsort6].
  apply range_append in Hservices as (rs & Hrs & ->).
  apply (range_append
           (fun p => filledPlugin (kongstate.Plugin.Plugin p)))
    in Hplugins as (rp & Hrp & ->).
  apply range_append in Hupstreams as (ru & Hru & ->).
  apply (range_append
           (fun c => getFCertificateFromKongCert
                       (kongstate.Certificate.Certificate c)))
    in Hcerts as (rc & Hrc & ->).
  apply range_append in Hconsumers as (rk & Hrk & ->).
  rewrite (foldl_snoc_map file.FCACertificate.mk) in Hsort5.
  unfold canonical. simpl in *. split_and!.
  - exists rs. split; [|done].
    eapply Forall2_impl; [exact Hrs|]. apply toDeckService_returns.
  - assert (rp = map (fun p => pluginOf (kongstate.Plugin.Plugin p))
                   (kongstate.KongState.Plugins st)) as <-; [|done].
    apply Forall2_function. eapply Forall2_impl; [exact Hrp|].
    intros p plugin [? Hp]%returns_eq. by eapply filledPlugin_returns.
  - exists ru. split; [|done].
    eapply Forall2_impl; [exact Hru|]. apply toDeckUpstream_returns.
  - by exists rc.
  - done.
  - exists rk. split; [|done].
    eapply Forall2_impl; [exact Hrk|]. apply toDeckConsumer_returns.
Qed.

End CanonicalDocument.

(** The rendering of [exampleState] with the test doubles. *)
Lemma toDeckContent_exampleState :
  toDeckContent (H := doubles []) (controller false false EmptyString None)
    exampleState
  = ([], Ok exampleContent).
Proof. vm_compute. reflexivity. Qed.

Lemma toDeckContent_canonical_witness :
  canonical (H := doubles []) exampleState exampleContent.
Proof.
  apply (toDeckContent_canonical (H := doubles [])
           (controller false false EmptyString None) exampleState []).
  vm_compute. reflexivity.
Defined.

(** C5, at the failing input.  In [exampleState] the service api and the
    consumer alice have the same plugins, rate-limiting and acl, in this
    order.  [toDeckContent] sorts the plugins of the service; it appends
    the plugins of the consumer and never sorts them, unlike the plugins
    of services and of routes, the top-level plugins and the five
    collections of credentials of the same consumer: in the document the
    plugins of the consumer are not sorted by name. *)
Lemma consumer_plugins_not_sorted :
  exists content service consumer,
    toDeckContent (H := doubles []) (controller false false EmptyString None)
      exampleState = ([], Ok content) /\
    service ∈ file.Content.Services content /\
    consumer ∈ file.Content.Consumers content /\
    map pluginKey (file.FService.Plugins service)
    = [Some "acl"; Some "rate-limiting"] /\
    map pluginKey (file.FConsumer.Plugins consumer)
    = [Some "rate-limiting"; Some "acl"] /\
    ~ StronglySorted (keyLe pluginKey)
        (file.FConsumer.Plugins consumer).
Proof.
  eexists exampleContent, _, _.
  split; [exact toDeckContent_exampleState|].
  split; [apply list_elem_of_here|]. split; [apply list_elem_of_here|].
  split; [reflexivity|]. split; [reflexivity|].
  simpl. intros Hsorted. apply StronglySorted_inv in Hsorted as [_ Hle].
  apply Forall_cons in Hle as [(x & y & Hx & Hy & Hle) _].
  injection Hx as <-. injection Hy as <-. vm_compute in Hle. discriminate.
Qed.

Lemma toDeckContent_unnamed_plugin_panics_witness :
  panics (toDeckContent (H := doubles [])
            (controller false false EmptyString None)
            stateWithUnnamedPlugin).
Proof.
  apply (toDeckContent_unnamed_plugin_panics (H := doubles [])
           (controller false false EmptyString None)
           stateWithUnnamedPlugin (plugin None None)).
  split; [reflexivity|]. left. eexists. split; apply list_elem_of_here.
Defined.

(** ** Nulls in plugin configurations *)

Lemma deleteNils_fold (c m : gmap string Value) (k : string) :
  map_fold (fun k v config => if isNil v then delete k config else config)
    m c !! k
  = match c !! k with
    | Some v => if isNil v then None else m !! k
    | None => m !! k
    end.
Proof.
  revert k.
  apply (map_fold_weak_ind
           (fun r c => forall k,
              r !! k = match c !! k with
                       | Some v => if isNil v then None else m !! k
                       | None => m !! k
                       end)).
  - intros k. by rewrite lookup_empty.
  - intros i x c' r Hi IH k. destruct (decide (i = k)) as [->|Hne].
    + rewrite lookup_insert_eq. specialize (IH k). rewrite Hi in IH.
      destruct (isNil x); [by rewrite lookup_delete_eq|done].
    + rewrite lookup_insert_ne by done.
      destruct (isNil x); [rewrite lookup_delete_ne by done|]; apply IH.
Qed.

(** After the loop over a configuration, exactly the entries that are not
    nil are left. *)
Lemma deleteNils_lookup (c : gmap string Value) (k : string) :
  exists c', deleteNils (Some c) = Some c' /\
    c' !! k = match c !! k with
              | Some v => if isNil v then None else Some v
              | None => None
              end.
Proof.
  eexists. split; [reflexivity|]. rewrite deleteNils_fold.
  by destruct (c !! k).
Qed.

Lemma cleanUp_services_fold (services done : list file.FService.t)
  (routes : list file.FRoute.t) :
  (foldl (fun '(services, routes) s =>
            let s := file.FService.mk (file.FService.Service s)
                       (file.FService.Routes s)
                       (map cleanPlugin (file.FService.Plugins s)) in
            let routes := map cleanRoute routes in
            (services ++ [s], routes))
     (done, routes) services).1
  = done ++ map (fun s => file.FService.mk (file.FService.Service s)
                            (file.FService.Routes s)
                            (map cleanPlugin (file.FService.Plugins s)))
              services.
Proof.
  revert done routes. induction services as [|s services IH];
    intros done routes; simpl.
  - by rewrite app_nil_r.
  - by rewrite IH, <- app_assoc.
Qed.

(** The loop cleans the plugins of the services, of the consumers and of
    the top level, and leaves the routes of every service as they are. *)
Lemma cleanUpNullsInPluginConfigs_services (state : file.Content.t) :
  file.Content.Services (cleanUpNullsInPluginConfigs state)
  = map (fun s => file.FService.mk (file.FService.Service s)
                    (file.FService.Routes s)
                    (map cleanPlugin (file.FService.Plugins s)))
      (file.Content.Services state) /\
  file.Content.Consumers (cleanUpNullsInPluginConfigs state)
  = map (fun c =>
           file.FConsumer.mk (file.FConsumer.Consumer c)
             (map cleanPlugin (file.FConsumer.Plugins c))
             (file.FConsumer.KeyAuths c) (file.FConsumer.HMACAuths c)
             (file.FConsumer.JWTAuths c) (file.FConsumer.BasicAuths c)
             (file.FConsumer.Oauth2Creds c))
      (file.Content.Consumers state) /\
  file.Content.Plugins (cleanUpNullsInPluginConfigs state)
  = map cleanPlugin (file.Content.Plugins state).
Proof.
  unfold cleanUpNullsInPluginConfigs.
  pose proof (cleanUp_services_fold (file.Content.Services state) []
                (file.Content.Routes state)) as Hfold.
  destruct (foldl _ _ _) as [services routes]. simpl in *. by subst.
Qed.

Lemma cleanUpNullsInPluginConfigs_service_routes (state : file.Content.t) :
  map file.FService.Routes
    (file.Content.Services (cleanUpNullsInPluginConfigs state))
  = map file.FService.Routes (file.Content.Services state).
Proof.
  destruct (cleanUpNullsInPluginConfigs_services state) as [-> _].
  by rewrite map_map.
Qed.

(** C3, at the failing input.  In [contentWithNulls] the plugin of the
    service and the plugin of its route both have the configuration
    [{"a": null, "b": 1}]: the null is removed for the plugin of the
    service and stays for the plugin of the route. *)
Theorem cleanUpNulls_keeps_route_plugin_nulls :
  file.Content.Services (cleanUpNullsInPluginConfigs contentWithNulls)
  = [file.FService.mk (kong.Service.mk None (Some "api") None)
       [filledRoute "v1"
          [pluginWith "cors" {[ "a" := VNull; "b" := VNumber 1 ]}]]
       [pluginWith "acl" {[ "b" := VNumber 1 ]}]].
Proof. vm_compute. reflexivity. Qed.

(** ** The merge of custom entities *)

(** The loop over the custom entities adds the keys that the core document
    does not have and keeps the core value of every key it has. *)
Lemma mergeCustomEntities_lookup (core custom : gmap string Value) k :
  mergeCustomEntities core custom !! k
  = match core !! k with
    | Some v => Some v
    | None => custom !! k
    end.
Proof.
  unfold mergeCustomEntities. revert k.
  apply (map_fold_weak_ind
           (fun r c => forall k,
              r !! k = match core !! k with
                       | Some v => Some v
                       | None => c !! k
                       end)).
  - intros k. rewrite lookup_empty. by destruct (core !! k).
  - intros i x c r Hi IH k. destruct (r !! i) as [y|] eqn:Hri.
    + rewrite IH. destruct (core !! k) eqn:Hk; [done|].
      destruct (decide (i = k)) as [->|Hne].
      * rewrite IH, Hk, Hi in Hri. done.
      * by rewrite lookup_insert_ne.
    + destruct (decide (i = k)) as [->|Hne].
      * rewrite !lookup_insert_eq. rewrite IH in Hri.
        by destruct (core !! k).
      * rewrite !lookup_insert_ne by done. apply IH.
Qed.

Section Merge.
Context `{Collaborators}.

Lemma Unmarshal_into_empty (data : bytes) :
  Unmarshal_into data ∅
  = match json_Unmarshal data with
    | inl err => (Some err, ∅)
    | inr _ => (None, topLevel data)
    end.
Proof.
  unfold Unmarshal_into, topLevel.
  destruct (json_Unmarshal data) as [err|[m|]]; [done| |done].
  by rewrite (right_id_L ∅ (∪)).
Qed.

(** C4.  When the core document serializes, [renderConfigWithCustomEntities]
    returns these bytes as they are if the custom entities are nil or
    empty.  Otherwise it returns the serialization of a mapping that has,
    for every top-level key of the core document, the core value, and for
    every other key what the custom entities have for it. *)
Theorem renderConfigWithCustomEntities_merge (state : file.Content.t)
  (customEntities : option bytes) (core : bytes) :
  json_Marshal state = inr core ->
  (length (default [] customEntities) = 0%nat ->
   renderConfigWithCustomEntities state customEntities = ([], Ok (inr core)))
  /\
  (length (default [] customEntities) <> 0%nat ->
   forall coreMap, json_Unmarshal core = inr (Some coreMap) ->
   exists merged log,
     renderConfigWithCustomEntities state customEntities
     = (log,
        Ok match json_Marshal_map merged with
           | inl err =>
             inl (wrapError "marshaling final config into JSON" err)
           | inr result => inr result
           end) /\
     forall k,
       merged !! k
       = match coreMap !! k with
         | Some v => Some v
         | None => topLevel (default [] customEntities) !! k
         end).
Proof.
  intros Hcore. unfold renderConfigWithCustomEntities. rewrite Hcore.
  split.
  - intros Hlen. apply Nat.eqb_eq in Hlen. by rewrite Hlen.
  - intros Hlen coreMap HcoreMap. apply Nat.eqb_neq in Hlen. rewrite Hlen.
    rewrite !Unmarshal_into_empty, HcoreMap.
    assert (topLevel core = coreMap) as ->
      by (unfold topLevel; by rewrite HcoreMap).
    destruct (json_Unmarshal (default [] customEntities)) as [err|m] eqn:Hcustom.
    + exists coreMap, [Errorf
        "failed to unmarshal custom entities from secret data: %v"
        (ArgError err)].
      split.
      * simpl. by destruct (json_Marshal_map coreMap).
      * intros k. unfold topLevel. rewrite Hcustom, lookup_empty.
        by destruct (coreMap !! k).
    + exists (mergeCustomEntities coreMap (topLevel (default [] customEntities))), [].
      split.
      * simpl. by destruct (json_Marshal_map _).
      * intros k. apply mergeCustomEntities_lookup.
Qed.

End Merge.

(** The example of the spec: the core document has [services], the custom
    entities have [services] and [extra]. *)
Lemma renderConfigWithCustomEntities_merge_witness :
  exists merged log,
    renderConfigWithCustomEntities (H := doubles mergeTable) emptyContent
      (Some (list_byte_of_string "custom"))
    = (log, Ok (inr (list_byte_of_string (printMap merged)))) /\
    forall k,
      merged !! k
      = match coreMap !! k with
        | Some v => Some v
        | None => customMap !! k
        end.
Proof.
  assert (length (default [] (Some (list_byte_of_string "custom"))) <> 0%nat)
    as Hlen by (vm_compute; lia).
  destruct (renderConfigWithCustomEntities_merge (H := doubles mergeTable)
              emptyContent (Some (list_byte_of_string "custom"))
              (list_byte_of_string "1.1") eq_refl) as [_ Hmerge].
  exact (Hmerge Hlen coreMap eq_refl).
Defined.

Lemma renderConfigWithCustomEntities_example :
  renderConfigWithCustomEntities (H := doubles mergeTable) emptyContent
    (Some (list_byte_of_string "custom"))
  = ([], Ok (inr (list_byte_of_string
       (printMap {[ "_format_version" := VString "1.1";
                    "services" := VArray [VObject [("name", VString "api")]];
                    "extra" := VObject [("key", VNumber 1)] ]})))).
Proof. vm_compute. reflexivity. Qed.

(** ** Traces *)

Lemma quiet_not_calls_gateway (t : list Event) :
  Forall quiet t -> ~ calls_gateway t.
Proof.
  unfold calls_gateway, quiet. rewrite Forall_forall, Exists_exists.
  intros Hquiet (e & He & Hcall). specialize (Hquiet e He). congruence.
Qed.


Lemma ret_trace {A} (P : Event -> Prop) (a : A) : Forall P (ret a).1.
Proof. constructor. Qed.

Lemma panic_trace {A} (P : Event -> Prop) : Forall P (@panic A).1.
Proof. constructor. Qed.

Lemma deref_trace {A} (P : Event -> Prop) (p : option A) :
  Forall P (deref p).1.
Proof. destruct p; constructor. Qed.

Lemma sortByString_quiet {A} (key : A -> option string) (l : list A) :
  Forall quiet (sortByString key l).1.
Proof. rewrite sortByString_trace. constructor. Qed.

Ltac quiet_step :=
  first
    [ apply bind_trace; [|intros ?]
    | apply range_trace; intros ? ?
    | apply ret_trace
    | apply deref_trace
    | apply sortByString_quiet ].

Section Traces.
Context `{Collaborators}.

Lemma filledPlugin_quiet (p : kong.Plugin.t) : Forall quiet (filledPlugin p).1.
Proof.
  unfold filledPlugin. destruct (fillPlugin _) as [plugin [err|]].
  - repeat quiet_step. by repeat constructor.
  - repeat quiet_step.
Qed.

Lemma attachedPlugins_quiet (plugins : list kong.Plugin.t) :
  Forall quiet (attachedPlugins plugins).1.
Proof.
  unfold attachedPlugins. quiet_step. quiet_step; [apply filledPlugin_quiet|].
  quiet_step.
Qed.

Lemma toDeckService_quiet (s : kongstate.Service.t) :
  Forall quiet (toDeckService s).1.
Proof.
  unfold toDeckService, toDeckRoute.
  repeat (quiet_step; try apply attachedPlugins_quiet).
Qed.

Lemma getFCertificateFromKongCert_quiet (c : kong.Certificate.t) :
  Forall quiet (getFCertificateFromKongCert c).1.
Proof. unfold getFCertificateFromKongCert, getSNIs. repeat quiet_step. Qed.

Lemma toDeckContent_quiet (n : KongController) (st : kongstate.KongState.t) :
  Forall quiet (toDeckContent n st).1.
Proof.
  unfold toDeckContent, toDeckUpstream, toDeckConsumer.
  repeat (quiet_step;
          try apply toDeckService_quiet;
          try apply filledPlugin_quiet;
          try apply getFCertificateFromKongCert_quiet).
Qed.

Lemma fetchCustomEntities_total (n : KongController) (w : World) :
  exists t r, fetchCustomEntities n w = (t, Ok r) /\ Forall quiet t.
Proof.
  unfold fetchCustomEntities.
  destruct (ParseNameNS _) as [err|[ns name]].
  - by eexists _, _.
  - simpl. destruct (store_GetSecret w ns name) as [err|Data].
    + eexists _, _. split; [done|]. by repeat constructor.
    + destruct (Data !! "config"); eexists _, _;
        (split; [done|]); by repeat constructor.
Qed.

Lemma customEntitiesOf_total (n : KongController) (w : World) :
  exists t customEntities,
    customEntitiesOf n w = (t, Ok customEntities) /\ Forall quiet t.
Proof.
  unfold customEntitiesOf. destruct (_ && _).
  - destruct (fetchCustomEntities_total n w) as (t & [err|c] & -> & Hquiet).
    + eexists _, _. split; [done|]. simpl.
      apply Forall_app. split; [done|]. by repeat constructor.
    + eexists _, _. split; [done|]. simpl. by rewrite app_nil_r.
  - eexists _, _. split; [done|]. constructor.
Qed.

End Traces.

(** ** The strategies *)

Lemma quiet_not_solverEvent (e : Event) : quiet e -> ~ solverEvent e.
Proof. destruct e; unfold quiet; simpl; intros ? ?; done. Qed.

Section Strategies.
Context `{Collaborators}.

Lemma renderConfigWithCustomEntities_total (state : file.Content.t)
  (customEntities : option bytes) :
  exists t r,
    renderConfigWithCustomEntities state customEntities = (t, Ok r) /\
    Forall quiet t.
Proof.
  unfold renderConfigWithCustomEntities.
  destruct (json_Marshal state) as [err|core]; [by eexists _, _|].
  destruct (_ =? _)%nat; [by eexists _, _|].
  destruct (Unmarshal_into core ∅) as [[err|] mergeMap]; [by eexists _, _|].
  destruct (Unmarshal_into (default [] customEntities) ∅) as [[err|] custom];
    simpl; destruct (json_Marshal_map _); eexists _, _;
    (split; [done|]); by repeat constructor.
Qed.

(** The in-memory strategy returns; it posts the document, or fails before
    it reaches the gateway; it never runs the solver. *)
Lemma onUpdateInMemoryMode_total (n : KongController) (w : World)
  (state : file.Content.t) (customEntities : option bytes) :
  exists t err,
    onUpdateInMemoryMode n w state customEntities = (t, Ok err) /\
    (calls_gateway t \/ failedLocally err) /\
    Forall (fun e => ~ solverEvent e) t.
Proof.
  unfold onUpdateInMemoryMode.
  destruct (renderConfigWithCustomEntities_total
              (cleanUpNullsInPluginConfigs
                 (file.Content.mk (file.Content.FormatVersion state) None
                    (file.Content.Services state) (file.Content.Routes state)
                    (file.Content.Consumers state) (file.Content.Plugins state)
                    (file.Content.Upstreams state)
                    (file.Content.Certificates state)
                    (file.Content.CACertificates state)))
              customEntities) as (t & [err|config] & -> & Hquiet).
  - eexists _, _. split; [done|]. simpl. rewrite app_nil_r. split.
    + right. exists err. by left.
    + eapply Forall_impl; [exact Hquiet|]. apply quiet_not_solverEvent.
  - simpl. destruct (http_NewRequest _ _ _) as [err|req].
    + eexists _, _. split; [done|]. simpl. rewrite app_nil_r. split.
      * right. exists err. by right.
      * eapply Forall_impl; [exact Hquiet|]. apply quiet_not_solverEvent.
    + simpl. destruct (client_Do w _); eexists _, _; (split; [done|]);
        simpl; (split; [left; apply Exists_app; right; by left|]);
        (apply Forall_app; split;
         [eapply Forall_impl; [exact Hquiet|]; apply quiet_not_solverEvent
         |repeat constructor; by intros []]).
Qed.

(** The incremental strategy returns; it always dumps the state of the
    gateway first; when the solver ran, its answer decides the result. *)
Lemma onUpdateDBMode_total (n : KongController) (w : World)
  (targetContent : file.Content.t) :
  exists t err,
    onUpdateDBMode n w targetContent
    = (DumpGet (getIngressControllerTags n) :: t, Ok err) /\
    forall c errs, Solve c errs ∈ t ->
      err = match errs with
            | Some errs => Some (ErrArray errs)
            | None => None
            end.
Proof.
  unfold onUpdateDBMode. simpl.
  destruct (dump_Get w _) as [err|raw];
    [eexists _, _; split; [done|]; by intros ? ? ?%elem_of_nil|].
  destruct (state_Get raw) as [err|current];
    [eexists _, _; split; [done|]; by intros ? ? ?%elem_of_nil|].
  destruct (file_Get _ _ _) as [err|raw'];
    [eexists _, _; split; [done|]; by intros ? ? ?%elem_of_nil|].
  destruct (state_Get raw') as [err|target];
    [eexists _, _; split; [done|]; by intros ? ? ?%elem_of_nil|].
  destruct (diff_NewSyncer _ _) as [err|syncer];
    [eexists _, _; split; [done|]; by intros ? ? ?%elem_of_nil|].
  simpl. destruct (solver_Solve w syncer _) as [errs|];
    eexists _, _; (split; [done|]); simpl;
    by intros c errs' [= -> ->]%list_elem_of_singleton.
Qed.

Lemma reconcile_total (n : KongController) (w : World)
  (targetContent : file.Content.t) (customEntities : option bytes) :
  exists t err,
    reconcile n w targetContent customEntities = (t, Ok err) /\
    (calls_gateway t \/ failedLocally err).
Proof.
  unfold reconcile. destruct (Configuration.InMemory (cfg n)).
  - destruct (onUpdateInMemoryMode_total n w targetContent customEntities)
      as (t & err & -> & Hcall & _). by eexists _, _.
  - destruct (onUpdateDBMode_total n w targetContent) as (t & err & -> & _).
    eexists _, _. split; [done|]. left. by left.
Qed.


Lemma sync_reconcile (n : KongController) (w : World)
  (targetContent : file.Content.t) (customEntities shaSum : option bytes)
  t err :
  reconcile n w targetContent customEntities = (t, Ok err) ->
  sync n w targetContent customEntities shaSum
  = match err with
    | Some err => (t, Ok (Some err, n))
    | None =>
      (t ++ [Info "successfully synced configuration to kong"],
       Ok (None, mkKongController (cfg n) shaSum))
    end.
Proof.
  intros Hrun. unfold sync. rewrite Hrun. destruct err; simpl; [|done].
  by rewrite app_nil_r.
Qed.

Lemma checkAndSync_proceeds (n : KongController) (w : World)
  (targetContent : file.Content.t) (customEntities : option bytes) :
  proceeds n targetContent customEntities = true ->
  checkAndSync n w targetContent customEntities
  = sync n w targetContent customEntities
      (fingerprintOf n targetContent customEntities).
Proof.
  unfold proceeds, checkAndSync, fingerprintOf.
  destruct (Configuration.EnableReverseSync (cfg n)); simpl; [done|].
  destruct (generateSHA _ _) as [err|sum]; [done|].
  by destruct (reflect_DeepEqual _ _).
Qed.

Lemma checkAndSync_stops (n : KongController) (w : World)
  (targetContent : file.Content.t) (customEntities : option bytes) :
  proceeds n targetContent customEntities = false ->
  exists t err,
    checkAndSync n w targetContent customEntities = (t, Ok (err, n)) /\
    Forall quiet t.
Proof.
  unfold proceeds, checkAndSync.
  destruct (Configuration.EnableReverseSync (cfg n)); simpl; [done|].
  destruct (generateSHA _ _) as [err|sum]; [by eexists _, _|].
  destruct (reflect_DeepEqual _ _); [|done].
  intros _. eexists _, _. split; [done|]. by repeat constructor.
Qed.

(** [OnUpdate] after the rendering and the fetch of the custom entities. *)
Lemma OnUpdate_checkAndSync (n : KongController) (w : World)
  (st : kongstate.KongState.t) t0 targetContent t1 customEntities :
  toDeckContent n st = (t0, Ok targetContent) ->
  customEntitiesOf n w = (t1, Ok customEntities) ->
  OnUpdate n w st
  = (t0 ++ t1 ++ (checkAndSync n w targetContent customEntities).1,
     (checkAndSync n w targetContent customEntities).2).
Proof.
  intros Hcontent Hcustom. unfold OnUpdate. rewrite Hcontent. simpl.
  rewrite Hcustom. simpl. by destruct (checkAndSync _ _ _ _).
Qed.

End Strategies.

(** ** OnUpdate *)

Section OnUpdate.
Context `{Collaborators}.

Lemma generateSHA_Marshal (targetContent : file.Content.t)
  (customEntities : option bytes) (json : bytes) :
  json_Marshal targetContent = inr json ->
  generateSHA targetContent customEntities
  = inr (vec_to_list (sha256_Sum256 (json ++ default [] customEntities))).
Proof.
  intros Hjson. unfold generateSHA. rewrite Hjson.
  destruct customEntities; simpl; [done|]. by rewrite app_nil_r.
Qed.


(** What an invocation that goes on to the strategy does. *)
Lemma OnUpdate_proceeds (n : KongController) (w : World)
  (st : kongstate.KongState.t) t0 targetContent t1 customEntities :
  toDeckContent n st = (t0, Ok targetContent) ->
  customEntitiesOf n w = (t1, Ok customEntities) ->
  proceeds n targetContent customEntities = true ->
  exists t2 err,
    reconcile n w targetContent customEntities = (t2, Ok err) /\
    (calls_gateway t2 \/ failedLocally err) /\
    (Configuration.InMemory (cfg n) = false -> calls_gateway t2) /\
    OnUpdate n w st
    = match err with
      | Some err => (t0 ++ t1 ++ t2, Ok (Some err, n))
      | None =>
        (t0 ++ t1 ++ t2 ++ [Info "successfully synced configuration to kong"],
         Ok (None,
             mkKongController (cfg n)
               (fingerprintOf n targetContent customEntities)))
      end.
Proof.
  intros Hcontent Hcustom Hproceeds.
  destruct (reconcile_total n w targetContent customEntities)
    as (t2 & err & Hrun & Hcall).
  exists t2, err. split_and!; [done..| |].
  - intros Hmode. unfold reconcile in Hrun. rewrite Hmode in Hrun.
    destruct (onUpdateDBMode_total n w targetContent) as (t & e & Hdb & _).
    rewrite Hdb in Hrun. injection Hrun as <- _. by left.
  - rewrite (OnUpdate_checkAndSync _ _ _ _ _ _ _ Hcontent Hcustom).
    rewrite checkAndSync_proceeds by done.
    rewrite (sync_reconcile _ _ _ _ _ _ _ Hrun). by destruct err.
Qed.

(** The controller changes only in an invocation whose strategy returned
    nil; [OnUpdate] then returns nil as well. *)
Lemma OnUpdate_stores_on_success_only (n : KongController) (w : World)
  (st : kongstate.KongState.t) (r : option error) (n' : KongController) :
  (OnUpdate n w st).2 = Ok (r, n') -> n' <> n ->
  r = None /\
  exists targetContent customEntities t2,
    returns (toDeckContent n st) targetContent /\
    reconcile n w targetContent customEntities = (t2, Ok None).
Proof.
  destruct (toDeckContent n st) as [t0 [content|]] eqn:Hcontent;
    [|unfold OnUpdate; by rewrite Hcontent].
  destruct (customEntitiesOf_total n w) as (t1 & ce & Hcustom & _).
  destruct (proceeds n content ce) eqn:Hproceeds.
  - destruct (OnUpdate_proceeds _ _ _ _ _ _ _ Hcontent Hcustom Hproceeds)
      as (t2 & [e|] & Hrun & _ & _ & ->); simpl; [congruence|].
    intros [= <- <-] _. split; [done|]. by exists content, ce, t2.
  - rewrite (OnUpdate_checkAndSync _ _ _ _ _ _ _ Hcontent Hcustom).
    destruct (checkAndSync_stops n w content ce Hproceeds)
      as (t & e & -> & _). simpl. congruence.
Qed.

(** An invocation that returns an error leaves the controller as it was. *)
Lemma OnUpdate_error_keeps_state (n : KongController) (w : World)
  (st : kongstate.KongState.t) err n' :
  (OnUpdate n w st).2 = Ok (Some err, n') -> n' = n.
Proof.
  destruct (toDeckContent n st) as [t0 [content|]] eqn:Hcontent;
    [|unfold OnUpdate; by rewrite Hcontent].
  destruct (customEntitiesOf_total n w) as (t1 & ce & Hcustom & _).
  destruct (proceeds n content ce) eqn:Hproceeds.
  - destruct (OnUpdate_proceeds _ _ _ _ _ _ _ Hcontent Hcustom Hproceeds)
      as (t2 & [e|] & _ & _ & _ & ->); simpl; congruence.
  - rewrite (OnUpdate_checkAndSync _ _ _ _ _ _ _ Hcontent Hcustom).
    destruct (checkAndSync_stops n w content ce Hproceeds)
      as (t & e & -> & _). simpl. congruence.
Qed.

(** C2.  With reverse sync disabled, when the stored fingerprint equals the
    SHA-256 of the serialized document followed by the custom entities,
    [OnUpdate] logs that nothing changed and returns nil without any call
    to the gateway, and the controller is left as it was. *)
Theorem OnUpdate_skips_unchanged (n : KongController) (w : World)
  (st : kongstate.KongState.t) t0 targetContent t1 customEntities json :
  Configuration.EnableReverseSync (cfg n) = false ->
  toDeckContent n st = (t0, Ok targetContent) ->
  customEntitiesOf n w = (t1, Ok customEntities) ->
  json_Marshal targetContent = inr json ->
  runningConfigHash n
  = Some (vec_to_list (sha256_Sum256 (json ++ default [] customEntities))) ->
  OnUpdate n w st
  = (t0 ++ t1 ++ [Info "no configuration change, skipping sync to kong"],
     Ok (None, n)) /\
  ~ calls_gateway (OnUpdate n w st).1.
Proof.
  intros Hreverse Hcontent Hcustom Hjson Hhash.
  assert (OnUpdate n w st
          = (t0 ++ t1 ++
               [Info "no configuration change, skipping sync to kong"],
             Ok (None, n))) as Hrun.
  { rewrite (OnUpdate_checkAndSync _ _ _ _ _ _ _ Hcontent Hcustom).
    unfold checkAndSync. rewrite Hreverse. simpl.
    rewrite (generateSHA_Marshal _ _ _ Hjson), Hhash.
    unfold reflect_DeepEqual. by rewrite bool_decide_eq_true_2. }
  split; [done|]. rewrite Hrun. simpl. apply quiet_not_calls_gateway.
  pose proof (toDeckContent_quiet n st) as Hq0. rewrite Hcontent in Hq0.
  destruct (customEntitiesOf_total n w) as (t1' & ce & Hcustom' & Hq1).
  rewrite Hcustom in Hcustom'. injection Hcustom' as <- _.
  rewrite !Forall_app. split_and!; [done..|]. by repeat constructor.
Qed.


End OnUpdate.

Section Failures.
Context `{Collaborators}.

Lemma solve_in_quiet (t : list Event) c errs :
  Forall quiet t -> Solve c errs ∉ t.
Proof.
  rewrite Forall_forall. intros Hquiet Hin. by specialize (Hquiet _ Hin).
Qed.

(** When the solver ran during an invocation, the deployment is in
    incremental mode, the invocation went past the fingerprint check, and
    the answer of the solver decides what [OnUpdate] returns. *)
Lemma OnUpdate_solver_ran (n : KongController) (w : World)
  (st : kongstate.KongState.t) (c : Z) (errs : option (list error)) :
  Solve c errs ∈ (OnUpdate n w st).1 ->
  exists t0 targetContent,
    toDeckContent n st = (t0, Ok targetContent) /\
    Configuration.InMemory (cfg n) = false /\
    proceeds n targetContent None = true /\
    (OnUpdate n w st).2
    = Ok match errs with
         | Some errs => (Some (ErrArray errs), n)
         | None =>
           (None,
            mkKongController (cfg n) (fingerprintOf n targetContent None))
         end.
Proof.
  intros Hsolve.
  pose proof (toDeckContent_quiet n st) as Hq0.
  destruct (toDeckContent n st) as [t0 [content|]] eqn:Hcontent.
  2: { unfold OnUpdate in Hsolve. rewrite Hcontent in Hsolve.
       by apply solve_in_quiet in Hsolve. }
  destruct (customEntitiesOf_total n w) as (t1 & ce & Hcustom & Hq1).
  destruct (proceeds n content ce) eqn:Hproceeds.
  2: { rewrite (OnUpdate_checkAndSync _ _ _ _ _ _ _ Hcontent Hcustom)
         in Hsolve.
       destruct (checkAndSync_stops n w content ce Hproceeds)
         as (t & err & Hstop & Hq2).
       rewrite Hstop in Hsolve. simpl in *.
       apply solve_in_quiet in Hsolve; [done|]. by rewrite !Forall_app. }
  destruct (OnUpdate_proceeds _ _ _ _ _ _ _ Hcontent Hcustom Hproceeds)
    as (t2 & err & Hrun & _ & _ & Hupdate).
  assert (Solve c errs ∈ t2) as Hin2.
  { assert (Solve c errs ∈ t0 ++ t1 ++ t2
              ++ [Info "successfully synced configuration to kong"]) as Hin.
    { rewrite Hupdate in Hsolve. destruct err; simpl in Hsolve; [|done].
      rewrite !app_assoc. apply elem_of_app. left.
      by rewrite <- !app_assoc. }
    rewrite !elem_of_app in Hin. destruct Hin as [Hin|[Hin|[Hin|Hin]]].
    - by apply solve_in_quiet in Hin.
    - by apply solve_in_quiet in Hin.
    - done.
    - by apply list_elem_of_singleton in Hin. }
  unfold reconcile in Hrun.
  destruct (Configuration.InMemory (cfg n)) eqn:Hmode.
  { destruct (onUpdateInMemoryMode_total n w content ce)
      as (t & err' & Hmem & _ & Hnosolve).
    rewrite Hmem in Hrun. injection Hrun as <- _.
    rewrite Forall_forall in Hnosolve. by destruct (Hnosolve _ Hin2). }
  assert (ce = None) as ->.
  { unfold customEntitiesOf in Hcustom. rewrite Hmode in Hcustom.
    by injection Hcustom as _ <-. }
  destruct (onUpdateDBMode_total n w content) as (t & err' & Hdb & Hanswer).
  rewrite Hdb in Hrun. injection Hrun as <- <-.
  apply elem_of_cons in Hin2 as [Hin2|Hin2]; [done|].
  rewrite (Hanswer _ _ Hin2) in Hupdate.
  exists t0, content. split_and!; [done..|].
  rewrite Hupdate. by destruct errs.
Qed.

(** C1.  When the solver reports a non-empty list of errors during an
    invocation, [OnUpdate] returns the composite error of all of them and
    leaves the controller, and so the stored fingerprint, as it was; an
    invocation with the same desired state that follows does not skip: it
    dumps the state of the gateway again.  In general, the controller
    changes only in an invocation whose strategy returned nil. *)
Theorem solver_errors_keep_fingerprint (n : KongController) (w : World)
  (st : kongstate.KongState.t) (c : Z) (e : error) (es : list error) :
  Solve c (Some (e :: es)) ∈ (OnUpdate n w st).1 ->
  (OnUpdate n w st).2 = Ok (Some (ErrArray (e :: es)), n) /\
  (forall w2,
     DumpGet (getIngressControllerTags n) ∈ (OnUpdate n w2 st).1 /\
     calls_gateway (OnUpdate n w2 st).1) /\
  (forall w' st' r n',
     (OnUpdate n w' st').2 = Ok (r, n') -> n' <> n ->
     r = None /\
     exists targetContent customEntities t2,
       returns (toDeckContent n st') targetContent /\
       reconcile n w' targetContent customEntities = (t2, Ok None)).
Proof.
  intros (t0 & content & Hcontent & Hmode & Hproceeds & Hresult)
    %OnUpdate_solver_ran.
  split_and!;
    [done| |intros w' st' r n'; apply OnUpdate_stores_on_success_only].
  intros w2.
  assert (customEntitiesOf n w2 = ([], Ok None)) as Hcustom
    by (unfold customEntitiesOf; by rewrite Hmode).
  destruct (OnUpdate_proceeds _ w2 _ _ _ _ _ Hcontent Hcustom Hproceeds)
    as (t2 & err & Hrun & _ & _ & Hupdate).
  unfold reconcile in Hrun. rewrite Hmode in Hrun.
  destruct (onUpdateDBMode_total n w2 content) as (t & err' & Hdb & _).
  rewrite Hdb in Hrun. injection Hrun as <- <-.
  assert (DumpGet (getIngressControllerTags n) ∈ (OnUpdate n w2 st).1)
    as Hdump.
  { rewrite Hupdate. destruct err'; simpl; rewrite !elem_of_app; right; left. }
  split; [done|]. apply Exists_exists. eexists. split; [exact Hdump|done].
Qed.

(** C8 (amended).  When the secret reference does not parse, or when the
    secret cannot be fetched, the error is logged and [OnUpdate] goes on as
    it does without custom entities. *)
Theorem fetch_failures_are_logged (n : KongController) (w : World)
  (st : kongstate.KongState.t) t0 targetContent (err : error) :
  Configuration.InMemory (cfg n) = true ->
  Configuration.KongCustomEntitiesSecret (cfg n) <> EmptyString ->
  toDeckContent n st = (t0, Ok targetContent) ->
  ParseNameNS (Configuration.KongCustomEntitiesSecret (cfg n)) = inl err \/
  (exists ns name,
     ParseNameNS (Configuration.KongCustomEntitiesSecret (cfg n))
     = inr (ns, name) /\
     store_GetSecret w ns name = inl err) ->
  exists t1 msg,
    Forall quiet t1 /\
    OnUpdate n w st
    = (t0 ++ (t1 ++ [Errorf "failed to fetch custom entities: %v"
                       (ArgError (wrapError msg err))])
          ++ (checkAndSync n w targetContent None).1,
       (checkAndSync n w targetContent None).2).
Proof.
  intros Hmode Hsecret Hcontent Hfail.
  assert (exists t1 msg, Forall quiet t1 /\
            fetchCustomEntities n w = (t1, Ok (inl (wrapError msg err))))
    as (t1 & msg & Hquiet & Hfetch).
  { unfold fetchCustomEntities.
    destruct Hfail as [->|(ns & name & -> & Hget)].
    - by eexists [], _.
    - simpl. rewrite Hget. eexists [GetSecret ns name], _.
      split; [by repeat constructor|done]. }
  exists t1, msg. split; [done|].
  apply OnUpdate_checkAndSync; [done|].
  unfold customEntitiesOf. rewrite Hmode. apply String.eqb_neq in Hsecret.
  rewrite Hsecret. simpl. by rewrite Hfetch.
Qed.


End Failures.

(** ** The theorems at the example data *)

Lemma solver_errors_keep_fingerprint_witness :
  (OnUpdate (controller false false EmptyString None) failingWorld
     exampleState).2
  = Ok (Some (ErrArray solverErrors),
        controller false false EmptyString None) /\
  forall w2 : @World (doubles []),
    DumpGet [] ∈ (OnUpdate (controller false false EmptyString None) w2
                    exampleState).1.
Proof.
  destruct (solver_errors_keep_fingerprint (H := doubles [])
              (controller false false EmptyString None) failingWorld
              exampleState 10 (errorString "409 conflict")
              [errorString "500 internal error"]) as (Hresult & Hretry & _).
  - vm_compute. apply list_elem_of_further, list_elem_of_here.
  - split; [exact Hresult|]. intros w2. apply Hretry.
Defined.

Lemma OnUpdate_skips_unchanged_witness :
  OnUpdate (controller false false EmptyString (Some exampleFingerprint))
    calmWorld exampleState
  = ([Info "no configuration change, skipping sync to kong"],
     Ok (None, controller false false EmptyString (Some exampleFingerprint))).
Proof.
  apply (OnUpdate_skips_unchanged (H := doubles [])
           (controller false false EmptyString (Some exampleFingerprint))
           calmWorld exampleState [] exampleContent [] None
           (list_byte_of_string (printContent exampleContent)));
    vm_compute; reflexivity.
Defined.



(** Under reverse sync the unchanged [exampleState] is synced although its
    fingerprint is the stored one. *)
Lemma OnUpdate_reverse_sync_example :
  OnUpdate (controller false true EmptyString (Some exampleFingerprint))
    calmWorld exampleState
  = ([DumpGet []; Solve 10 None;
      Info "successfully synced configuration to kong"],
     Ok (None, controller false true EmptyString None)).
Proof. vm_compute. reflexivity. Qed.

Lemma fetch_failures_are_logged_witness :
  exists t1 msg,
    OnUpdate (controller true false "malformed" None) calmWorld emptyState
    = ([] ++ (t1 ++ [Errorf "failed to fetch custom entities: %v"
                       (ArgError
                          (wrapError msg
                             (errorString
                                "invalid format (namespace/name) found in 'malformed'")))])
          ++ (checkAndSync (controller true false "malformed" None) calmWorld
                emptyContent None).1,
       (checkAndSync (controller true false "malformed" None) calmWorld
          emptyContent None).2).
Proof.
  destruct (fetch_failures_are_logged (H := doubles [])
              (controller true false "malformed" None) calmWorld emptyState
              [] emptyContent
              (errorString
                 "invalid format (namespace/name) found in 'malformed'"))
    as (t1 & msg & _ & Hrun);
    [reflexivity|discriminate|vm_compute; reflexivity|left; reflexivity|].
  by exists t1, msg.
Defined.

(** C8, as stated, fails: with a secret reference that does not parse, the
    invocation is not aborted; the document is posted and [OnUpdate]
    returns nil. *)
Lemma malformed_secret_reference_is_not_fatal :
  ParseNameNS (Collaborators := doubles []) "malformed"
  = inl (errorString "invalid format (namespace/name) found in 'malformed'")
  /\
  OnUpdate (controller true false "malformed" None) calmWorld emptyState
  = ([Errorf "failed to fetch custom entities: %v"
        (ArgError
           (wrapError "parsing kong custom entities secret"
              (errorString
                 "invalid format (namespace/name) found in 'malformed'")));
      ClientDo
        (http.mkRequest "POST" "http://kong:8001/config"
           [("content-type", "application/json")] [("check_hash", "1")]
           (list_byte_of_string "1.1"));
      Info "successfully synced configuration to kong"],
     Ok (None,
         controller true false "malformed"
           (Some (vec_to_list (digest32 (list_byte_of_string "1.1")))))).
Proof. split; vm_compute; reflexivity. Qed.



(** After the forced sync, the unchanged [exampleState] is synced again with
    reverse sync disabled, and its fingerprint is stored. *)
Lemma OnUpdate_after_forced_sync_example :
  OnUpdate (controller false false EmptyString None) calmWorld exampleState
  = ([DumpGet []; Solve 10 None;
      Info "successfully synced configuration to kong"],
     Ok (None, controller false false EmptyString (Some exampleFingerprint))).
Proof. vm_compute. reflexivity. Qed.

(** C3 at the level of [OnUpdate]: in in-memory mode the document posted
    for [stateWithNulls] has the nulls of the route plugin, and not those
    of the service plugin. *)
Lemma OnUpdate_posts_route_plugin_nulls :
  (OnUpdate (controller true false EmptyString None) calmWorld
     stateWithNulls).1
  = [ClientDo
       (http.mkRequest "POST" "http://kong:8001/config"
          [("content-type", "application/json")] [("check_hash", "1")]
          (list_byte_of_string
             "1.1apiacl{b:1}v1cors{anonymous:null,a:null,b:1}"));
     Info "successfully synced configuration to kong"].
Proof. vm_compute. reflexivity. Qed.

(** * Further properties of the code *)

(** ** sortByString *)

Section SortByString.
Context {A : Type}.
Variable key : A -> option string.

Lemma insert_Permutation (x : A) (l : list A) :
  insert (lessFn key) x l ≡ₚ x :: l.
Proof.
  induction l as [|y l IH]; simpl; [done|].
  destruct (lessFn key y x); [|done].
  rewrite IH. apply Permutation_swap.
Qed.

Lemma SliceStable_Permutation (l : list A) : SliceStable (lessFn key) l ≡ₚ l.
Proof.
  induction l as [|x l IH]; simpl; [done|].
  by rewrite insert_Permutation, IH.
Qed.

Lemma sortByString_all_keys (l : list A) :
  Forall (fun a => is_Some (key a)) l ->
  sortByString key l
  = ([], Ok (if (length l <? 2)%nat then l else SliceStable (lessFn key) l)).
Proof.
  intros Hkeys. unfold sortByString. destruct (length l <? 2)%nat; [done|].
  apply (mapM_is_Some_2 key) in Hkeys as [keys ->]. done.
Qed.

(** What [sortByString] returns has the elements of its argument, each as
    often as the argument has it, and nothing is logged. *)
Theorem sortByString_permutation (l out : list A) (t : list Event) :
  sortByString key l = (t, Ok out) ->
  t = [] /\ out ≡ₚ l /\ length out = length l.
Proof.
  unfold sortByString. intros Hrun.
  assert (t = [] /\ out ≡ₚ l) as [-> Hperm].
  { destruct (length l <? 2)%nat; [by injection Hrun as <- <-|].
    destruct (mapM key l); [|done]. injection Hrun as <- <-.
    split; [done|]. apply SliceStable_Permutation. }
  split_and!; [done..|]. by rewrite Hperm.
Qed.

Lemma StableSortOf_sorted (l : list A) :
  StronglySorted (keyLe key) l -> StableSortOf key l l.
Proof. by split. Qed.

(** Sorting what [sortByString] returned changes nothing. *)
Theorem sortByString_idempotent (l out : list A) (t : list Event) :
  sortByString key l = (t, Ok out) -> sortByString key out = ([], Ok out).
Proof.
  intros Hrun. pose proof Hrun as [_ [Hsorted _]]%sortByString_returns.
  pose proof Hrun as (_ & Hperm & Hlen)%sortByString_permutation.
  unfold sortByString in *. rewrite Hlen.
  destruct (length l <? 2)%nat; [done|].
  destruct (mapM key l) as [keys|] eqn:Hkeys; [|done].
  assert (Forall (fun a => is_Some (key a)) out) as Hout.
  { rewrite Hperm. apply (mapM_is_Some_1 key). by rewrite Hkeys. }
  pose proof Hout as [keys' ->]%(mapM_is_Some_2 key).
  unfold ret. do 2 f_equal.
  eapply StableSortOf_unique;
    [by apply SliceStable_StableSortOf|by apply StableSortOf_sorted].
Qed.

Lemma filter_key_NoDup (l1 l2 : list A) (k : option string) :
  NoDup (map key l1) -> l1 ≡ₚ l2 ->
  filter (fun a => key a = k) l1 = filter (fun a => key a = k) l2.
Proof.
  intros Hnodup Hperm.
  assert (length (filter (fun a => key a = k) l1) <= 1)%nat as Hlen.
  { clear Hperm. induction l1 as [|x l1 IH]; simpl; [lia|].
    apply NoDup_cons in Hnodup as [Hx Hnodup].
    rewrite filter_cons. case_decide as Hk; [|by apply IH].
    assert (filter (fun a => key a = k) l1 = []) as ->; [|simpl; lia].
    apply elem_of_nil_inv. intros y [Hy Hin]%list_elem_of_filter.
    apply Hx. rewrite Hk, <- Hy. by apply (list_elem_of_fmap_2 key). }
  assert (filter (fun a => key a = k) l1
          ≡ₚ filter (fun a => key a = k) l2) as Hfilter by by rewrite Hperm.
  destruct (filter (fun a => key a = k) l1) as [|x [|y f1]];
    [| |simpl in Hlen; lia].
  - symmetry. by apply Permutation_nil_r.
  - symmetry. by apply Permutation_singleton_r.
Qed.

(** When the keys are pairwise different, the result of [sortByString]
    does not depend on the order of the elements in its argument. *)
Theorem sortByString_order_independent (l1 l2 : list A) :
  NoDup (map key l1) -> l1 ≡ₚ l2 ->
  sortByString key l1 = sortByString key l2.
Proof.
  intros Hnodup Hperm. unfold sortByString. rewrite <- Hperm.
  destruct (length l1 <? 2)%nat eqn:Hlen.
  - apply Nat.ltb_lt in Hlen. f_equal. f_equal.
    destruct l1 as [|x [|y l1]]; [| |simpl in Hlen; lia].
    + symmetry. by apply Permutation_nil_r.
    + symmetry. by apply Permutation_singleton_r.
  - destruct (mapM key l1) as [keys1|] eqn:Hkeys1.
    + assert (Forall (fun a => is_Some (key a)) l1) as Hsome1
        by (apply (mapM_is_Some_1 key); by rewrite Hkeys1).
      assert (Forall (fun a => is_Some (key a)) l2) as Hsome2
        by by rewrite <- Hperm.
      pose proof Hsome2 as [keys2 ->]%(mapM_is_Some_2 key).
      unfold ret. do 2 f_equal. eapply StableSortOf_unique.
      * by apply SliceStable_StableSortOf.
      * destruct (SliceStable_StableSortOf key l2 Hsome2) as [Hsorted Hf].
        split; [done|]. intros k. rewrite Hf. symmetry.
        by apply filter_key_NoDup.
    + apply (mapM_None_1 key) in Hkeys1. rewrite Hperm in Hkeys1.
      apply (mapM_None_2 key) in Hkeys1. by rewrite Hkeys1.
Qed.

End SortByString.

Lemma sortByString_permutation_witness :
  ["a"; "b"; "c"] ≡ₚ ["b"; "c"; "a"].
Proof.
  apply (sortByString_permutation Some ["b"; "c"; "a"] ["a"; "b"; "c"] []).
  vm_compute. reflexivity.
Defined.

Lemma sortByString_idempotent_witness :
  sortByString Some ["a"; "b"; "c"] = ([], Ok ["a"; "b"; "c"]).
Proof.
  apply (sortByString_idempotent Some ["b"; "c"; "a"] ["a"; "b"; "c"] []).
  vm_compute. reflexivity.
Defined.

Lemma sortByString_order_independent_witness :
  sortByString Some ["b"; "a"; "c"] = sortByString Some ["a"; "b"; "c"].
Proof.
  apply (sortByString_order_independent Some).
  - apply (bool_decide_unpack _). vm_compute. reflexivity.
  - apply Permutation_swap.
Defined.

(** ** fillPlugin *)

Section FillPlugin.
Context `{Collaborators}.

(** [fillPlugin] never touches the name, the identifier or the scoping
    references of a plugin, whether it succeeds or fails; so the sort keys
    of a plugin are those it had before. *)
Theorem fillPlugin_keeps_identity (plugin : file.FPlugin.t) :
  let q := file.FPlugin.Plugin plugin in
  let q' := file.FPlugin.Plugin (fillPlugin plugin).1 in
  kong.Plugin.Name q' = kong.Plugin.Name q /\
  kong.Plugin.ID q' = kong.Plugin.ID q /\
  kong.Plugin.Consumer q' = kong.Plugin.Consumer q /\
  kong.Plugin.Route q' = kong.Plugin.Route q /\
  kong.Plugin.Service q' = kong.Plugin.Service q /\
  pluginKey (fillPlugin plugin).1 = pluginKey plugin /\
  pluginString (fillPlugin plugin).1 = pluginString plugin.
Proof.
  destruct plugin as [[id name consumer route service config enabled runOn
                         protocols]].
  unfold fillPlugin, pluginKey, pluginString. simpl.
  destruct name as [name|]; [|done].
  destruct (String.eqb name EmptyString); [done|].
  destruct (PluginSchemaStore_Schema name) as [err|schema]; [done|].
  destruct (fill schema _) as [err|newConfig]; [done|].
  destruct runOn, enabled, protocols; done.
Qed.

(** When [fillPlugin] returns nil, the plugin has a name that is not empty,
    its configuration is what [fill] made of the given one (of the empty
    one if none was given), [Enabled] is set (true unless given),
    [Protocols] is not empty (http and https unless given) and [RunOn] is
    cleared. *)
Theorem fillPlugin_success (plugin plugin' : file.FPlugin.t) :
  fillPlugin plugin = (plugin', None) ->
  let q := file.FPlugin.Plugin plugin in
  let q' := file.FPlugin.Plugin plugin' in
  (exists name schema,
     kong.Plugin.Name q = Some name /\ name <> EmptyString /\
     PluginSchemaStore_Schema name = inr schema /\
     fill schema (default ∅ (kong.Plugin.Config q))
     = inr (kong.Plugin.Config q')) /\
  kong.Plugin.Enabled q' = Some (default true (kong.Plugin.Enabled q)) /\
  kong.Plugin.Protocols q'
  = match kong.Plugin.Protocols q with
    | [] => [Some "http"; Some "https"]
    | _ => kong.Plugin.Protocols q
    end /\
  kong.Plugin.RunOn q' = None.
Proof.
  destruct plugin as [[id name consumer route service config enabled runOn
                         protocols]].
  unfold fillPlugin. simpl.
  destruct name as [name|]; [|done].
  destruct (String.eqb name EmptyString) eqn:Hname; [done|].
  apply String.eqb_neq in Hname.
  destruct (PluginSchemaStore_Schema name) as [err|schema] eqn:Hschema;
    [done|].
  destruct (fill schema _) as [err|newConfig] eqn:Hfill; [done|].
  intros [= <-]. split.
  - exists name, schema. split_and!; [done..|].
    destruct config, runOn, enabled, protocols; simpl; exact Hfill.
  - destruct runOn, enabled, protocols; done.
Qed.

(** When [fillPlugin] returns an error, the plugin is left as it was, with
    one exception: if [fill] failed and the plugin had no configuration,
    it is left with the empty one. *)
Theorem fillPlugin_failure (plugin plugin' : file.FPlugin.t) (err : error) :
  fillPlugin plugin = (plugin', Some err) ->
  plugin' = plugin \/
  (kong.Plugin.Config (file.FPlugin.Plugin plugin) = None /\
   plugin' = setConfig plugin (Some ∅) /\
   exists name schema cause,
     kong.Plugin.Name (file.FPlugin.Plugin plugin) = Some name /\
     PluginSchemaStore_Schema name = inr schema /\
     fill schema ∅ = inl cause /\
     err = wrapError
             (String.append "error filling in default for plugin " name)
             cause).
Proof.
  destruct plugin as [[id name consumer route service config enabled runOn
                         protocols]].
  unfold fillPlugin. simpl.
  destruct name as [name|]; [|intros [= <- _]; by left].
  destruct (String.eqb name EmptyString); [intros [= <- _]; by left|].
  destruct (PluginSchemaStore_Schema name) as [e|schema] eqn:Hschema;
    [intros [= <- _]; by left|].
  destruct (fill schema _) as [cause|newConfig] eqn:Hfill; [|done].
  intros [= <- <-]. destruct config as [c|]; [by left|].
  right. split_and!; [done..|]. by exists name, schema, cause.
Qed.

End FillPlugin.

Lemma fillPlugin_success_witness :
  kong.Plugin.RunOn (file.FPlugin.Plugin (filled "cors")) = None.
Proof.
  apply (fillPlugin_success (H := doubles [])
           (file.FPlugin.mk (plugin (Some "cors") None)) (filled "cors")).
  vm_compute. reflexivity.
Defined.

Lemma fillPlugin_failure_witness :
  file.FPlugin.mk (plugin (Some "unknown") None)
  = file.FPlugin.mk (plugin (Some "unknown") None) \/
  (kong.Plugin.Config
     (file.FPlugin.Plugin (file.FPlugin.mk (plugin (Some "unknown") None)))
   = None /\
   file.FPlugin.mk (plugin (Some "unknown") None)
   = setConfig (file.FPlugin.mk (plugin (Some "unknown") None)) (Some ∅) /\
   exists name schema cause,
     kong.Plugin.Name
       (file.FPlugin.Plugin (file.FPlugin.mk (plugin (Some "unknown") None)))
     = Some name /\
     PluginSchemaStore_Schema (Collaborators := doubles []) name = inr schema /\
     fill (Collaborators := doubles []) schema ∅ = inl cause /\
     wrapError "error retrieveing schema for plugin unknown"
       (errorString "no such plugin")
     = wrapError
         (String.append "error filling in default for plugin " name) cause).
Proof.
  apply (fillPlugin_failure (H := doubles [])
           (file.FPlugin.mk (plugin (Some "unknown") None))
           (file.FPlugin.mk (plugin (Some "unknown") None))
           (wrapError "error retrieveing schema for plugin unknown"
              (errorString "no such plugin"))).
  vm_compute. reflexivity.
Defined.

(** ** Certificates *)

Lemma getSNIs_range (names : list string) (snis : list kong.SNI.t) :
  range (map Some names)
    (fun snis name =>
       bind (deref name)
         (fun name => ret (snis ++ [kong.SNI.mk (kong.String name)])))
    snis
  = ([], Ok (snis ++ map (fun name => kong.SNI.mk (Some name)) names)).
Proof.
  revert snis. induction names as [|name names IH]; intros snis; simpl.
  - by rewrite app_nil_r.
  - rewrite IH. simpl. by rewrite <- app_assoc.
Qed.

Lemma option_list_cases {A} (l : list (option A)) :
  None ∈ l \/ exists xs, l = map Some xs.
Proof.
  induction l as [|[x|] l IH].
  - right. by exists [].
  - destruct IH as [Hin|[xs ->]].
    + left. by right.
    + right. by exists (x :: xs).
  - left. left.
Qed.

(** [getFCertificateFromKongCert] copies the identifier, the key and the
    body of a certificate and turns every name into an SNI, in order; it
    panics exactly when one of the names is a nil pointer. *)
Theorem getFCertificateFromKongCert_spec (id cert key : option string)
  (names : list string) (kongCert : kong.Certificate.t) :
  getFCertificateFromKongCert
    (kong.Certificate.mk id cert key (map Some names))
  = ([], Ok (file.FCertificate.mk id cert key
               (map (fun name => kong.SNI.mk (Some name)) names))) /\
  (panics (getFCertificateFromKongCert kongCert) <->
   None ∈ kong.Certificate.SNIs kongCert).
Proof.
  split.
  - unfold getFCertificateFromKongCert, getSNIs. simpl.
    rewrite getSNIs_range. by destruct id, cert, key.
  - unfold getFCertificateFromKongCert, getSNIs. split.
    + intros Hpanic.
      destruct (option_list_cases (kong.Certificate.SNIs kongCert))
        as [Hin|[xs Hxs]]; [done|].
      rewrite Hxs, getSNIs_range in Hpanic. done.
    + intros Hin. apply panics_bind_l.
      eapply range_panics; [exact Hin|]. intros snis.
      by apply panics_bind_l.
Qed.

(** ** Rendering returns when every key is present *)

Lemma range_append_total {A B} (f : A -> Run B) (Q : A -> B -> Prop)
  (l : list A) (acc : list B) :
  Forall (fun x => exists t y, f x = (t, Ok y) /\ Q x y) l ->
  exists t ys,
    range l (fun acc x => bind (f x) (fun y => ret (acc ++ [y]))) acc
    = (t, Ok (acc ++ ys)) /\
    Forall2 Q l ys.
Proof.
  intros Hl. revert acc. induction Hl as [|x l (t & y & Hx & HQ) _ IH];
    intros acc; simpl.
  - exists [], []. by rewrite app_nil_r.
  - destruct (IH (acc ++ [y])) as (t' & ys & Hrun & Hys).
    rewrite Hx. simpl. rewrite Hrun. eexists _, (y :: ys).
    split; [|by constructor]. by rewrite <- (app_assoc acc [y] ys).
Qed.

Lemma Forall2_Forall_right {A B} (P : B -> Prop) (l : list A) (k : list B) :
  Forall2 (fun _ y => P y) l k -> Forall P k.
Proof. induction 1; by constructor. Qed.

Lemma sortByString_total {A} (key : A -> option string) (l : list A) :
  Forall (fun a => is_Some (key a)) l ->
  exists out, sortByString key l = ([], Ok out) /\ out ≡ₚ l.
Proof.
  intros Hkeys. rewrite sortByString_all_keys by done.
  eexists. split; [done|]. destruct (length l <? 2)%nat; [done|].
  apply SliceStable_Permutation.
Qed.

Lemma is_Some_not_None_in {A} (l : list (option A)) :
  Forall is_Some l -> exists xs, l = map Some xs.
Proof.
  intros Hl. destruct (option_list_cases l) as [Hin|]; [|done].
  rewrite Forall_forall in Hl. by destruct (Hl _ Hin).
Qed.

Section Totality.
Context `{Collaborators}.

Lemma fillPlugin_pluginKey (plugin : file.FPlugin.t) :
  pluginKey (fillPlugin plugin).1 = pluginKey plugin.
Proof.
  destruct plugin as [[id name consumer route service config enabled runOn
                         protocols]].
  unfold fillPlugin, pluginKey. simpl.
  destruct name as [name|]; [|done].
  destruct (String.eqb name EmptyString); [done|].
  destruct (PluginSchemaStore_Schema name) as [err|schema]; [done|].
  destruct (fill schema _) as [err|newConfig]; [done|].
  destruct runOn, enabled, protocols; done.
Qed.

Lemma filledPlugin_named (p : kong.Plugin.t) :
  namedPlugin p ->
  exists t, filledPlugin p = (t, Ok (pluginOf p)) /\
            is_Some (pluginKey (pluginOf p)).
Proof.
  intros Hname. unfold filledPlugin, pluginOf.
  pose proof (fillPlugin_pluginKey (file.FPlugin.mk p)) as Hkey.
  destruct (fillPlugin (file.FPlugin.mk p)) as [q [err|]];
    unfold pluginKey in *; simpl in *; rewrite Hkey.
  - destruct Hname as [name Hname]. rewrite Hname. simpl. by eexists.
  - by eexists.
Qed.

Lemma attachedPlugins_total_range (plugins : list kong.Plugin.t)
  (acc : list file.FPlugin.t) :
  Forall namedPlugin plugins ->
  Forall (fun p => is_Some (pluginKey p)) acc ->
  exists t out,
    range plugins
      (fun attached p =>
         bind (filledPlugin (DeepCopy p))
           (fun plugin => sortByString pluginKey (attached ++ [plugin])))
      acc = (t, Ok out).
Proof.
  intros Hplugins. revert acc.
  induction Hplugins as [|p plugins Hp _ IH]; intros acc Hacc; simpl.
  - by eexists _, _.
  - destruct (filledPlugin_named (DeepCopy p) Hp) as (t & Hfill & Hkey).
    rewrite Hfill. simpl.
    destruct (sortByString_total pluginKey (acc ++ [pluginOf (DeepCopy p)]))
      as (out & Hsort & Hperm).
    { apply Forall_app. split; [done|]. by constructor. }
    rewrite Hsort. simpl.
    destruct (IH out) as (t' & out' & Hrun).
    { rewrite Hperm. apply Forall_app. split; [done|]. by constructor. }
    rewrite Hrun. by eexists _, _.
Qed.

Lemma attachedPlugins_total (plugins : list kong.Plugin.t) :
  Forall namedPlugin plugins ->
  exists t out, attachedPlugins plugins = (t, Ok out).
Proof. intros Hplugins. by apply attachedPlugins_total_range. Qed.

Lemma toDeckRoute_total (r : kongstate.Route.t) :
  keyedRoute r ->
  exists t route, toDeckRoute r = (t, Ok route) /\ is_Some (routeKey route).
Proof.
  intros [Hname Hplugins]. unfold toDeckRoute.
  destruct (attachedPlugins_total _ Hplugins) as (t & plugins & ->).
  simpl. eexists _, _. split; [done|]. unfold routeKey. simpl.
  destruct (kongstate.Route.Route r) as [id name [code|] [handling|]];
    done.
Qed.

Lemma toDeckService_total (s : kongstate.Service.t) :
  keyedService s ->
  exists t service,
    toDeckService s = (t, Ok service) /\ is_Some (serviceKey service).
Proof.
  intros (Hname & Hplugins & Hroutes). unfold toDeckService.
  destruct (attachedPlugins_total _ Hplugins) as (t & plugins & ->).
  simpl.
  destruct (range_append_total toDeckRoute
              (fun _ route => is_Some (routeKey route))
              (kongstate.Service.Routes s) [])
    as (t' & routes & Hrun & Hkeys).
  { eapply Forall_impl; [exact Hroutes|]. intros r Hr.
    destruct (toDeckRoute_total r Hr) as (? & ? & ? & ?). by eexists _, _. }
  rewrite Hrun. simpl. apply Forall2_Forall_right in Hkeys.
  destruct (sortByString_total routeKey routes Hkeys) as (out & -> & _).
  simpl. by eexists _, _.
Qed.

Lemma toDeckUpstream_total (u : kongstate.Upstream.t) :
  keyedUpstream u ->
  exists t upstream,
    toDeckUpstream u = (t, Ok upstream) /\ is_Some (upstreamKey upstream).
Proof.
  intros [Hname Htargets]. unfold toDeckUpstream.
  rewrite (foldl_snoc_map
             (fun t => file.FTarget.mk (kongstate.Target.Target t))).
  rewrite app_nil_l.
  destruct (sortByString_total targetKey
              (map (fun t => file.FTarget.mk (kongstate.Target.Target t))
                 (kongstate.Upstream.Targets u)))
    as (out & -> & _).
  { simpl. by apply Forall_map. }
  simpl. eexists _, _. split; [done|]. unfold upstreamKey. simpl.
  by destruct (kongstate.Upstream.Upstream u) as [id name [algorithm|]].
Qed.

Lemma getFCertificateFromKongCert_total (c : kongstate.Certificate.t) :
  keyedCertificate c ->
  exists t cert,
    getFCertificateFromKongCert (kongstate.Certificate.Certificate c)
    = (t, Ok cert) /\ is_Some (certificateKey cert).
Proof.
  intros [Hcert Hsnis]. unfold getFCertificateFromKongCert, getSNIs.
  apply is_Some_not_None_in in Hsnis as [names ->].
  rewrite getSNIs_range. simpl. eexists _, _. split; [done|].
  unfold certificateKey. simpl.
  by destruct (kong.Certificate.Cert _).
Qed.

Lemma toDeckConsumer_total (c : kongstate.Consumer.t) :
  keyedConsumer c ->
  exists t consumer,
    toDeckConsumer c = (t, Ok consumer) /\ is_Some (consumerKey consumer).
Proof.
  intros (Hname & Hkey & Hhmac & Hbasic & Hjwt & Hoauth).
  unfold toDeckConsumer.
  rewrite !(foldl_snoc_map id), !map_id, !app_nil_l.
  destruct (sortByString_total keyAuthKey _ Hkey) as (? & -> & _).
  destruct (sortByString_total hmacAuthKey _ Hhmac) as (? & -> & _).
  destruct (sortByString_total basicAuthKey _ Hbasic) as (? & -> & _).
  destruct (sortByString_total jwtAuthKey _ Hjwt) as (? & -> & _).
  destruct (sortByString_total oauth2Key _ Hoauth) as (? & -> & _).
  simpl. by eexists _, _.
Qed.

(** When every key is present, the rendering does not panic: it returns a
    document. *)
Theorem toDeckContent_total (n : KongController)
  (st : kongstate.KongState.t) :
  keyedState st -> exists t content, toDeckContent n st = (t, Ok content).
Proof.
  intros (Hservices & Hplugins & Hupstreams & Hcerts & Hcas & Hconsumers).
  unfold toDeckContent.
  destruct (range_append_total toDeckService
              (fun _ service => is_Some (serviceKey service))
              (kongstate.KongState.Services st) [])
    as (? & services & -> & Hk1).
  { eapply Forall_impl; [exact Hservices|]. intros s Hs.
    destruct (toDeckService_total s Hs) as (? & ? & ? & ?).
    by eexists _, _. }
  apply Forall2_Forall_right in Hk1. cbn [bind]. rewrite app_nil_l.
  destruct (sortByString_total serviceKey _ Hk1) as (? & -> & _).
  cbn [bind].
  destruct (range_append_total
              (fun p => filledPlugin (kongstate.Plugin.Plugin p))
              (fun _ _ => True) (kongstate.KongState.Plugins st) [])
    as (? & plugins & -> & _).
  { eapply Forall_impl; [exact Hplugins|]. intros p Hp.
    destruct (filledPlugin_named _ Hp) as (? & ? & _). by eexists _, _. }
  cbn [bind]. rewrite app_nil_l.
  destruct (sortByString_total topPluginKey plugins) as (? & -> & _).
  { apply Forall_forall. by intros. }
  destruct (range_append_total toDeckUpstream
              (fun _ upstream => is_Some (upstreamKey upstream))
              (kongstate.KongState.Upstreams st) [])
    as (? & upstreams & -> & Hk3).
  { eapply Forall_impl; [exact Hupstreams|]. intros u Hu.
    destruct (toDeckUpstream_total u Hu) as (? & ? & ? & ?).
    by eexists _, _. }
  apply Forall2_Forall_right in Hk3. cbn [bind]. rewrite app_nil_l.
  destruct (sortByString_total upstreamKey _ Hk3) as (? & -> & _).
  cbn [bind].
  destruct (range_append_total
              (fun c => getFCertificateFromKongCert
                          (kongstate.Certificate.Certificate c))
              (fun _ cert => is_Some (certificateKey cert))
              (kongstate.KongState.Certificates st) [])
    as (? & certs & -> & Hk4).
  { eapply Forall_impl; [exact Hcerts|]. intros c Hc.
    destruct (getFCertificateFromKongCert_total c Hc) as (? & ? & ? & ?).
    by eexists _, _. }
  apply Forall2_Forall_right in Hk4. cbn [bind]. rewrite app_nil_l.
  destruct (sortByString_total certificateKey _ Hk4) as (? & -> & _).
  cbn [bind]. rewrite (foldl_snoc_map file.FCACertificate.mk), app_nil_l.
  destruct (sortByString_total caCertificateKey
              (map file.FCACertificate.mk
                 (kongstate.KongState.CACertificates st)))
    as (? & -> & _).
  { simpl. by apply Forall_map. }
  cbn [bind].
  destruct (range_append_total toDeckConsumer
              (fun _ consumer => is_Some (consumerKey consumer))
              (kongstate.KongState.Consumers st) [])
    as (? & consumers & -> & Hk6).
  { eapply Forall_impl; [exact Hconsumers|]. intros c Hc.
    destruct (toDeckConsumer_total c Hc) as (? & ? & ? & ?).
    by eexists _, _. }
  apply Forall2_Forall_right in Hk6. cbn [bind]. rewrite app_nil_l.
  destruct (sortByString_total consumerKey _ Hk6) as (? & -> & _).
  simpl. by eexists _, _.
Qed.

End Totality.

Lemma toDeckContent_total_witness :
  exists t content,
    toDeckContent (H := doubles []) (controller false false EmptyString None)
      exampleState = (t, Ok content).
Proof.
  apply (toDeckContent_total (H := doubles [])).
  unfold keyedState, exampleState. simpl.
  repeat first [ split | constructor | by eexists ].
Defined.

(** ** What the rendered document holds *)

Lemma StableSortOf_elem_of {A} (key : A -> option string)
  (input out : list A) (x : A) :
  StableSortOf key input out -> x ∈ out -> x ∈ input.
Proof.
  intros [_ Hfilter] Hin.
  assert (x ∈ filter (fun a => key a = key x) out) as Hx
    by by apply list_elem_of_filter.
  rewrite Hfilter in Hx. by apply list_elem_of_filter in Hx as [_ ?].
Qed.

Lemma Forall2_elem_of_right {A B} (R : A -> B -> Prop) (l : list A)
  (k : list B) (y : B) :
  Forall2 R l k -> y ∈ k -> exists x, x ∈ l /\ R x y.
Proof.
  induction 1 as [|x y' l k HR _ IH]; [by intros ?%elem_of_nil|].
  intros [->|Hin]%elem_of_cons.
  - exists x. split; [left|done].
  - destruct (IH Hin) as (x' & ? & ?). exists x'. split; [by right|done].
Qed.

Section Document.
Context `{Collaborators}.

(** The parts of a returned document that the claims about sorting do not
    name: the collections before the last sort, the version, the top-level
    routes and the selector tags. *)
Lemma toDeckContent_inv (n : KongController) (st : kongstate.KongState.t)
  (t : list Event) (content : file.Content.t) :
  toDeckContent n st = (t, Ok content) ->
  (exists services,
     Forall2 (fun s service => returns (toDeckService s) service)
       (kongstate.KongState.Services st) services /\
     StableSortOf serviceKey services (file.Content.Services content)) /\
  (exists upstreams,
     Forall2 (fun u upstream => returns (toDeckUpstream u) upstream)
       (kongstate.KongState.Upstreams st) upstreams /\
     StableSortOf upstreamKey upstreams (file.Content.Upstreams content)) /\
  file.Content.FormatVersion content = "1.1" /\
  file.Content.Routes content = [] /\
  file.Content.Info content
  = if (0 <? length (getIngressControllerTags n))%nat
    then Some (file.Info.mk (getIngressControllerTags n))
    else None.
Proof.
  unfold toDeckContent. intros Hrun.
  apply bind_returns in Hrun as (? & services & ? & Hservices & Hrun & _).
  apply bind_returns in Hrun as (? & services' & ? & Hsort1 & Hrun & _).
  apply bind_returns in Hrun as (? & plugins & ? & Hplugins & Hrun & _).
  apply bind_returns in Hrun as (? & plugins' & ? & Hsort2 & Hrun & _).
  apply bind_returns in Hrun as (? & upstreams & ? & Hupstreams & Hrun & _).
  apply bind_returns in Hrun as (? & upstreams' & ? & Hsort3 & Hrun & _).
  apply bind_returns in Hrun as (? & certs & ? & Hcerts & Hrun & _).
  apply bind_returns in Hrun as (? & certs' & ? & Hsort4 & Hrun & _).
  apply bind_returns in Hrun as (? & cas' & ? & Hsort5 & Hrun & _).
  apply bind_returns in Hrun as (? & consumers & ? & Hconsumers & Hrun & _).
  apply bind_returns in Hrun as (? & consumers' & ? & Hsort6 & Hret & _).
  injection Hret as _ <-.
  apply sortByString_returns in Hsort1 as [_ Hsort1].
  apply sortByString_returns in Hsort3 as [_ Hsort3].
  apply range_append in Hservices as (rs & Hrs & ->).
  apply range_append in Hupstreams as (ru & Hru & ->).
  simpl. split_and!; [by exists rs|by exists ru|done..].
Qed.

(** Every route of a returned document has a redirect status code and a
    path handling, and every upstream has an algorithm. *)
Theorem toDeckContent_defaults_filled (n : KongController)
  (st : kongstate.KongState.t) (t : list Event) (content : file.Content.t) :
  toDeckContent n st = (t, Ok content) ->
  (forall service route,
     service ∈ file.Content.Services content ->
     route ∈ file.FService.Routes service ->
     is_Some (kong.Route.HTTPSRedirectStatusCode (file.FRoute.Route route)) /\
     is_Some (kong.Route.PathHandling (file.FRoute.Route route))) /\
  (forall upstream,
     upstream ∈ file.Content.Upstreams content ->
     is_Some (kong.Upstream.Algorithm (file.FUpstream.Upstream upstream))).
Proof.
  intros ((rs & Hrs & Hsort1) & (ru & Hru & Hsort3) & _)%toDeckContent_inv.
  split.
  - intros service route Hservice Hroute.
    eapply StableSortOf_elem_of in Hservice; [|exact Hsort1].
    destruct (Forall2_elem_of_right _ _ _ _ Hrs Hservice) as (s & _ & Hs).
    apply toDeckService_returns in Hs as (_ & _ & routes & Hroutes & Hsort).
    eapply StableSortOf_elem_of in Hroute; [|exact Hsort].
    destruct (Forall2_elem_of_right _ _ _ _ Hroutes Hroute)
      as (r & _ & [-> _]).
    by destruct (kongstate.Route.Route r) as [id name [code|] [handling|]].
  - intros upstream Hupstream.
    eapply StableSortOf_elem_of in Hupstream; [|exact Hsort3].
    destruct (Forall2_elem_of_right _ _ _ _ Hru Hupstream) as (u & _ & Hu).
    apply toDeckUpstream_returns in Hu as [-> _].
    by destruct (kongstate.Upstream.Upstream u) as [id name [algorithm|]].
Qed.

(** A returned document has the format version 1.1 and no top-level
    routes; it carries the selector tags exactly when the gateway supports
    tags and filter tags are configured, and then these are the filter
    tags. *)
Theorem toDeckContent_header (n : KongController)
  (st : kongstate.KongState.t) (t : list Event) (content : file.Content.t) :
  toDeckContent n st = (t, Ok content) ->
  file.Content.FormatVersion content = "1.1" /\
  file.Content.Routes content = [] /\
  file.Content.Info content
  = match Kong.HasTagSupport (Configuration.Kong (cfg n)),
          Kong.FilterTags (Configuration.Kong (cfg n)) with
    | true, tag :: tags => Some (file.Info.mk (tag :: tags))
    | _, _ => None
    end.
Proof.
  intros (_ & _ & Hversion & Hroutes & Hinfo)%toDeckContent_inv.
  split_and!; [done..|]. rewrite Hinfo. unfold getIngressControllerTags.
  destruct (Kong.HasTagSupport _); [|done].
  by destruct (Kong.FilterTags _).
Qed.

(** The events of the rendering are log lines for plugins that could not
    be filled in. *)
Lemma toDeckContent_trace (P : Event -> Prop) (n : KongController)
  (st : kongstate.KongState.t) :
  (forall name,
     P (Errorf "failed to fill-in defaults for plugin: %s" (ArgString name))) ->
  Forall P (toDeckContent n st).1.
Proof.
  intros HP.
  assert (forall p, Forall P (filledPlugin p).1) as Hfilled.
  { intros p. unfold filledPlugin. destruct (fillPlugin _) as [q [err|]].
    - apply bind_trace; [|intros ?; constructor].
      apply bind_trace; [apply deref_trace|].
      intros name. by repeat constructor.
    - apply bind_trace; [constructor|intros ?; constructor]. }
  assert (forall {A} (key : A -> option string) l,
            Forall P (sortByString key l).1) as Hsort
    by (intros A key l; rewrite sortByString_trace; constructor).
  assert (forall plugins, Forall P (attachedPlugins plugins).1)
    as Hattached.
  { intros plugins. unfold attachedPlugins. apply range_trace.
    intros attached p. apply bind_trace; [apply Hfilled|].
    intros plugin. apply Hsort. }
  assert (forall s, Forall P (toDeckService s).1) as Hservice.
  { intros s. unfold toDeckService, toDeckRoute.
    repeat first [ apply Hattached | apply Hsort | apply ret_trace
                 | apply bind_trace; [|intros ?]
                 | apply range_trace; intros ? ? ]. }
  unfold toDeckContent, toDeckUpstream, toDeckConsumer,
    getFCertificateFromKongCert, getSNIs.
  repeat first [ apply Hservice | apply Hfilled | apply Hsort
               | apply ret_trace | apply deref_trace
               | apply bind_trace; [|intros ?]
               | apply range_trace; intros ? ? ].
Qed.

End Document.

Lemma toDeckContent_defaults_filled_witness :
  is_Some (kong.Route.HTTPSRedirectStatusCode
             (file.FRoute.Route (filledRoute "v2" [filled "cors"]))) /\
  is_Some (kong.Route.PathHandling
             (file.FRoute.Route (filledRoute "v2" [filled "cors"]))).
Proof.
  destruct (toDeckContent_defaults_filled (H := doubles [])
              (controller false false EmptyString None) exampleState []
              exampleContent) as [Hroutes _];
    [vm_compute; reflexivity|].
  eapply Hroutes.
  - apply list_elem_of_here.
  - apply list_elem_of_further, list_elem_of_here.
Defined.

Lemma toDeckContent_header_witness :
  file.Content.FormatVersion exampleContent = "1.1".
Proof.
  apply (toDeckContent_header (H := doubles [])
           (controller false false EmptyString None) exampleState []
           exampleContent).
  vm_compute. reflexivity.
Defined.

(** ** cleanUpNullsInPluginConfigs *)

Lemma deleteNils_filter (c : gmap string Value) :
  deleteNils (Some c) = Some (filter notNil c).
Proof.
  unfold deleteNils. f_equal. apply map_eq. intros k.
  rewrite deleteNils_fold, map_lookup_filter.
  destruct (c !! k) as [v|]; simpl; [|done].
  unfold notNil. simpl. destruct (isNil v); by case_guard.
Qed.

Lemma filter_notNil_twice (c : gmap string Value) :
  filter notNil (filter notNil c) = filter notNil c.
Proof.
  apply map_eq. intros k. rewrite !map_lookup_filter.
  destruct (c !! k) as [v|]; simpl; [|done].
  case_guard; simpl; [|done]. by case_guard.
Qed.

Section CleanUp.

Lemma cleanPlugin_withoutNils (p : file.FPlugin.t) :
  cleanPlugin p = withoutNils p.
Proof.
  unfold cleanPlugin, withoutNils, setConfig.
  destruct (kong.Plugin.Config (file.FPlugin.Plugin p)) as [c|]; [|done].
  by rewrite deleteNils_filter.
Qed.

Lemma cleanRoute_routeWithoutNils (r : file.FRoute.t) :
  cleanRoute r = routeWithoutNils r.
Proof.
  unfold cleanRoute, routeWithoutNils. f_equal.
  apply map_ext. intros p. apply cleanPlugin_withoutNils.
Qed.

Lemma withoutNils_twice (p : file.FPlugin.t) :
  withoutNils (withoutNils p) = withoutNils p.
Proof.
  unfold withoutNils. simpl.
  destruct (kong.Plugin.Config (file.FPlugin.Plugin p)) as [c|]; [|done].
  simpl. by rewrite filter_notNil_twice.
Qed.

Lemma routeWithoutNils_twice (r : file.FRoute.t) :
  routeWithoutNils (routeWithoutNils r) = routeWithoutNils r.
Proof.
  unfold routeWithoutNils. simpl. f_equal. rewrite map_map.
  apply map_ext. intros p. apply withoutNils_twice.
Qed.

Lemma cleanUp_fold (services done : list file.FService.t)
  (routes : list file.FRoute.t) :
  foldl (fun '(services, routes) s =>
           let s := file.FService.mk (file.FService.Service s)
                      (file.FService.Routes s)
                      (map cleanPlugin (file.FService.Plugins s)) in
           let routes := map cleanRoute routes in
           (services ++ [s], routes))
    (done, routes) services
  = (done ++ map serviceWithoutNils services,
     match services with
     | [] => routes
     | _ => map routeWithoutNils routes
     end).
Proof.
  revert done routes. induction services as [|s services IH];
    intros done routes; simpl.
  - by rewrite app_nil_r.
  - rewrite IH, <- app_assoc. f_equal.
    + simpl. do 2 f_equal. unfold serviceWithoutNils. f_equal.
      apply map_ext. intros p. apply cleanPlugin_withoutNils.
    + assert (map cleanRoute routes = map routeWithoutNils routes) as ->
        by (apply map_ext; intros r; apply cleanRoute_routeWithoutNils).
      destruct services; [done|]. rewrite map_map. apply map_ext.
      intros r. apply routeWithoutNils_twice.
Qed.

(** The loops of [cleanUpNullsInPluginConfigs] in one equation. *)
Lemma cleanUpNullsInPluginConfigs_eq (state : file.Content.t) :
  cleanUpNullsInPluginConfigs state
  = file.Content.mk (file.Content.FormatVersion state)
      (file.Content.Info state)
      (map serviceWithoutNils (file.Content.Services state))
      (match file.Content.Services state with
       | [] => file.Content.Routes state
       | _ => map routeWithoutNils (file.Content.Routes state)
       end)
      (map consumerWithoutNils (file.Content.Consumers state))
      (map withoutNils (file.Content.Plugins state))
      (file.Content.Upstreams state) (file.Content.Certificates state)
      (file.Content.CACertificates state).
Proof.
  unfold cleanUpNullsInPluginConfigs. rewrite cleanUp_fold. simpl.
  f_equal.
  - apply map_ext. intros c. unfold consumerWithoutNils. f_equal.
    apply map_ext. intros p. apply cleanPlugin_withoutNils.
  - apply map_ext. intros p. apply cleanPlugin_withoutNils.
Qed.

(** For the plugins of the services, of the consumers and of the top
    level, the loop of deletions leaves exactly the entries of the
    configuration that are not nil; a plugin without configuration stays
    without one, and nothing but the configurations changes. *)
Theorem cleanUpNullsInPluginConfigs_filters (state : file.Content.t) :
  file.Content.Plugins (cleanUpNullsInPluginConfigs state)
  = map withoutNils (file.Content.Plugins state) /\
  file.Content.Services (cleanUpNullsInPluginConfigs state)
  = map serviceWithoutNils (file.Content.Services state) /\
  file.Content.Consumers (cleanUpNullsInPluginConfigs state)
  = map consumerWithoutNils (file.Content.Consumers state) /\
  file.Content.FormatVersion (cleanUpNullsInPluginConfigs state)
  = file.Content.FormatVersion state /\
  file.Content.Info (cleanUpNullsInPluginConfigs state)
  = file.Content.Info state /\
  file.Content.Upstreams (cleanUpNullsInPluginConfigs state)
  = file.Content.Upstreams state /\
  file.Content.Certificates (cleanUpNullsInPluginConfigs state)
  = file.Content.Certificates state /\
  file.Content.CACertificates (cleanUpNullsInPluginConfigs state)
  = file.Content.CACertificates state.
Proof. by rewrite cleanUpNullsInPluginConfigs_eq. Qed.

(** The plugins of the top-level routes are cleaned once per service: in a
    document without services they keep their nulls. *)
Theorem cleanUpNullsInPluginConfigs_top_routes (state : file.Content.t) :
  file.Content.Routes (cleanUpNullsInPluginConfigs state)
  = match file.Content.Services state with
    | [] => file.Content.Routes state
    | _ => map routeWithoutNils (file.Content.Routes state)
    end.
Proof. by rewrite cleanUpNullsInPluginConfigs_eq. Qed.

(** Cleaning a cleaned document changes nothing. *)
Theorem cleanUpNullsInPluginConfigs_idempotent (state : file.Content.t) :
  cleanUpNullsInPluginConfigs (cleanUpNullsInPluginConfigs state)
  = cleanUpNullsInPluginConfigs state.
Proof.
  rewrite !cleanUpNullsInPluginConfigs_eq. simpl. f_equal.
  - rewrite map_map. apply map_ext. intros s. unfold serviceWithoutNils.
    simpl. f_equal. rewrite map_map. apply map_ext. intros p.
    apply withoutNils_twice.
  - destruct (file.Content.Services state); simpl; [done|].
    rewrite map_map. apply map_ext. intros r. apply routeWithoutNils_twice.
  - rewrite map_map. apply map_ext. intros c. unfold consumerWithoutNils.
    simpl. f_equal. rewrite map_map. apply map_ext. intros p.
    apply withoutNils_twice.
  - rewrite map_map. apply map_ext. intros p. apply withoutNils_twice.
Qed.

End CleanUp.

(** ** Custom entities: errors *)

Section CustomEntities.
Context `{Collaborators}.

(** Custom entities that do not decode are not fatal: the failure is
    logged and the result is the serialization of the core mapping
    alone. *)
Theorem renderConfigWithCustomEntities_malformed (state : file.Content.t)
  (customEntities : option bytes) (core : bytes)
  (coreMap : gmap string Value) (err : error) :
  json_Marshal state = inr core ->
  length (default [] customEntities) <> 0%nat ->
  json_Unmarshal core = inr (Some coreMap) ->
  json_Unmarshal (default [] customEntities) = inl err ->
  renderConfigWithCustomEntities state customEntities
  = ([Errorf "failed to unmarshal custom entities from secret data: %v"
        (ArgError err)],
     Ok match json_Marshal_map coreMap with
        | inl err =>
          inl (wrapError "marshaling final config into JSON" err)
        | inr result => inr result
        end).
Proof.
  intros Hcore Hlen HcoreMap Hcustom. unfold renderConfigWithCustomEntities.
  apply Nat.eqb_neq in Hlen. rewrite Hcore, Hlen.
  unfold Unmarshal_into. rewrite HcoreMap, Hcustom.
  rewrite (right_id_L ∅ (∪)). simpl. by destruct (json_Marshal_map coreMap).
Qed.

(** [fetchCustomEntities] returns the custom entities exactly when the
    reference parses, the secret is found and it has the key [config];
    the secret store is asked exactly when the reference parses. *)
Theorem fetchCustomEntities_returns_iff (n : KongController) (w : World)
  (config : bytes) :
  ((fetchCustomEntities n w).2 = Ok (inr config) <->
   exists ns name Data,
     ParseNameNS (Configuration.KongCustomEntitiesSecret (cfg n))
     = inr (ns, name) /\
     store_GetSecret w ns name = inr Data /\
     Data !! "config" = Some config) /\
  (forall ns name,
     GetSecret ns name ∈ (fetchCustomEntities n w).1 <->
     ParseNameNS (Configuration.KongCustomEntitiesSecret (cfg n))
     = inr (ns, name)).
Proof.
  unfold fetchCustomEntities.
  destruct (ParseNameNS _) as [err|[ns name]] eqn:Hparse.
  - split.
    + split; [done|]. by intros (? & ? & ? & ? & _).
    + intros ns name. simpl. split; [by intros ?%elem_of_nil|done].
  - split.
    + simpl. destruct (store_GetSecret w ns name) as [err|Data] eqn:Hget.
      * split; [done|]. intros (? & ? & ? & [= <- <-] & ? & _). congruence.
      * destruct (Data !! "config") as [c|] eqn:Hkey; simpl.
        -- split.
           ++ intros [= <-]. by exists ns, name, Data.
           ++ intros (? & ? & ? & [= <- <-] & ? & ?). congruence.
        -- split; [done|].
           intros (? & ? & ? & [= <- <-] & ? & ?). congruence.
    + intros ns' name'. simpl.
      destruct (store_GetSecret w ns name) as [err|Data];
        [|destruct (Data !! "config")]; simpl;
        rewrite list_elem_of_singleton; split; intros [= -> ->]; done.
Qed.

(** A secret without the key [config] is not fatal either: the secret
    store is asked, the error that names the secret is logged and
    [OnUpdate] goes on as it does without custom entities. *)
Theorem OnUpdate_missing_config_key (n : KongController) (w : World)
  (st : kongstate.KongState.t) t0 targetContent
  (ns name : string) (Data : gmap string bytes) :
  Configuration.InMemory (cfg n) = true ->
  Configuration.KongCustomEntitiesSecret (cfg n) <> EmptyString ->
  toDeckContent n st = (t0, Ok targetContent) ->
  ParseNameNS (Configuration.KongCustomEntitiesSecret (cfg n))
  = inr (ns, name) ->
  store_GetSecret w ns name = inr Data ->
  Data !! "config" = None ->
  OnUpdate n w st
  = (t0 ++ [GetSecret ns name;
            Errorf "failed to fetch custom entities: %v"
              (ArgError (errorString
                 (String.append
                    "'config' key not found in custom entities secret '"
                    (String.append
                       (Configuration.KongCustomEntitiesSecret (cfg n))
                       "'"))))]
        ++ (checkAndSync n w targetContent None).1,
     (checkAndSync n w targetContent None).2).
Proof.
  intros Hmode Hsecret Hcontent Hparse Hget Hkey.
  apply OnUpdate_checkAndSync; [done|].
  unfold customEntitiesOf, fetchCustomEntities.
  apply String.eqb_neq in Hsecret. rewrite Hmode, Hsecret, Hparse. simpl.
  by rewrite Hget, Hkey.
Qed.

End CustomEntities.

Lemma renderConfigWithCustomEntities_malformed_witness :
  renderConfigWithCustomEntities (H := doubles mergeTable) emptyContent
    (Some (list_byte_of_string "garbage"))
  = ([Errorf "failed to unmarshal custom entities from secret data: %v"
        (ArgError (errorString "invalid character"))],
     Ok (inr (list_byte_of_string (printMap coreMap)))).
Proof.
  apply (renderConfigWithCustomEntities_malformed (H := doubles mergeTable)
           emptyContent (Some (list_byte_of_string "garbage"))
           (list_byte_of_string "1.1") coreMap
           (errorString "invalid character")).
  - reflexivity.
  - vm_compute. lia.
  - vm_compute. reflexivity.
  - vm_compute. reflexivity.
Defined.

Lemma OnUpdate_missing_config_key_witness :
  (OnUpdate (controller true false "kong/entities" None) emptySecretWorld
     emptyState).1
  = [GetSecret "kong" "entities";
     Errorf "failed to fetch custom entities: %v"
       (ArgError (errorString
          "'config' key not found in custom entities secret 'kong/entities'"));
     ClientDo
       (configRequest (controller true false "kong/entities" None)
          (list_byte_of_string "1.1"));
     Info "successfully synced configuration to kong"].
Proof.
  rewrite (OnUpdate_missing_config_key (H := doubles [])
             (controller true false "kong/entities" None) emptySecretWorld
             emptyState [] emptyContent "kong" "entities" ∅);
    [vm_compute; reflexivity|reflexivity|discriminate|vm_compute; reflexivity
    |reflexivity..].
Defined.

(** ** The strategies: what is sent and what is returned *)

Section StrategiesMore.
Context `{Collaborators}.

(** When the document serializes and the address parses, the in-memory
    strategy makes exactly one request: a POST of the document, rendered
    without its [Info] and without the nulls that the clean-up removes, to
    [/config] with [check_hash=1]; it returns the error of the client,
    wrapped, or nil. *)
Theorem onUpdateInMemoryMode_posts (n : KongController) (w : World)
  (state : file.Content.t) (customEntities : option bytes)
  (tlog : list Event) (config : bytes) :
  renderConfigWithCustomEntities
    (cleanUpNullsInPluginConfigs (withoutInfo state)) customEntities
  = (tlog, Ok (inr config)) ->
  url_Parse (String.append (Kong.URL (Configuration.Kong (cfg n))) "/config")
  = None ->
  onUpdateInMemoryMode n w state customEntities
  = (tlog ++ [ClientDo (configRequest n config)],
     Ok (wrapError "posting new config to /config"
           <$> client_Do w (configRequest n config))).
Proof.
  intros Hrender Hurl. unfold onUpdateInMemoryMode.
  change (file.Content.mk (file.Content.FormatVersion state) None
            (file.Content.Services state) (file.Content.Routes state)
            (file.Content.Consumers state) (file.Content.Plugins state)
            (file.Content.Upstreams state) (file.Content.Certificates state)
            (file.Content.CACertificates state))
    with (withoutInfo state).
  rewrite Hrender. simpl. unfold http_NewRequest. rewrite Hurl. simpl.
  change (http.mkRequest "POST"
            (String.append (Kong.URL (Configuration.Kong (cfg n))) "/config")
            [("content-type", "application/json")] [("check_hash", "1")]
            config)
    with (configRequest n config).
  by destruct (client_Do w (configRequest n config)).
Qed.

(** When the document does not serialize or the address does not parse,
    the in-memory strategy returns an error and nothing is sent. *)
Theorem onUpdateInMemoryMode_fails_locally (n : KongController) (w : World)
  (state : file.Content.t) (customEntities : option bytes)
  (tlog : list Event) (rendered : error + bytes) :
  renderConfigWithCustomEntities
    (cleanUpNullsInPluginConfigs (withoutInfo state)) customEntities
  = (tlog, Ok rendered) ->
  match rendered with
  | inl _ => True
  | inr _ =>
    is_Some (url_Parse
               (String.append (Kong.URL (Configuration.Kong (cfg n)))
                  "/config"))
  end ->
  ~ calls_gateway (onUpdateInMemoryMode n w state customEntities).1 /\
  exists err,
    (onUpdateInMemoryMode n w state customEntities).2 = Ok (Some err) /\
    failedLocally (Some err).
Proof.
  intros Hrender Hlocal.
  destruct (renderConfigWithCustomEntities_total
              (cleanUpNullsInPluginConfigs (withoutInfo state))
              customEntities) as (t & r & Hrender' & Hquiet).
  rewrite Hrender in Hrender'. injection Hrender' as <- <-.
  unfold onUpdateInMemoryMode.
  change (file.Content.mk (file.Content.FormatVersion state) None
            (file.Content.Services state) (file.Content.Routes state)
            (file.Content.Consumers state) (file.Content.Plugins state)
            (file.Content.Upstreams state) (file.Content.Certificates state)
            (file.Content.CACertificates state))
    with (withoutInfo state).
  rewrite Hrender. destruct rendered as [err|config]; simpl.
  - rewrite app_nil_r. split; [by apply quiet_not_calls_gateway|].
    eexists. split; [done|]. exists err. by left.
  - unfold http_NewRequest. destruct Hlocal as [err ->]. simpl.
    rewrite app_nil_r. split; [by apply quiet_not_calls_gateway|].
    eexists. split; [done|]. exists err. by right.
Qed.

(** The incremental strategy dumps the gateway first and runs the solver
    at most once after that.  When the solver ran, its answer decides the
    result: nil for no errors, and the composite error for any list that
    is not nil, the empty one included.  Nil is returned only after the
    solver ran. *)
Theorem onUpdateDBMode_solver_decides (n : KongController) (w : World)
  (targetContent : file.Content.t) :
  (exists rest,
     (onUpdateDBMode n w targetContent).1
     = DumpGet (getIngressControllerTags n) :: rest /\
     Forall solverEvent rest /\ (length rest <= 1)%nat) /\
  (forall c errs,
     Solve c errs ∈ (onUpdateDBMode n w targetContent).1 ->
     (onUpdateDBMode n w targetContent).2 = Ok (ErrArray <$> errs)) /\
  ((onUpdateDBMode n w targetContent).2 = Ok None ->
   Solve (Kong.Concurrency (Configuration.Kong (cfg n))) None
     ∈ (onUpdateDBMode n w targetContent).1).
Proof.
  unfold onUpdateDBMode. simpl.
  destruct (dump_Get w _) as [err|raw]; simpl.
  { split_and!;
      [exists []; split_and!; [done|constructor|simpl; lia]| |done].
    by intros c errs [[=]|?%elem_of_nil]%elem_of_cons. }
  destruct (state_Get raw) as [err|current]; simpl.
  { split_and!;
      [exists []; split_and!; [done|constructor|simpl; lia]| |done].
    by intros c errs [[=]|?%elem_of_nil]%elem_of_cons. }
  destruct (file_Get _ _ _) as [err|raw']; simpl.
  { split_and!;
      [exists []; split_and!; [done|constructor|simpl; lia]| |done].
    by intros c errs [[=]|?%elem_of_nil]%elem_of_cons. }
  destruct (state_Get raw') as [err|target]; simpl.
  { split_and!;
      [exists []; split_and!; [done|constructor|simpl; lia]| |done].
    by intros c errs [[=]|?%elem_of_nil]%elem_of_cons. }
  destruct (diff_NewSyncer _ _) as [err|syncer]; simpl.
  { split_and!;
      [exists []; split_and!; [done|constructor|simpl; lia]| |done].
    by intros c errs [[=]|?%elem_of_nil]%elem_of_cons. }
  destruct (solver_Solve w syncer _) as [errs|]; simpl.
  - split_and!;
      [eexists; split_and!; [done|by repeat constructor|simpl; lia]| |done].
    intros c errs' [[=]|[= -> ->]%list_elem_of_singleton]%elem_of_cons.
    done.
  - split_and!;
      [eexists; split_and!; [done|by repeat constructor|simpl; lia]| |].
    + intros c errs' [[=]|[= -> ->]%list_elem_of_singleton]%elem_of_cons.
      done.
    + intros _. right. left.
Qed.

End StrategiesMore.

Lemma onUpdateInMemoryMode_posts_witness :
  onUpdateInMemoryMode (controller true false EmptyString None) calmWorld
    contentWithNulls None
  = ([ClientDo
        (configRequest (controller true false EmptyString None)
           (list_byte_of_string
              "1.1apiacl{b:1}v1cors{a:null,b:1}"))],
     Ok None).
Proof.
  apply (onUpdateInMemoryMode_posts (H := doubles [])
           (controller true false EmptyString None) calmWorld
           contentWithNulls None []);
    vm_compute; reflexivity.
Defined.

Lemma onUpdateInMemoryMode_fails_locally_witness :
  ~ calls_gateway
      (onUpdateInMemoryMode (controller true false EmptyString None)
         speechlessWorld emptyContent None).1.
Proof.
  apply (onUpdateInMemoryMode_fails_locally (H := failingMarshal)
           (controller true false EmptyString None) speechlessWorld
           emptyContent None []
           (inl (wrapError "marshaling kong config into json"
                   (errorString "json: unsupported value: NaN"))));
    [vm_compute; reflexivity|exact I].
Defined.

(** ** OnUpdate: modes, panics and the sequence of invocations *)

Section OnUpdateMore.
Context `{Collaborators}.

Lemma toDeckContent_cfg (n1 n2 : KongController)
  (st : kongstate.KongState.t) :
  cfg n1 = cfg n2 -> toDeckContent n1 st = toDeckContent n2 st.
Proof.
  intros Hcfg. unfold toDeckContent, getIngressControllerTags.
  by rewrite Hcfg.
Qed.

Lemma customEntitiesOf_cfg (n1 n2 : KongController) (w : World) :
  cfg n1 = cfg n2 -> customEntitiesOf n1 w = customEntitiesOf n2 w.
Proof.
  intros Hcfg. unfold customEntitiesOf, fetchCustomEntities.
  by rewrite Hcfg.
Qed.

Lemma checkAndSync_total (n : KongController) (w : World)
  (targetContent : file.Content.t) (customEntities : option bytes) :
  exists t r, checkAndSync n w targetContent customEntities = (t, Ok r).
Proof.
  destruct (proceeds n targetContent customEntities) eqn:Hproceeds.
  - rewrite checkAndSync_proceeds by done.
    destruct (reconcile_total n w targetContent customEntities)
      as (t & err & Hrun & _).
    rewrite (sync_reconcile _ _ _ _ _ _ _ Hrun).
    destruct err; by eexists _, _.
  - destruct (checkAndSync_stops n w targetContent customEntities Hproceeds)
      as (t & err & -> & _). by eexists _, _.
Qed.

Lemma customEntitiesOf_mode (n : KongController) (w : World) :
  Forall (eventOfMode (Configuration.InMemory (cfg n)))
    (customEntitiesOf n w).1.
Proof.
  unfold customEntitiesOf, fetchCustomEntities.
  destruct (Configuration.InMemory (cfg n)); simpl; [|constructor].
  destruct (negb _); simpl; [|constructor].
  destruct (ParseNameNS _) as [err|[ns name]]; simpl;
    [by repeat constructor|].
  destruct (store_GetSecret w ns name) as [err|Data];
    [|destruct (Data !! "config")]; simpl; by repeat constructor.
Qed.

Lemma reconcile_mode (n : KongController) (w : World)
  (targetContent : file.Content.t) (customEntities : option bytes) :
  Forall (eventOfMode (Configuration.InMemory (cfg n)))
    (reconcile n w targetContent customEntities).1.
Proof.
  unfold reconcile. destruct (Configuration.InMemory (cfg n)) eqn:Hmode.
  - unfold onUpdateInMemoryMode.
    destruct (renderConfigWithCustomEntities_total
                (cleanUpNullsInPluginConfigs (withoutInfo targetContent))
                customEntities) as (t & r & Hrender & Hquiet).
    assert (Forall (eventOfMode true) t) as Hlog.
    { eapply Forall_impl; [exact Hquiet|]. intros [] Hq; done. }
    change (file.Content.mk (file.Content.FormatVersion targetContent) None
              (file.Content.Services targetContent)
              (file.Content.Routes targetContent)
              (file.Content.Consumers targetContent)
              (file.Content.Plugins targetContent)
              (file.Content.Upstreams targetContent)
              (file.Content.Certificates targetContent)
              (file.Content.CACertificates targetContent))
      with (withoutInfo targetContent).
    rewrite Hrender. destruct r as [err|config]; simpl;
      [by rewrite app_nil_r|].
    destruct (http_NewRequest _ _ _) as [err|req]; simpl;
      [by rewrite app_nil_r|].
    destruct (client_Do w _); simpl; apply Forall_app;
      (split; [done|by repeat constructor]).
  - unfold onUpdateDBMode. simpl.
    destruct (dump_Get w _) as [err|raw]; simpl; [by repeat constructor|].
    destruct (state_Get raw) as [err|current]; simpl;
      [by repeat constructor|].
    destruct (file_Get _ _ _) as [err|raw']; simpl; [by repeat constructor|].
    destruct (state_Get raw') as [err|target]; simpl;
      [by repeat constructor|].
    destruct (diff_NewSyncer _ _) as [err|syncer]; simpl;
      [by repeat constructor|].
    destruct (solver_Solve w syncer _); simpl; by repeat constructor.
Qed.

Lemma sync_mode (n : KongController) (w : World)
  (targetContent : file.Content.t) (customEntities shaSum : option bytes) :
  Forall (eventOfMode (Configuration.InMemory (cfg n)))
    (sync n w targetContent customEntities shaSum).1.
Proof.
  pose proof (reconcile_mode n w targetContent customEntities) as Hmode.
  destruct (reconcile_total n w targetContent customEntities)
    as (t & err & Hrun & _).
  rewrite (sync_reconcile _ _ _ _ _ _ _ Hrun). rewrite Hrun in Hmode.
  destruct err; simpl; [done|].
  apply Forall_app. split; [done|]. by repeat constructor.
Qed.

Lemma checkAndSync_mode (n : KongController) (w : World)
  (targetContent : file.Content.t) (customEntities : option bytes) :
  Forall (eventOfMode (Configuration.InMemory (cfg n)))
    (checkAndSync n w targetContent customEntities).1.
Proof.
  unfold checkAndSync.
  destruct (Configuration.EnableReverseSync (cfg n)); simpl;
    [apply sync_mode|].
  destruct (generateSHA _ _); [constructor|].
  destruct (reflect_DeepEqual _ _); [by repeat constructor|apply sync_mode].
Qed.

(** An invocation uses the collaborators of its deployment mode only: the
    secret store and the bulk endpoint in in-memory mode, the dump and the
    solver in incremental mode. *)
Theorem OnUpdate_events_of_mode (n : KongController) (w : World)
  (st : kongstate.KongState.t) :
  Forall (eventOfMode (Configuration.InMemory (cfg n))) (OnUpdate n w st).1.
Proof.
  unfold OnUpdate. apply bind_trace; [by apply toDeckContent_trace|].
  intros targetContent. apply bind_trace; [apply customEntitiesOf_mode|].
  intros customEntities. apply checkAndSync_mode.
Qed.

(** [OnUpdate] panics exactly when the rendering of the desired state
    panics; nothing has then been sent to the gateway. *)
Theorem OnUpdate_panics_iff (n : KongController) (w : World)
  (st : kongstate.KongState.t) :
  (panics (OnUpdate n w st) <-> panics (toDeckContent n st)) /\
  (panics (OnUpdate n w st) -> ~ calls_gateway (OnUpdate n w st).1).
Proof.
  pose proof (toDeckContent_quiet n st) as Hquiet.
  destruct (toDeckContent n st) as [t0 [content|]] eqn:Hcontent.
  - destruct (customEntitiesOf_total n w) as (t1 & ce & Hcustom & _).
    rewrite (OnUpdate_checkAndSync _ _ _ _ _ _ _ Hcontent Hcustom).
    destruct (checkAndSync_total n w content ce) as (t & r & ->).
    unfold panics. simpl. split; [split|]; done.
  - unfold OnUpdate. rewrite Hcontent. unfold panics. simpl.
    split; [done|]. intros _. by apply quiet_not_calls_gateway.
Qed.

(** A document that does not serialize is fatal when the fingerprint is
    needed: with reverse sync disabled [OnUpdate] returns the error of
    [generateSHA], nothing is sent to the gateway and the controller is
    left as it was. *)
Theorem OnUpdate_fingerprint_failure (n : KongController) (w : World)
  (st : kongstate.KongState.t) t0 targetContent t1 customEntities err :
  Configuration.EnableReverseSync (cfg n) = false ->
  toDeckContent n st = (t0, Ok targetContent) ->
  customEntitiesOf n w = (t1, Ok customEntities) ->
  json_Marshal targetContent = inl err ->
  OnUpdate n w st
  = (t0 ++ t1,
     Ok (Some (wrapError "marshaling Kong declarative configuration to JSON"
                 err), n)) /\
  ~ calls_gateway (OnUpdate n w st).1.
Proof.
  intros Hreverse Hcontent Hcustom Hjson.
  assert (OnUpdate n w st
          = (t0 ++ t1,
             Ok (Some (wrapError
                         "marshaling Kong declarative configuration to JSON"
                         err), n))) as Hrun.
  { rewrite (OnUpdate_checkAndSync _ _ _ _ _ _ _ Hcontent Hcustom).
    unfold checkAndSync, generateSHA. rewrite Hreverse, Hjson. simpl.
    by rewrite app_nil_r. }
  split; [done|]. rewrite Hrun. simpl. apply quiet_not_calls_gateway.
  pose proof (toDeckContent_quiet n st) as Hq0. rewrite Hcontent in Hq0.
  destruct (customEntitiesOf_total n w) as (t1' & ce & Hcustom' & Hq1).
  rewrite Hcustom in Hcustom'. injection Hcustom' as <- _.
  by apply Forall_app.
Qed.

(** After an invocation that returned nil with reverse sync disabled, the
    configuration of the controller is the same and the fingerprint that it
    holds is that of the document as rendered in that invocation, before
    the strategy removed anything from it, followed by the custom entities.
    An invocation that follows is a no-op whenever the desired state that
    it finds renders to that same document and the custom entities are
    the same: it returns nil, sends nothing to the gateway and leaves the
    controller as it is. *)
Theorem OnUpdate_then_skips (n : KongController) (w : World)
  (st : kongstate.KongState.t) (t : list Event) (n' : KongController) :
  Configuration.EnableReverseSync (cfg n) = false ->
  OnUpdate n w st = (t, Ok (None, n')) ->
  exists targetContent customEntities sum,
    returns (toDeckContent n st) targetContent /\
    returns (customEntitiesOf n w) customEntities /\
    generateSHA targetContent customEntities = inr sum /\
    n' = mkKongController (cfg n) (Some sum) /\
    forall w2 st2,
      returns (toDeckContent n' st2) targetContent ->
      returns (customEntitiesOf n' w2) customEntities ->
      (OnUpdate n' w2 st2).2 = Ok (None, n') /\
      ~ calls_gateway (OnUpdate n' w2 st2).1.
Proof.
  intros Hreverse Hrun. unfold returns.
  destruct (toDeckContent n st) as [t0 [content|]] eqn:Hcontent;
    [|unfold OnUpdate in Hrun; by rewrite Hcontent in Hrun].
  destruct (customEntitiesOf_total n w) as (t1 & ce & Hcustom & _).
  rewrite (OnUpdate_checkAndSync _ _ _ _ _ _ _ Hcontent Hcustom) in Hrun.
  assert (exists sum,
            generateSHA content ce = inr sum /\
            n' = mkKongController (cfg n) (Some sum))
    as (sum & Hsum & ->).
  { unfold checkAndSync in Hrun. rewrite Hreverse in Hrun. simpl in Hrun.
    destruct (generateSHA content ce) as [err|sum]; [done|].
    exists sum. split; [done|].
    destruct (reflect_DeepEqual _ _) eqn:Hequal.
    - injection Hrun as _ <-.
      unfold reflect_DeepEqual in Hequal.
      apply bool_decide_eq_true_1 in Hequal. destruct n. simpl in *.
      by rewrite Hequal.
    - destruct (reconcile_total n w content ce) as (t2 & err & Hrec & _).
      rewrite (sync_reconcile _ _ _ _ _ _ _ Hrec) in Hrun.
      destruct err; [done|]. by injection Hrun as _ <-. }
  exists content, ce, sum. rewrite Hcustom. split_and!; [done..|].
  set (n' := mkKongController (cfg n) (Some sum)).
  intros w2 st2 Hrendered Hsame.
  pose proof (toDeckContent_quiet n' st2) as Hq2.
  destruct (toDeckContent n' st2) as [t0' content'] eqn:Hcontent2.
  simpl in Hrendered. subst content'.
  destruct (customEntitiesOf_total n' w2) as (t1' & ce' & Hcustom2 & Hq1).
  rewrite Hcustom2 in Hsame. simpl in Hsame. injection Hsame as ->.
  rewrite (OnUpdate_checkAndSync _ _ _ _ _ _ _ Hcontent2 Hcustom2).
  unfold checkAndSync. simpl. rewrite Hreverse, Hsum. simpl.
  unfold reflect_DeepEqual. rewrite bool_decide_eq_true_2 by done. simpl.
  split; [done|]. apply quiet_not_calls_gateway.
  rewrite !Forall_app. split_and!; [done..|]. by repeat constructor.
Qed.

End OnUpdateMore.

Lemma OnUpdate_fingerprint_failure_witness :
  OnUpdate (H := failingMarshal) (controller false false EmptyString None)
    speechlessWorld emptyState
  = ([],
     Ok (Some (wrapError "marshaling Kong declarative configuration to JSON"
                 (errorString "json: unsupported value: NaN")),
         controller false false EmptyString None)).
Proof.
  apply (OnUpdate_fingerprint_failure (H := failingMarshal)
           (controller false false EmptyString None) speechlessWorld
           emptyState [] emptyContent [] None
           (errorString "json: unsupported value: NaN"));
    vm_compute; reflexivity.
Defined.

Lemma OnUpdate_then_skips_witness :
  (OnUpdate (controller false false EmptyString (Some exampleFingerprint))
     calmWorld exampleState).2
  = Ok (None, controller false false EmptyString (Some exampleFingerprint)).
Proof.
  destruct (OnUpdate_then_skips (H := doubles [])
              (controller false false EmptyString None) calmWorld
              exampleState
              [DumpGet []; Solve 10 None;
               Info "successfully synced configuration to kong"]
              (controller false false EmptyString (Some exampleFingerprint)))
    as (content & ce & sum & Hcontent & Hcustom & _ & _ & Hnext);
    [reflexivity|vm_compute; reflexivity|].
  unfold returns in *. apply (Hnext calmWorld exampleState).
  - rewrite <- Hcontent. vm_compute. reflexivity.
  - rewrite <- Hcustom. reflexivity.
Defined.
